(** * Hi-Diff transformer with an MAE latent: shapes, control flow and layer arithmetic

    A shallow embedding of [hi_diff/archs/Transformer_arch.py].

    The network is written once, against an interface [Torch T] of the tensor
    operations the file calls ([torch], [torch.nn.functional], [einops]).
    Every [nn.Module] subclass is a Rocq module holding a record of the
    parameters and sub-modules its [__init__] creates, an [init] and a
    [forward].  These readings of the interface are used:

    - any [T] at all, for statements about which sub-modules a forward pass
      reaches and which exceptions it can raise;
    - [T := list N], the shape of a tensor, where every operation checks what
      the library checks and fails where it raises;
    - real-valued vectors and matrices for the formulas of the layer norms
      and of the attention core (exact real arithmetic, no rounding);
    - IEEE 754 floats, binary32 and binary64, for what rounding does to the
      layer norm with bias. *)

From Stdlib Require Import Floats.
From Stdlib Require Import List NArith ZArith QArith Qround Bool String Lia.
From Stdlib Require Import Reals Qreals Lra.
Import ListNotations.

Set Implicit Arguments.
Local Open Scope N_scope.

(* A decimal literal denotes the nearest binary64 float, as it does in Python. *)
Set Warnings "-inexact-float".

(** ** Exceptions and the result monad *)

Inductive exn : Type :=
| RuntimeError                      (* raised inside torch or einops: shapes do not fit *)
| ValueError                        (* tuple unpacking of [x.shape]; constructor argument checks *)
| AttributeError (attr : string)    (* [self.attr] where [__init__] never set [attr] *)
| IndexError                        (* [heads[i]], [num_blocks[i]] past the end *)
| ZeroDivisionError                 (* [dim // 0], [0 ** -0.5] *)
| OverflowError                     (* [int * float] with an int past the floats; [int(inf)] *)
| NoneTypeError.                    (* a layer applied to [None] *)

Inductive result (A : Type) : Type :=
| Ok (a : A)
| Raise (e : exn).
Arguments Ok {A} a.
Arguments Raise {A} e.

Definition bind {A B} (r : result A) (k : A -> result B) : result B :=
  match r with
  | Ok a => k a
  | Raise e => Raise e
  end.

Notation "x <- c ;; k" := (bind c (fun x => k))
  (at level 61, c at next level, right associativity).
Notation "' pat <- c ;; k" := (bind c (fun x => match x with pat => k end))
  (at level 61, pat pattern, c at next level, right associativity).

(** A failure of a library operation surfaces as the library's exception. *)
Definition lift {A} (o : option A) : result A :=
  match o with
  | Some a => Ok a
  | None => Raise RuntimeError
  end.

Definition is_ok {A} (r : result A) : bool :=
  match r with Ok _ => true | Raise _ => false end.

(** [for blk in xs: x = f(blk, x)] *)
Fixpoint for_each {A X} (f : A -> X -> result X) (xs : list A) (x : X) : result X :=
  match xs with
  | [] => Ok x
  | a :: xs' => x' <- f a x ;; for_each f xs' x'
  end.

(** [[f(i) for i in range(n)]] where [f] may raise *)
Fixpoint build_list {A} (f : result A) (n : nat) : result (list A) :=
  match n with
  | O => Ok []
  | S n' => a <- f ;; l <- build_list f n' ;; Ok (a :: l)
  end.

(** [xs[i]] on a Python list *)
Definition getitem {A} (xs : list A) (i : nat) : result A :=
  match nth_error xs i with
  | Some a => Ok a
  | None => Raise IndexError
  end.

(** ** The tensor library *)

(** The [einops] patterns that occur in the file. *)
Inductive pattern : Type :=
| bchw_to_b_hw_c                       (* 'b c h w -> b (h w) c' *)
| b_hw_c_to_bchw (h w : N)             (* 'b (h w) c -> b c h w', h=h, w=w *)
| split_heads_4d (head : N)            (* 'b (head c) h w -> b head c (h w)' *)
| merge_heads_4d (head h w : N)        (* 'b head c (h w) -> b (head c) h w' *)
| split_heads_3d (head : N)            (* 'b n (head c) -> b head n c' *)
| merge_heads_3d (head : N)            (* 'b head n c -> b n (head c)' *)
| bnc_to_bcn                           (* 'b n c -> b c n' *)
| bcn_to_bnc.                          (* 'b c n -> b n c' *)

(** Python scalars that multiply or shift a tensor. *)
Inductive scalar : Type :=
| lit (q : Q)              (* a float literal such as 1e-5 *)
| pow_neg_half (n : N).    (* n ** -0.5 *)

Class Torch (T : Type) : Type := {
  (* x.shape *)
  shape : T -> list N;
  (* torch.ones / torch.zeros / the freshly initialised weight of a layer *)
  ones : list N -> T;
  zeros : list N -> T;
  empty : list N -> T;
  (* einops.rearrange *)
  rearrange : pattern -> T -> option T;
  (* F.conv2d input weight bias, stride 1, padding, groups *)
  conv2d : T -> T -> option T -> N -> N -> option T;
  (* F.linear input weight bias *)
  linear : T -> T -> option T -> option T;
  (* x.mean(-1, keepdim=True), x.var(-1, keepdim=True, unbiased=False) *)
  mean_last : T -> T;
  var_last : T -> T;
  (* broadcasting arithmetic *)
  add : T -> T -> option T;
  sub : T -> T -> option T;
  mul : T -> T -> option T;
  div : T -> T -> option T;
  add_scalar : T -> scalar -> T;
  mul_scalar : T -> scalar -> T;
  (* torch.sqrt, F.gelu, x.softmax(dim=-1), F.normalize(x, dim=-1) *)
  torch_sqrt : T -> T;
  gelu : T -> T;
  softmax_last : T -> T;
  normalize_last : T -> T;
  (* a @ b, x.transpose(-2, -1), x.unsqueeze(-1) *)
  matmul : T -> T -> option T;
  transpose_last2 : T -> option T;
  unsqueeze_last : T -> T;
  (* x.chunk(chunks, dim), x.permute(dims), x.view(sizes), x.flatten(start), x.contiguous() *)
  chunk : T -> N -> Z -> option (list T);
  permute : T -> list N -> option T;
  view : T -> list N -> option T;
  flatten : T -> N -> option T;
  contiguous : T -> T;
  (* nn.PixelShuffle(r), nn.PixelUnshuffle(r), nn.Upsample(size=(h, w), mode="bilinear") *)
  pixel_shuffle : N -> T -> option T;
  pixel_unshuffle : N -> T -> option T;
  upsample_bilinear : N * N -> T -> option T
}.

(** [a, b = xs] and friends: unpacking raises unless the lengths agree. *)
Definition unpack2 {A} (xs : list A) : result (A * A) :=
  match xs with
  | [a; b] => Ok (a, b)
  | _ => Raise ValueError
  end.

Definition unpack3 {A} (xs : list A) : result (A * A * A) :=
  match xs with
  | [a; b; c] => Ok (a, b, c)
  | _ => Raise ValueError
  end.

Definition unpack4 {A} (xs : list A) : result (A * A * A * A) :=
  match xs with
  | [a; b; c; d] => Ok (a, b, c, d)
  | _ => Raise ValueError
  end.

(** [xs[-2:]] *)
Definition last2 {A} (xs : list A) : list A :=
  skipn (List.length xs - 2)%nat xs.

(** ** nn.Conv2d and nn.Linear *)

Module Conv2d.
Section defs.
Context {T : Type} {TT : Torch T}.

Record t : Type := {
  weight : T;
  bias : option T;
  padding : N;
  groups : N
}.

(* nn.Conv2d(in_channels, out_channels, kernel_size, stride=1, padding, groups, bias) *)
Definition init (in_channels out_channels kernel_size padding groups : N) (bias : bool)
  : result t :=
  if groups =? 0 then Raise ValueError
  else if negb (in_channels mod groups =? 0) then Raise ValueError
  else if negb (out_channels mod groups =? 0) then Raise ValueError
  else Ok {| weight := empty [out_channels; in_channels / groups; kernel_size; kernel_size];
             bias := if bias then Some (empty [out_channels]) else None;
             padding := padding;
             groups := groups |}.

Definition forward (m : t) (x : T) : result T :=
  lift (conv2d x (weight m) (bias m) (padding m) (groups m)).

End defs.
Arguments t T : clear implicits.
End Conv2d.

Module Linear.
Section defs.
Context {T : Type} {TT : Torch T}.

Record t : Type := {
  weight : T;
  bias : option T
}.

(* nn.Linear(in_features, out_features, bias) *)
Definition init (in_features out_features : N) (bias : bool) : t :=
  {| weight := empty [out_features; in_features];
     bias := if bias then Some (empty [out_features]) else None |}.

Definition forward (m : t) (x : T) : result T :=
  lift (linear x (weight m) (bias m)).

End defs.
Arguments t T : clear implicits.
End Linear.

(** ** Layer Norm *)

Definition to_3d {T} {TT : Torch T} (x : T) : result T :=
  lift (rearrange bchw_to_b_hw_c x).

Definition to_4d {T} {TT : Torch T} (x : T) (h w : N) : result T :=
  lift (rearrange (b_hw_c_to_bchw h w) x).

(** The literal [1e-5] of both layer norms. *)
Definition layer_norm_eps : Q := 1 # 100000.

Module BiasFree_LayerNorm.
Section defs.
Context {T : Type} {TT : Torch T}.

Record t : Type := {
  weight : T;
  normalized_shape : list N
}.

Definition init (normalized_shape : N) : t :=
  {| weight := ones [normalized_shape];
     normalized_shape := [normalized_shape] |}.

Definition forward (m : t) (x : T) : result T :=
  let sigma := var_last x in
  y <- lift (div x (torch_sqrt (add_scalar sigma (lit layer_norm_eps)))) ;;
  lift (mul y (weight m)).

End defs.
Arguments t T : clear implicits.
End BiasFree_LayerNorm.

Module WithBias_LayerNorm.
Section defs.
Context {T : Type} {TT : Torch T}.

Record t : Type := {
  weight : T;
  bias : T;
  normalized_shape : list N
}.

Definition init (normalized_shape : N) : t :=
  {| weight := ones [normalized_shape];
     bias := zeros [normalized_shape];
     normalized_shape := [normalized_shape] |}.

Definition forward (m : t) (x : T) : result T :=
  let mu := mean_last x in
  let sigma := var_last x in
  c <- lift (sub x mu) ;;
  y <- lift (div c (torch_sqrt (add_scalar sigma (lit layer_norm_eps)))) ;;
  z <- lift (mul y (weight m)) ;;
  lift (add z (bias m)).

End defs.
Arguments t T : clear implicits.
End WithBias_LayerNorm.

(** [self.body] of both layer-norm wrappers: one of the two variants. *)
Inductive norm_body (T : Type) : Type :=
| BiasFree (m : BiasFree_LayerNorm.t T)
| WithBias (m : WithBias_LayerNorm.t T).
Arguments BiasFree {T} m.
Arguments WithBias {T} m.

Definition norm_body_init {T} {TT : Torch T} (dim : N) (LayerNorm_type : string)
  : norm_body T :=
  if String.eqb LayerNorm_type "BiasFree"
  then BiasFree (BiasFree_LayerNorm.init dim)
  else WithBias (WithBias_LayerNorm.init dim).

Definition norm_body_forward {T} {TT : Torch T} (body : norm_body T) (x : T) : result T :=
  match body with
  | BiasFree m => BiasFree_LayerNorm.forward m x
  | WithBias m => WithBias_LayerNorm.forward m x
  end.

Module LayerNorm.
Section defs.
Context {T : Type} {TT : Torch T}.

Record t : Type := { body : norm_body T }.

Definition init (dim : N) (LayerNorm_type : string) : t :=
  {| body := norm_body_init dim LayerNorm_type |}.

Definition forward (m : t) (x : T) : result T :=
  '(h, w) <- unpack2 (last2 (shape x)) ;;
  x3 <- to_3d x ;;
  y <- norm_body_forward (body m) x3 ;;
  to_4d y h w.

End defs.
Arguments t T : clear implicits.
End LayerNorm.

Module LayerNorm_Without_Shape.
Section defs.
Context {T : Type} {TT : Torch T}.

Record t : Type := { body : norm_body T }.

Definition init (dim : N) (LayerNorm_type : string) : t :=
  {| body := norm_body_init dim LayerNorm_type |}.

Definition forward (m : t) (x : T) : result T :=
  '(h, w) <- unpack2 (last2 (shape x)) ;;
  norm_body_forward (body m) x.

End defs.
Arguments t T : clear implicits.
End LayerNorm_Without_Shape.

(** ** FiLM projections of the prior

    [if group == 1: self.ln1 = nn.Linear(embed_dim*4, dim); self.ln2 = ...].
    A module built with another [group] has neither attribute. *)

Definition film_init {T} {TT : Torch T} (dim embed_dim group : N)
  : option (Linear.t T) :=
  if group =? 1 then Some (Linear.init (embed_dim * 4) dim true) else None.

(** [self.<attr>(prior).unsqueeze(-1).unsqueeze(-1)] *)
Definition film_factor {T} {TT : Torch T} (attr : string) (ln : option (Linear.t T))
  (prior : T) : result T :=
  match ln with
  | None => Raise (AttributeError attr)
  | Some l =>
      k <- Linear.forward l prior ;;
      Ok (unsqueeze_last (unsqueeze_last k))
  end.

(** The conditioning prologue shared by [FeedForward.forward] and
    [Attention.forward]:
    [if prior is not None: k1 = ...; k2 = ...; x = (x * k1) + k2]. *)
Definition film {T} {TT : Torch T} (ln1 ln2 : option (Linear.t T)) (x : T)
  (prior : option T) : result T :=
  match prior with
  | None => Ok x
  | Some p =>
      k1 <- film_factor "ln1" ln1 p ;;
      k2 <- film_factor "ln2" ln2 p ;;
      xk <- lift (mul x k1) ;;
      lift (add xk k2)
  end.

(** ** Python floats

    A Python float is an IEEE 754 binary64 number: the primitive type [float],
    whose operations round to nearest, ties to even. *)

(** [float(n)] for an int, as [n * x] does to [n] when [x] is a float: the
    nearest float, and [OverflowError] when that is past the largest one. *)
Definition py_float (n : Z) : result float :=
  match binary_normalize prec emax n 0 false with
  | S754_infinity _ => Raise OverflowError
  | x => Ok (SF2Prim x)
  end.

(** [int(x)] for a float: truncation towards zero; [ValueError] on a NaN,
    [OverflowError] on an infinity. *)
Definition py_int (x : float) : result Z :=
  match Prim2SF x with
  | S754_zero _ => Ok 0%Z
  | S754_finite s m e =>
      let a := Z.shiftl (Zpos m) e in
      Ok (if s then (- a)%Z else a)
  | S754_infinity _ => Raise OverflowError
  | S754_nan => Raise ValueError
  end.

(** [int(dim * ffn_expansion_factor)] *)
Definition hidden_features_of (dim : N) (ffn_expansion_factor : float) : result Z :=
  d <- py_float (Z.of_N dim) ;;
  py_int (d * ffn_expansion_factor)%float.

(** ** Gated-Dconv Feed-Forward Network (GDFN) *)

Module FeedForward.
Section defs.
Context {T : Type} {TT : Torch T}.

Record t : Type := {
  project_in : Conv2d.t T;
  dwconv : Conv2d.t T;
  project_out : Conv2d.t T;
  ln1 : option (Linear.t T);
  ln2 : option (Linear.t T)
}.

(* [torch.empty] raises on the negative size that a negative
   [hidden_features] gives the weight of [project_in]. *)
Definition init (dim : N) (ffn_expansion_factor : float) (bias : bool) (embed_dim group : N)
  : result t :=
  hidden <- hidden_features_of dim ffn_expansion_factor ;;
  match hidden with
  | Zneg _ => Raise RuntimeError
  | _ =>
      let hidden_features := Z.to_N hidden in
      pin <- Conv2d.init dim (hidden_features * 2) 1 0 1 bias ;;
      dw <- Conv2d.init (hidden_features * 2) (hidden_features * 2) 3 1
              (hidden_features * 2) bias ;;
      pout <- Conv2d.init hidden_features dim 1 0 1 bias ;;
      Ok {| project_in := pin; dwconv := dw; project_out := pout;
            ln1 := film_init dim embed_dim group;
            ln2 := film_init dim embed_dim group |}
  end.

Definition forward (m : t) (x : T) (prior : option T) : result T :=
  x <- film (ln1 m) (ln2 m) x prior ;;
  x <- Conv2d.forward (project_in m) x ;;
  d <- Conv2d.forward (dwconv m) x ;;
  '(x1, x2) <- (c <- lift (chunk d 2 1) ;; unpack2 c) ;;
  x <- lift (mul (gelu x1) x2) ;;
  Conv2d.forward (project_out m) x.

End defs.
Arguments t T : clear implicits.
End FeedForward.

(** ** Multi-DConv Head Transposed Self-Attention (MDTA) *)

Module Attention.
Section defs.
Context {T : Type} {TT : Torch T}.

Record t : Type := {
  num_heads : N;
  temperature : T;
  qkv : Conv2d.t T;
  qkv_dwconv : Conv2d.t T;
  project_out : Conv2d.t T;
  ln1 : option (Linear.t T);
  ln2 : option (Linear.t T)
}.

Definition init (dim num_heads : N) (bias : bool) (embed_dim group : N) : result t :=
  c1 <- Conv2d.init dim (dim * 3) 1 0 1 bias ;;
  c2 <- Conv2d.init (dim * 3) (dim * 3) 3 1 (dim * 3) bias ;;
  c3 <- Conv2d.init dim dim 1 0 1 bias ;;
  Ok {| num_heads := num_heads;
        temperature := ones [num_heads; 1; 1];
        qkv := c1; qkv_dwconv := c2; project_out := c3;
        ln1 := film_init dim embed_dim group;
        ln2 := film_init dim embed_dim group |}.

Definition forward (m : t) (x : T) (prior : option T) : result T :=
  '(b, c, h, w) <- unpack4 (shape x) ;;
  x <- film (ln1 m) (ln2 m) x prior ;;
  qkv <- (y <- Conv2d.forward (qkv m) x ;; Conv2d.forward (qkv_dwconv m) y) ;;
  '(q, k, v) <- (c <- lift (chunk qkv 3 1) ;; unpack3 c) ;;
  q <- lift (rearrange (split_heads_4d (num_heads m)) q) ;;
  k <- lift (rearrange (split_heads_4d (num_heads m)) k) ;;
  v <- lift (rearrange (split_heads_4d (num_heads m)) v) ;;
  let q := normalize_last q in
  let k := normalize_last k in
  attn <- (kt <- lift (transpose_last2 k) ;;
           qk <- lift (matmul q kt) ;;
           lift (mul qk (temperature m))) ;;
  let attn := softmax_last attn in
  out <- lift (matmul attn v) ;;
  out <- lift (rearrange (merge_heads_4d (num_heads m) h w) out) ;;
  Conv2d.forward (project_out m) out.

End defs.
Arguments t T : clear implicits.
End Attention.

(** ** Hierarchical Integration Module *)

Module HIM.
Section defs.
Context {T : Type} {TT : Torch T}.

Record t : Type := {
  num_heads : N;
  scale : scalar;
  norm1 : LayerNorm_Without_Shape.t T;
  norm2 : LayerNorm_Without_Shape.t T;
  q : Linear.t T;
  kv : Linear.t T;
  proj : Linear.t T
}.

(* qk_scale is never passed: the scale is [head_dim ** -0.5] *)
Definition init (dim num_heads : N) (bias : bool) (embed_dim : N) (LayerNorm_type : string)
  : result t :=
  if num_heads =? 0 then Raise ZeroDivisionError
  else
    let head_dim := dim / num_heads in
    if head_dim =? 0 then Raise ZeroDivisionError
    else Ok {| num_heads := num_heads;
               scale := pow_neg_half head_dim;
               norm1 := LayerNorm_Without_Shape.init dim LayerNorm_type;
               norm2 := LayerNorm_Without_Shape.init (embed_dim * 4) LayerNorm_type;
               q := Linear.init dim dim bias;
               kv := Linear.init (embed_dim * 4) (2 * dim) bias;
               proj := Linear.init dim dim true |}.

Definition forward (m : t) (x : T) (prior : T) : result T :=
  '(B, C, H, W) <- unpack4 (shape x) ;;
  x <- lift (rearrange bchw_to_b_hw_c x) ;;
  _x <- LayerNorm_Without_Shape.forward (norm1 m) x ;;
  prior <- LayerNorm_Without_Shape.forward (norm2 m) prior ;;
  q <- Linear.forward (q m) _x ;;
  kv <- Linear.forward (kv m) prior ;;
  '(k, v) <- (c <- lift (chunk kv 2 (-1)) ;; unpack2 c) ;;
  q <- lift (rearrange (split_heads_3d (num_heads m)) q) ;;
  k <- lift (rearrange (split_heads_3d (num_heads m)) k) ;;
  v <- lift (rearrange (split_heads_3d (num_heads m)) v) ;;
  attn <- (kt <- lift (transpose_last2 k) ;;
           qk <- lift (matmul q kt) ;;
           Ok (mul_scalar qk (scale m))) ;;
  let attn := softmax_last attn in
  out <- lift (matmul attn v) ;;
  out <- lift (rearrange (merge_heads_3d (num_heads m)) out) ;;
  out <- Linear.forward (proj m) out ;;
  x <- lift (add x out) ;;
  x <- lift (rearrange (b_hw_c_to_bchw H W) x) ;;
  Ok (contiguous x).

End defs.
Arguments t T : clear implicits.
End HIM.

(** ** Transformer block *)

Module TransformerBlock.
Section defs.
Context {T : Type} {TT : Torch T}.

Record t : Type := {
  norm1 : LayerNorm.t T;
  attn : Attention.t T;
  norm2 : LayerNorm.t T;
  ffn : FeedForward.t T
}.

Definition init (dim num_heads : N) (ffn_expansion_factor : float) (bias : bool)
  (LayerNorm_type : string) (embed_dim group : N) : result t :=
  a <- Attention.init dim num_heads bias embed_dim group ;;
  f <- FeedForward.init dim ffn_expansion_factor bias embed_dim group ;;
  Ok {| norm1 := LayerNorm.init dim LayerNorm_type;
        attn := a;
        norm2 := LayerNorm.init dim LayerNorm_type;
        ffn := f |}.

Definition forward (m : t) (x : T) (prior : option T) : result T :=
  x <- (n <- LayerNorm.forward (norm1 m) x ;;
        a <- Attention.forward (attn m) n prior ;;
        lift (add x a)) ;;
  x <- (n <- LayerNorm.forward (norm2 m) x ;;
        f <- FeedForward.forward (ffn m) n prior ;;
        lift (add x f)) ;;
  Ok x.

End defs.
Arguments t T : clear implicits.
End TransformerBlock.

(** ** Overlapped image patch embedding with 3x3 Conv *)

Module OverlapPatchEmbed.
Section defs.
Context {T : Type} {TT : Torch T}.

Record t : Type := { proj : Conv2d.t T }.

Definition init (in_c embed_dim : N) (bias : bool) : result t :=
  c <- Conv2d.init in_c embed_dim 3 1 1 bias ;;
  Ok {| proj := c |}.

Definition forward (m : t) (x : T) : result T :=
  Conv2d.forward (proj m) x.

End defs.
Arguments t T : clear implicits.
End OverlapPatchEmbed.

(** ** Resizing modules

    [self.body] is [nn.Sequential(conv, nn.PixelUnshuffle(2))], respectively
    [nn.Sequential(conv, nn.PixelShuffle(2))]; the convolution is the only
    layer with parameters. *)

Module Downsample.
Section defs.
Context {T : Type} {TT : Torch T}.

Record t : Type := { body_conv : Conv2d.t T }.

Definition init (n_feat : N) : result t :=
  c <- Conv2d.init n_feat (n_feat / 2) 3 1 1 false ;;
  Ok {| body_conv := c |}.

Definition forward (m : t) (x : T) : result T :=
  y <- Conv2d.forward (body_conv m) x ;;
  lift (pixel_unshuffle 2 y).

End defs.
Arguments t T : clear implicits.
End Downsample.

Module Upsample.
Section defs.
Context {T : Type} {TT : Torch T}.

Record t : Type := { body_conv : Conv2d.t T }.

Definition init (n_feat : N) : result t :=
  c <- Conv2d.init n_feat (n_feat * 2) 3 1 1 false ;;
  Ok {| body_conv := c |}.

Definition forward (m : t) (x : T) : result T :=
  y <- Conv2d.forward (body_conv m) x ;;
  lift (pixel_shuffle 2 y).

End defs.
Arguments t T : clear implicits.
End Upsample.

(** ** A stage: optional fusion, then the blocks *)

Module BasicLayer.
Section defs.
Context {T : Type} {TT : Torch T}.

Record t : Type := {
  group : N;
  blocks : list (TransformerBlock.t T);
  him : option (HIM.t T)          (* set only [if self.group > 1] *)
}.

Definition init (dim num_heads : N) (ffn_expansion_factor : float) (bias : bool)
  (LayerNorm_type : string) (embed_dim : N) (num_blocks : nat) (group : N) : result t :=
  bs <- build_list (TransformerBlock.init dim num_heads ffn_expansion_factor bias
                      LayerNorm_type embed_dim group) num_blocks ;;
  h <- (if 1 <? group
        then h <- HIM.init dim num_heads bias embed_dim LayerNorm_type ;; Ok (Some h)
        else Ok None) ;;
  Ok {| group := group; blocks := bs; him := h |}.

(** [self.him(x, prior)] *)
Definition call_him (m : t) (x prior : T) : result T :=
  match him m with
  | Some h => HIM.forward h x prior
  | None => Raise (AttributeError "him")
  end.

(** [for blk in self.blocks: x = blk(x, prior)] *)
Definition run_blocks (bs : list (TransformerBlock.t T)) (x : T) (prior : option T)
  : result T :=
  for_each (fun blk x => TransformerBlock.forward blk x prior) bs x.

Definition forward (m : t) (x : T) (prior : option T) : result T :=
  '(x, prior) <- match prior with
                 | Some p =>
                     if 1 <? group m
                     then x <- call_him m x p ;; Ok (x, None)
                     else Ok (x, prior)
                 | None => Ok (x, prior)
                 end ;;
  run_blocks (blocks m) x prior.

End defs.
Arguments t T : clear implicits.
End BasicLayer.

(** ** The multi-scale prior

    [self.down_1] and [self.down_2] are
    [nn.Sequential(Rearrange('b n c -> b c n'), nn.Linear(n_in, n_out),
                   Rearrange('b c n -> b n c'), nn.Linear(embed_dim*4, embed_dim*4))];
    the two linear layers carry the parameters. *)

Module PriorDown.
Section defs.
Context {T : Type} {TT : Torch T}.

Record t : Type := {
  tokens : Linear.t T;
  channels : Linear.t T
}.

Definition init (n_in n_out embed_dim : N) : t :=
  {| tokens := Linear.init n_in n_out true;
     channels := Linear.init (embed_dim * 4) (embed_dim * 4) true |}.

(* The argument is whatever the caller passes; the first layer raises on None. *)
Definition forward (m : t) (x : option T) : result T :=
  match x with
  | None => Raise NoneTypeError
  | Some x =>
      x <- lift (rearrange bnc_to_bcn x) ;;
      x <- Linear.forward (tokens m) x ;;
      x <- lift (rearrange bcn_to_bnc x) ;;
      Linear.forward (channels m) x
  end.

End defs.
Arguments t T : clear implicits.
End PriorDown.

(** ** The masked-autoencoder encoder

    [hi_diff.archs.mae_encoder.MaskedAutoencoderViT] is imported, not defined,
    by the file: its constructor, its forward pass and the loading of a
    checkpoint are the operations of this interface. *)

Class MaskedAutoencoderViT (T : Type) : Type := {
  mae_module : Type;
  (* mae(img_size, patch_size, in_chans, embed_dim, depth, num_heads) *)
  mae : N -> N -> N -> N -> N -> N -> result mae_module;
  mae_forward : mae_module -> T -> result T;
  (* load_state_dict(torch.load(path), strict=False) *)
  mae_load_state_dict : mae_module -> string -> result mae_module
}.

(** ** The network *)

Module Config.
Record t : Type := {
  inp_channels : N;
  out_channels : N;
  dim : N;
  num_blocks : list nat;
  num_refinement_blocks : nat;
  heads : list N;
  ffn_expansion_factor : float;
  bias : bool;
  LayerNorm_type : string;
  dual_pixel_task : bool;
  embed_dim : N;
  group : N;
  mae_weights_path : option string
}.
End Config.

(** The default arguments of [Transformer.__init__]. *)
Definition default_config : Config.t :=
  {| Config.inp_channels := 3;
     Config.out_channels := 3;
     Config.dim := 48;
     Config.num_blocks := [4; 6; 6; 8]%nat;
     Config.num_refinement_blocks := 4%nat;
     Config.heads := [1; 2; 4; 8];
     Config.ffn_expansion_factor := 2.66;
     Config.bias := false;
     Config.LayerNorm_type := "WithBias";
     Config.dual_pixel_task := false;
     Config.embed_dim := 48;
     Config.group := 4;
     Config.mae_weights_path := None |}.

Module Transformer.
Section defs.
Context {T : Type} {TT : Torch T} {MAE : MaskedAutoencoderViT T}.

Record t : Type := {
  mae_encoder : mae_module;
  linear_layer : Linear.t T;
  channel_expand_layer : Conv2d.t T;
  conv_layer : Conv2d.t T;
  upsample_layer : N * N;
  channel_increase_layer_level3 : Conv2d.t T;
  channel_increase_layer_level2 : Conv2d.t T;
  channel_increase_layer_level1 : Conv2d.t T;
  down_1 : PriorDown.t T;
  down_2 : PriorDown.t T;
  patch_embed : OverlapPatchEmbed.t T;
  channel_reducer : Conv2d.t T;
  encoder_level1 : BasicLayer.t T;
  down1_2 : Downsample.t T;
  encoder_level2 : BasicLayer.t T;
  down2_3 : Downsample.t T;
  encoder_level3 : BasicLayer.t T;
  down3_4 : Downsample.t T;
  latent : BasicLayer.t T;
  up4_3 : Upsample.t T;
  reduce_chan_level3 : Conv2d.t T;
  decoder_level3 : BasicLayer.t T;
  up3_2 : Upsample.t T;
  reduce_chan_level2 : Conv2d.t T;
  decoder_level2 : BasicLayer.t T;
  up2_1 : Upsample.t T;
  decoder_level1 : BasicLayer.t T;
  refinement : BasicLayer.t T;
  dual_pixel_task : bool;
  skip_conv : option (Conv2d.t T);     (* set only [if self.dual_pixel_task] *)
  output : Conv2d.t T
}.

Definition load_mae_weights (m : mae_module) (mae_weights_path : string)
  : result mae_module :=
  mae_load_state_dict m mae_weights_path.

Definition init (cfg : Config.t) : result t :=
  let dim := Config.dim cfg in
  let heads := Config.heads cfg in
  let num_blocks := Config.num_blocks cfg in
  let group := Config.group cfg in
  let embed_dim := Config.embed_dim cfg in
  let bias := Config.bias cfg in
  let layer d h n g :=
    BasicLayer.init d h (Config.ffn_expansion_factor cfg) bias (Config.LayerNorm_type cfg)
      embed_dim n g in
  enc <- (h0 <- getitem heads 0 ;;
          mae 224 16 (Config.inp_channels cfg) embed_dim 12 h0) ;;
  enc <- match Config.mae_weights_path cfg with
         | Some path => load_mae_weights enc path
         | None => Ok enc
         end ;;
  let linear_layer := Linear.init 50 (14 * 14) true in
  channel_expand_layer <- Conv2d.init 64 384 1 0 1 true ;;
  conv_layer <- Conv2d.init 384 384 3 1 1 true ;;
  inc3 <- Conv2d.init 192 384 1 0 1 true ;;
  inc2 <- Conv2d.init 96 192 1 0 1 true ;;
  inc1 <- Conv2d.init 48 96 1 0 1 true ;;
  let down_1 := PriorDown.init (group * group) ((group * group) / 4) embed_dim in
  let down_2 := PriorDown.init ((group * group) / 4) 1 embed_dim in
  patch_embed <- OverlapPatchEmbed.init (Config.inp_channels cfg) dim false ;;
  channel_reducer <- Conv2d.init 48 3 1 0 1 false ;;
  encoder_level1 <- (h <- getitem heads 0 ;; n <- getitem num_blocks 0 ;;
                     layer dim h n group) ;;
  down1_2 <- Downsample.init dim ;;
  encoder_level2 <- (h <- getitem heads 1 ;; n <- getitem num_blocks 1 ;;
                     layer (dim * 2) h n (group / 2)) ;;
  down2_3 <- Downsample.init (dim * 2) ;;
  encoder_level3 <- (h <- getitem heads 2 ;; n <- getitem num_blocks 2 ;;
                     layer (dim * 4) h n (group / 2)) ;;
  down3_4 <- Downsample.init (dim * 4) ;;
  latent <- (h <- getitem heads 3 ;; n <- getitem num_blocks 3 ;;
             layer (dim * 8) h n 1) ;;
  up4_3 <- Upsample.init (dim * 8) ;;
  reduce_chan_level3 <- Conv2d.init (dim * 8) (dim * 4) 1 0 1 bias ;;
  decoder_level3 <- (h <- getitem heads 2 ;; n <- getitem num_blocks 2 ;;
                     layer (dim * 4) h n (group / 2)) ;;
  up3_2 <- Upsample.init (dim * 4) ;;
  reduce_chan_level2 <- Conv2d.init (dim * 4) (dim * 2) 1 0 1 bias ;;
  decoder_level2 <- (h <- getitem heads 1 ;; n <- getitem num_blocks 1 ;;
                     layer (dim * 2) h n (group / 2)) ;;
  up2_1 <- Upsample.init (dim * 2) ;;
  decoder_level1 <- (h <- getitem heads 0 ;; n <- getitem num_blocks 0 ;;
                     layer (dim * 2) h n group) ;;
  refinement <- (h <- getitem heads 0 ;;
                 layer (dim * 2) h (Config.num_refinement_blocks cfg) group) ;;
  skip_conv <- (if Config.dual_pixel_task cfg
                then c <- Conv2d.init dim (dim * 2) 1 0 1 bias ;; Ok (Some c)
                else Ok None) ;;
  output <- Conv2d.init (dim * 2) (Config.out_channels cfg) 3 1 1 bias ;;
  Ok {| mae_encoder := enc;
        linear_layer := linear_layer;
        channel_expand_layer := channel_expand_layer;
        conv_layer := conv_layer;
        upsample_layer := (28, 28);
        channel_increase_layer_level3 := inc3;
        channel_increase_layer_level2 := inc2;
        channel_increase_layer_level1 := inc1;
        down_1 := down_1;
        down_2 := down_2;
        patch_embed := patch_embed;
        channel_reducer := channel_reducer;
        encoder_level1 := encoder_level1;
        down1_2 := down1_2;
        encoder_level2 := encoder_level2;
        down2_3 := down2_3;
        encoder_level3 := encoder_level3;
        down3_4 := down3_4;
        latent := latent;
        up4_3 := up4_3;
        reduce_chan_level3 := reduce_chan_level3;
        decoder_level3 := decoder_level3;
        up3_2 := up3_2;
        reduce_chan_level2 := reduce_chan_level2;
        decoder_level2 := decoder_level2;
        up2_1 := up2_1;
        decoder_level1 := decoder_level1;
        refinement := refinement;
        dual_pixel_task := Config.dual_pixel_task cfg;
        skip_conv := skip_conv;
        output := output |}.

(** [self.skip_conv(x)] *)
Definition call_skip_conv (m : t) (x : T) : result T :=
  match skip_conv m with
  | Some c => Conv2d.forward c x
  | None => Raise (AttributeError "skip_conv")
  end.

Definition forward (m : t) (inp_img : T) (prior : option T) : result T :=
  (* multi-scale prior *)
  let prior_1 := prior in
  prior_2 <- PriorDown.forward (down_1 m) prior_1 ;;
  prior_3 <- (p <- PriorDown.forward (down_2 m) (Some prior_2) ;; lift (flatten p 1)) ;;

  inp_enc_level1 <- OverlapPatchEmbed.forward (patch_embed m) inp_img ;;
  inp_enc_level1 <- Conv2d.forward (channel_reducer m) inp_enc_level1 ;;
  mae_output <- mae_forward (mae_encoder m) inp_enc_level1 ;;

  mae_output <- lift (permute mae_output [0; 2; 1]) ;;
  mae_output <- Linear.forward (linear_layer m) mae_output ;;
  mae_output <- (b <- getitem (shape mae_output) 0 ;;
                 lift (view mae_output [b; 64; 14; 14])) ;;
  mae_output <- Conv2d.forward (channel_expand_layer m) mae_output ;;
  mae_output <- Conv2d.forward (conv_layer m) mae_output ;;
  mae_output <- lift (upsample_bilinear (upsample_layer m) mae_output) ;;

  latent <- BasicLayer.forward (latent m) mae_output (Some prior_3) ;;

  inp_dec_level3 <- Upsample.forward (up4_3 m) latent ;;
  inp_dec_level3 <- Conv2d.forward (channel_increase_layer_level3 m) inp_dec_level3 ;;
  inp_dec_level3 <- Conv2d.forward (reduce_chan_level3 m) inp_dec_level3 ;;
  out_dec_level3 <- BasicLayer.forward (decoder_level3 m) inp_dec_level3 (Some prior_2) ;;

  inp_dec_level2 <- Upsample.forward (up3_2 m) out_dec_level3 ;;
  inp_dec_level2 <- Conv2d.forward (channel_increase_layer_level2 m) inp_dec_level2 ;;
  inp_dec_level2 <- Conv2d.forward (reduce_chan_level2 m) inp_dec_level2 ;;
  out_dec_level2 <- BasicLayer.forward (decoder_level2 m) inp_dec_level2 (Some prior_2) ;;

  inp_dec_level1 <- Upsample.forward (up2_1 m) out_dec_level2 ;;
  inp_dec_level1 <- Conv2d.forward (channel_increase_layer_level1 m) inp_dec_level1 ;;
  out_dec_level1 <- BasicLayer.forward (decoder_level1 m) inp_dec_level1 prior_1 ;;

  out_dec_level1 <- BasicLayer.forward (refinement m) out_dec_level1 prior_1 ;;

  if dual_pixel_task m
  then
    out_dec_level1 <- (s <- call_skip_conv m inp_enc_level1 ;;
                       lift (add out_dec_level1 s)) ;;
    Conv2d.forward (output m) out_dec_level1
  else
    o <- Conv2d.forward (output m) out_dec_level1 ;;
    lift (add o inp_img).

End defs.
Arguments t T {MAE}.
End Transformer.

(** ** Shapes

    The interface read on shapes: a tensor is its list of sizes, and an
    operation returns [None] exactly where the library raises. *)

Definition Shape : Type := list N.

Definition numel (s : Shape) : N := fold_right N.mul 1 s.

Definition shape_eqb (a b : Shape) : bool :=
  if list_eq_dec N.eq_dec a b then true else false.

(** Two sizes broadcast when they agree or one of them is 1. *)
Definition bdim (x y : N) : option N :=
  if x =? y then Some x
  else if x =? 1 then Some y
  else if y =? 1 then Some x
  else None.

(** Broadcasting aligns shapes at their last axis: on reversed shapes. *)
Fixpoint broadcast_rev (a b : Shape) : option Shape :=
  match a, b with
  | [], _ => Some b
  | _, [] => Some a
  | x :: a', y :: b' =>
      match bdim x y, broadcast_rev a' b' with
      | Some d, Some r => Some (d :: r)
      | _, _ => None
      end
  end.

Definition broadcast (a b : Shape) : option Shape :=
  option_map (@rev N) (broadcast_rev (rev a) (rev b)).

(** [s[:-1], s[-1]] *)
Definition split_last (s : Shape) : option (Shape * N) :=
  match rev s with
  | [] => None
  | x :: r => Some (rev r, x)
  end.

Definition shape_rearrange (p : pattern) (s : Shape) : option Shape :=
  match p, s with
  | bchw_to_b_hw_c, [b; c; h; w] => Some [b; h * w; c]
  | b_hw_c_to_bchw h w, [b; n; c] =>
      if n =? h * w then Some [b; c; h; w] else None
  | split_heads_4d head, [b; c; h; w] =>
      if head =? 0 then None
      else if c mod head =? 0 then Some [b; head; c / head; h * w] else None
  | merge_heads_4d head h w, [b; hd; c; n] =>
      if (hd =? head) && (n =? h * w) then Some [b; hd * c; h; w] else None
  | split_heads_3d head, [b; n; c] =>
      if head =? 0 then None
      else if c mod head =? 0 then Some [b; head; n; c / head] else None
  | merge_heads_3d head, [b; hd; n; c] =>
      if hd =? head then Some [b; n; hd * c] else None
  | bnc_to_bcn, [b; n; c] => Some [b; c; n]
  | bcn_to_bnc, [b; c; n] => Some [b; n; c]
  | _, _ => None
  end.

Definition bias_fits (bias : option Shape) (out : N) : bool :=
  match bias with
  | None => true
  | Some bs => shape_eqb bs [out]
  end.

(** Height or width after a stride-1 convolution with kernel [k] and padding [p]. *)
Definition conv_out (n k p : N) : N := n + 2 * p - k + 1.

(** [F.conv2d] with stride 1, on a batched or an unbatched input.  What the
    library checks: the weight has at least [groups] output channels, and a
    multiple of [groups]; the input has [groups] times the input channels of
    the weight; the bias has one entry per output channel; the kernel fits
    the padded input. *)
Definition shape_conv2d (x weight : Shape) (bias : option Shape) (padding groups : N)
  : option Shape :=
  match weight with
  | [co; cig; kh; kw] =>
      let fits c h w :=
        negb (groups =? 0) && (groups <=? co) && (co mod groups =? 0)
        && (c =? cig * groups)
        && bias_fits bias co
        && (0 <? kh) && (0 <? kw)
        && (kh <=? h + 2 * padding) && (kw <=? w + 2 * padding) in
      match x with
      | [b; c; h; w] =>
          if fits c h w
          then Some [b; co; conv_out h kh padding; conv_out w kw padding]
          else None
      | [c; h; w] =>
          if fits c h w
          then Some [co; conv_out h kh padding; conv_out w kw padding]
          else None
      | _ => None
      end
  | _ => None
  end.

Definition shape_linear (x weight : Shape) (bias : option Shape) : option Shape :=
  match weight, split_last x with
  | [out; inn], Some (pre, l) =>
      if (l =? inn) && bias_fits bias out then Some (pre ++ [out]) else None
  | _, _ => None
  end.

(** A reduction over the last axis with [keepdim=True]. *)
Definition shape_reduce_last (s : Shape) : Shape :=
  match split_last s with
  | Some (pre, _) => pre ++ [1]
  | None => []
  end.

Definition shape_matmul (a b : Shape) : option Shape :=
  match a, b with
  | [], _ | _, [] => None
  | [n], [m] => if n =? m then Some [] else None
  | _, _ =>
      let a2 := match a with [n] => [1; n] | _ => a end in
      let b2 := match b with [m] => [m; 1] | _ => b end in
      match rev a2, rev b2 with
      | k :: n :: batch_a, p :: k' :: batch_b =>
          if k =? k' then
            match broadcast_rev batch_a batch_b with
            | Some batch =>
                Some (rev batch
                        ++ match a with [_] => [] | _ => [n] end
                        ++ match b with [_] => [] | _ => [p] end)
            | None => None
            end
          else None
      | _, _ => None
      end
  end.

Definition shape_transpose_last2 (s : Shape) : option Shape :=
  match rev s with
  | n :: m :: pre => Some (rev pre ++ [n; m])
  | _ => None
  end.

(** Sizes of the pieces [torch.chunk] cuts an axis of length [size] into. *)
Definition chunk_sizes (size chunks : N) : list N :=
  let split_size := (size + chunks - 1) / chunks in
  if split_size =? 0 then repeat 0 (N.to_nat chunks)
  else
    let num := N.max ((size + split_size - 1) / split_size) 1 in
    repeat split_size (N.to_nat (num - 1)) ++ [split_size - (split_size * num - size)].

Fixpoint set_nth (i : nat) (v : N) (s : Shape) : Shape :=
  match s, i with
  | [], _ => []
  | _ :: r, O => v :: r
  | x :: r, S i' => x :: set_nth i' v r
  end.

Definition shape_chunk (s : Shape) (chunks : N) (dim : Z) : option (list Shape) :=
  let r := Z.of_nat (List.length s) in
  let d := if (dim <? 0)%Z then (dim + r)%Z else dim in
  if ((d <? 0) || (r <=? d))%Z then None
  else if chunks =? 0 then None
  else
    let i := Z.to_nat d in
    Some (map (fun sz => set_nth i sz s) (chunk_sizes (nth i s 0) chunks)).

Fixpoint nodupb (l : list N) : bool :=
  match l with
  | [] => true
  | x :: r => negb (existsb (N.eqb x) r) && nodupb r
  end.

Definition shape_permute (s : Shape) (dims : list N) : option Shape :=
  let r := List.length s in
  if Nat.eqb (List.length dims) r
     && forallb (fun i => N.to_nat i <? r)%nat dims
     && nodupb dims
  then Some (map (fun i => nth (N.to_nat i) s 0) dims)
  else None.

Definition shape_view (s sizes : Shape) : option Shape :=
  if numel s =? numel sizes then Some sizes else None.

Definition shape_flatten (s : Shape) (start : N) : option Shape :=
  let st := N.to_nat start in
  match s with
  | [] => if start =? 0 then Some [1] else None
  | _ =>
      if (st <? List.length s)%nat
      then Some (firstn st s ++ [numel (skipn st s)])
      else None
  end.

Definition shape_pixel_shuffle (r : N) (s : Shape) : option Shape :=
  match rev s with
  | w :: h :: c :: pre =>
      if negb (r =? 0) && (c mod (r * r) =? 0)
      then Some (rev pre ++ [c / (r * r); h * r; w * r])
      else None
  | _ => None
  end.

Definition shape_pixel_unshuffle (r : N) (s : Shape) : option Shape :=
  match rev s with
  | w :: h :: c :: pre =>
      if negb (r =? 0) && (h mod r =? 0) && (w mod r =? 0)
      then Some (rev pre ++ [c * (r * r); h / r; w / r])
      else None
  | _ => None
  end.

Definition shape_upsample_bilinear (size : N * N) (s : Shape) : option Shape :=
  match s with
  | [b; c; h; w] =>
      if (0 <? c) && (0 <? h) && (0 <? w) && (0 <? fst size) && (0 <? snd size)
      then Some [b; c; fst size; snd size]
      else None
  | _ => None
  end.

#[export] Instance shape_torch : Torch Shape := {|
  shape := fun s => s;
  ones := fun s => s;
  zeros := fun s => s;
  empty := fun s => s;
  rearrange := shape_rearrange;
  conv2d := shape_conv2d;
  linear := shape_linear;
  mean_last := shape_reduce_last;
  var_last := shape_reduce_last;
  add := broadcast;
  sub := broadcast;
  mul := broadcast;
  div := broadcast;
  add_scalar := fun s _ => s;
  mul_scalar := fun s _ => s;
  torch_sqrt := fun s => s;
  gelu := fun s => s;
  softmax_last := fun s => s;
  normalize_last := fun s => s;
  matmul := shape_matmul;
  transpose_last2 := shape_transpose_last2;
  unsqueeze_last := fun s => s ++ [1];
  chunk := shape_chunk;
  permute := shape_permute;
  view := shape_view;
  flatten := shape_flatten;
  contiguous := fun s => s;
  pixel_shuffle := shape_pixel_shuffle;
  pixel_unshuffle := shape_pixel_unshuffle;
  upsample_bilinear := shape_upsample_bilinear
|}.

(** Modelled from the spec: the masked-autoencoder encoder
    [hi_diff.archs.mae_encoder.MaskedAutoencoderViT], which the repository
    imports and this file does not define.  Given an image-like tensor it
    returns a token sequence of fixed width; the sizes are the ones the
    layers fed by it are built for, [nn.Linear(50, 14 * 14)] over the tokens
    and [nn.Conv2d(64, 384, ...)] over the width.  It accepts every image
    size, so a failure of the network on this model is never the encoder's. *)
#[export] Instance mae_shape : MaskedAutoencoderViT Shape := {|
  mae_module := unit;
  mae := fun _ _ _ _ _ _ => Ok tt;
  mae_forward := fun _ s =>
    match s with
    | [b; _; _; _] => Ok [b; 50; 64]
    | _ => Raise RuntimeError
    end;
  mae_load_state_dict := fun m _ => Ok m
|}.

(** ** Layer arithmetic over the reals

    The two layer norms and the core of [Attention.forward] on real-valued
    tensors, written as nested lists.  Arithmetic is exact: the rounding of
    the floating-point kernels is outside this model.  Last axes are taken
    to have the widths the layers are built for (the shape semantics above
    says where the library raises otherwise). *)

Module RealSem.
Local Open Scope R_scope.

Definition vec : Type := list R.
(* a sequence-of-vectors tensor, [b (h w) c] *)
Definition tensor3 : Type := list (list vec).
(* a matrix: the last two axes of [b head c (h w)] *)
Definition mat : Type := list vec.

Fixpoint zip_with {A B C} (f : A -> B -> C) (a : list A) (b : list B) : list C :=
  match a, b with
  | x :: a', y :: b' => f x y :: zip_with f a' b'
  | _, _ => []
  end.

Definition Rsum (v : vec) : R := fold_right Rplus 0 v.

(* v.mean(-1) *)
Definition mean (v : vec) : R := Rsum v / INR (List.length v).

(* v.var(-1, unbiased=False) *)
Definition var (v : vec) : R :=
  mean (map (fun x => (x - mean v) * (x - mean v)) v).

Definition map3 (f : R -> R) (x : tensor3) : tensor3 := map (map (map f)) x.

(* x.mean(-1, keepdim=True), x.var(-1, keepdim=True, unbiased=False) *)
Definition mean_last (x : tensor3) : tensor3 := map (map (fun v => [mean v])) x.
Definition var_last (x : tensor3) : tensor3 := map (map (fun v => [var v])) x.

(* [a op b] along the last axis, where [b] was reduced with keepdim (size 1)
   or has the size of [a] *)
Definition bc_vec (op : R -> R -> R) (a b : vec) : vec :=
  match b with
  | [s] => map (fun x => op x s) a
  | _ => zip_with op a b
  end.

(* [x op y] for two tensors that agree on the leading axes *)
Definition bc3 (op : R -> R -> R) (x y : tensor3) : tensor3 :=
  zip_with (zip_with (bc_vec op)) x y.

(* [x op w] for a parameter [w] of shape (c,) *)
Definition bc_param (op : R -> R -> R) (x : tensor3) (w : vec) : tensor3 :=
  map (map (fun v => bc_vec op v w)) x.

Definition eps : R := 1e-5.

(* BiasFree_LayerNorm.forward *)
Definition BiasFree_LayerNorm_forward (weight : vec) (x : tensor3) : tensor3 :=
  let sigma := var_last x in
  bc_param Rmult (bc3 Rdiv x (map3 sqrt (map3 (fun s => s + eps) sigma))) weight.

(* WithBias_LayerNorm.forward *)
Definition WithBias_LayerNorm_forward (weight bias : vec) (x : tensor3) : tensor3 :=
  let mu := mean_last x in
  let sigma := var_last x in
  bc_param Rplus
    (bc_param Rmult
       (bc3 Rdiv (bc3 Rminus x mu) (map3 sqrt (map3 (fun s => s + eps) sigma)))
       weight)
    bias.

(* x + c * ones *)
Definition shift (c : R) (x : tensor3) : tensor3 := map3 (fun xi => xi + c) x.

(** *** The attention core on one head: lines 156-162 of the source *)

Definition dot (u v : vec) : R := Rsum (zip_with Rmult u v).

Definition l2norm (v : vec) : R := sqrt (Rsum (map (fun x => x * x) v)).

(* F.normalize(v, dim=-1): p = 2, eps = 1e-12 *)
Definition normalize (v : vec) : vec :=
  map (fun x => x / Rmax (l2norm v) 1e-12) v.

Definition ncols (m : mat) : nat :=
  match m with
  | [] => O
  | r :: _ => List.length r
  end.

Definition col (j : nat) (m : mat) : vec := map (fun row => nth j row 0) m.

(* m.transpose(-2, -1) *)
Definition transpose (m : mat) : mat :=
  map (fun j => col j m) (seq 0 (ncols m)).

(* a @ b *)
Definition matmul (a b : mat) : mat :=
  map (fun row => map (fun j => dot row (col j b)) (seq 0 (ncols b))) a.

(* v.softmax(dim=-1) *)
Definition softmax (v : vec) : vec :=
  map (fun x => exp x / Rsum (map exp v)) v.

(* [q], [k], [v] are the (c, h w) matrices of one batch element and one head,
   [temperature] is that head's entry of [self.temperature]. *)
Definition attention_head (temperature : R) (q k v : mat) : mat :=
  let q := map normalize q in
  let k := map normalize k in
  let attn := map (map (fun s => s * temperature)) (matmul q (transpose k)) in
  let attn := map softmax attn in
  matmul attn v.

(* The same over the batch and head axes of [b head c (h w)] tensors;
   [temperature] has shape (head, 1, 1) and broadcasts over the batch. *)
Fixpoint zip_with4 {A B C D E} (f : A -> B -> C -> D -> E)
  (a : list A) (b : list B) (c : list C) (d : list D) : list E :=
  match a, b, c, d with
  | x :: a', y :: b', z :: c', u :: d' => f x y z u :: zip_with4 f a' b' c' d'
  | _, _, _, _ => []
  end.

Fixpoint zip_with3 {A B C D} (f : A -> B -> C -> D)
  (a : list A) (b : list B) (c : list C) : list D :=
  match a, b, c with
  | x :: a', y :: b', z :: c' => f x y z :: zip_with3 f a' b' c'
  | _, _, _ => []
  end.

Definition attention_core (temperature : vec) (q k v : list (list mat))
  : list (list mat) :=
  zip_with3 (fun qb kb vb => zip_with4 attention_head temperature qb kb vb) q k v.

(** The reading of the specification: queries and keys normalised along the
    channel axis, that is down the columns of the (c, h w) matrices. *)
Definition normalize_channel_axis (m : mat) : mat :=
  transpose (map normalize (transpose m)).

Definition attention_head_channel_axis (temperature : R) (q k v : mat) : mat :=
  let q := normalize_channel_axis q in
  let k := normalize_channel_axis k in
  let attn := map (map (fun s => s * temperature)) (matmul q (transpose k)) in
  let attn := map softmax attn in
  matmul attn v.

(* a matrix with [c] rows of [n] entries *)
Definition rect (c n : nat) (m : mat) : Prop :=
  List.length m = c /\ Forall (fun row => List.length row = n) m.

(* a [b n c] tensor whose vectors all have [c] entries *)
Definition seq_of_width (c : nat) (x : tensor3) : Prop :=
  Forall (Forall (fun v : vec => List.length v = c)) x.

(* the combination of the rows of [v] with the weights [w]: one row of [attn @ v] *)
Definition weighted_values (w : vec) (v : mat) : vec :=
  map (fun p => dot w (col p v)) (seq 0 (ncols v)).

End RealSem.

(** ** Layer arithmetic on floats

    The tensors of the program hold IEEE 754 numbers: binary32 by default,
    binary64 after [.double()].  [SpecFloat] gives every operation of a
    format, rounded to nearest, ties to even.  The library fixes no order
    for the sums behind [mean] and [var]; here they run from the left, and
    [var] averages the squared deviations from the mean. *)

Module FloatSem.

Record format : Type := { fprec : Z; femax : Z }.

Definition binary32 : format := {| fprec := 24; femax := 128 |}.
Definition binary64 : format := {| fprec := 53; femax := 1024 |}.

Section Format.
Variable fmt : format.

Definition vec : Type := list spec_float.
(* a sequence-of-vectors tensor, [b (h w) c] *)
Definition tensor3 : Type := list (list vec).

Definition fadd : spec_float -> spec_float -> spec_float := SFadd (fprec fmt) (femax fmt).
Definition fsub : spec_float -> spec_float -> spec_float := SFsub (fprec fmt) (femax fmt).
Definition fmul : spec_float -> spec_float -> spec_float := SFmul (fprec fmt) (femax fmt).
Definition fdiv : spec_float -> spec_float -> spec_float := SFdiv (fprec fmt) (femax fmt).
Definition fsqrt : spec_float -> spec_float := SFsqrt (fprec fmt) (femax fmt).

(* an integer as a number of the format *)
Definition of_Z (n : Z) : spec_float := binary_normalize (fprec fmt) (femax fmt) n 0 false.

(* a Python float as a number of the format, as in [tensor + 1e-5] *)
Definition of_float (x : float) : spec_float :=
  match Prim2SF x with
  | S754_finite s m e => binary_round (fprec fmt) (femax fmt) s m e
  | y => y
  end.

Definition fsum (v : vec) : spec_float := fold_left fadd v (S754_zero false).

(* v.mean(-1) *)
Definition mean (v : vec) : spec_float := fdiv (fsum v) (of_Z (Z.of_nat (List.length v))).

(* v.var(-1, unbiased=False) *)
Definition var (v : vec) : spec_float :=
  mean (map (fun x => fmul (fsub x (mean v)) (fsub x (mean v))) v).

Definition map3 (f : spec_float -> spec_float) (x : tensor3) : tensor3 :=
  map (map (map f)) x.

(* x.mean(-1, keepdim=True), x.var(-1, keepdim=True, unbiased=False) *)
Definition mean_last (x : tensor3) : tensor3 := map (map (fun v => [mean v])) x.
Definition var_last (x : tensor3) : tensor3 := map (map (fun v => [var v])) x.

(* [a op b] along the last axis, where [b] was reduced with keepdim (size 1)
   or has the size of [a] *)
Definition bc_vec (op : spec_float -> spec_float -> spec_float) (a b : vec) : vec :=
  match b with
  | [s] => map (fun x => op x s) a
  | _ => RealSem.zip_with op a b
  end.

(* [x op y] for two tensors that agree on the leading axes *)
Definition bc3 (op : spec_float -> spec_float -> spec_float) (x y : tensor3) : tensor3 :=
  RealSem.zip_with (RealSem.zip_with (bc_vec op)) x y.

(* [x op w] for a parameter [w] of shape (c,) *)
Definition bc_param (op : spec_float -> spec_float -> spec_float) (x : tensor3) (w : vec)
  : tensor3 :=
  map (map (fun v => bc_vec op v w)) x.

Definition eps : spec_float := of_float 1e-5.

(* WithBias_LayerNorm.forward *)
Definition WithBias_LayerNorm_forward (weight bias : vec) (x : tensor3) : tensor3 :=
  let mu := mean_last x in
  let sigma := var_last x in
  bc_param fadd
    (bc_param fmul
       (bc3 fdiv (bc3 fsub x mu) (map3 fsqrt (map3 (fun s => fadd s eps) sigma)))
       weight)
    bias.

(* x + c * ones: the product with 1 is exact *)
Definition shift (c : spec_float) (x : tensor3) : tensor3 := map3 (fun xi => fadd xi c) x.

End Format.
End FloatSem.

(** ** Constructed instances used as concrete inputs *)

(** The value of a computation that succeeds. *)
Definition get_ok {A} (r : result A) : is_ok r = true -> A :=
  match r as r0 return is_ok r0 = true -> A with
  | Ok a => fun _ => a
  | Raise _ => fun H => False_rect A (Bool.diff_false_true H)
  end.

(** [Transformer()] with the default arguments, on shapes. *)
Definition default_net : Transformer.t Shape :=
  get_ok (Transformer.init default_config) eq_refl.

(** [decoder_level1] of the default network: [group = 4]. *)
Definition stage_group4 : BasicLayer.t Shape :=
  get_ok (BasicLayer.init 96 1 2.66 false "WithBias" 48 4 4) eq_refl.

(** [latent] of the default network: [group = 1]. *)
Definition stage_group1 : BasicLayer.t Shape :=
  get_ok (BasicLayer.init 384 8 2.66 false "WithBias" 48 8 1) eq_refl.

(** Two networks that differ at most in the encoder branch: every other
    attribute is the same. *)
Definition same_outside_encoder {T} {TT : Torch T} {MAE : MaskedAutoencoderViT T}
  (m1 m2 : Transformer.t T) : Prop :=
  Transformer.mae_encoder m1 = Transformer.mae_encoder m2
  /\ Transformer.linear_layer m1 = Transformer.linear_layer m2
  /\ Transformer.channel_expand_layer m1 = Transformer.channel_expand_layer m2
  /\ Transformer.conv_layer m1 = Transformer.conv_layer m2
  /\ Transformer.upsample_layer m1 = Transformer.upsample_layer m2
  /\ Transformer.channel_increase_layer_level3 m1 = Transformer.channel_increase_layer_level3 m2
  /\ Transformer.channel_increase_layer_level2 m1 = Transformer.channel_increase_layer_level2 m2
  /\ Transformer.channel_increase_layer_level1 m1 = Transformer.channel_increase_layer_level1 m2
  /\ Transformer.down_1 m1 = Transformer.down_1 m2
  /\ Transformer.down_2 m1 = Transformer.down_2 m2
  /\ Transformer.patch_embed m1 = Transformer.patch_embed m2
  /\ Transformer.channel_reducer m1 = Transformer.channel_reducer m2
  /\ Transformer.latent m1 = Transformer.latent m2
  /\ Transformer.up4_3 m1 = Transformer.up4_3 m2
  /\ Transformer.reduce_chan_level3 m1 = Transformer.reduce_chan_level3 m2
  /\ Transformer.decoder_level3 m1 = Transformer.decoder_level3 m2
  /\ Transformer.up3_2 m1 = Transformer.up3_2 m2
  /\ Transformer.reduce_chan_level2 m1 = Transformer.reduce_chan_level2 m2
  /\ Transformer.decoder_level2 m1 = Transformer.decoder_level2 m2
  /\ Transformer.up2_1 m1 = Transformer.up2_1 m2
  /\ Transformer.decoder_level1 m1 = Transformer.decoder_level1 m2
  /\ Transformer.refinement m1 = Transformer.refinement m2
  /\ Transformer.dual_pixel_task m1 = Transformer.dual_pixel_task m2
  /\ Transformer.skip_conv m1 = Transformer.skip_conv m2
  /\ Transformer.output m1 = Transformer.output m2.

(** [m] with the six encoder-branch sub-modules replaced. *)
Definition replace_encoder {T} {TT : Torch T} {MAE : MaskedAutoencoderViT T}
  (m : Transformer.t T)
  (e1 : BasicLayer.t T) (d12 : Downsample.t T)
  (e2 : BasicLayer.t T) (d23 : Downsample.t T)
  (e3 : BasicLayer.t T) (d34 : Downsample.t T) : Transformer.t T :=
  {| Transformer.mae_encoder := Transformer.mae_encoder m;
     Transformer.linear_layer := Transformer.linear_layer m;
     Transformer.channel_expand_layer := Transformer.channel_expand_layer m;
     Transformer.conv_layer := Transformer.conv_layer m;
     Transformer.upsample_layer := Transformer.upsample_layer m;
     Transformer.channel_increase_layer_level3 := Transformer.channel_increase_layer_level3 m;
     Transformer.channel_increase_layer_level2 := Transformer.channel_increase_layer_level2 m;
     Transformer.channel_increase_layer_level1 := Transformer.channel_increase_layer_level1 m;
     Transformer.down_1 := Transformer.down_1 m;
     Transformer.down_2 := Transformer.down_2 m;
     Transformer.patch_embed := Transformer.patch_embed m;
     Transformer.channel_reducer := Transformer.channel_reducer m;
     Transformer.encoder_level1 := e1;
     Transformer.down1_2 := d12;
     Transformer.encoder_level2 := e2;
     Transformer.down2_3 := d23;
     Transformer.encoder_level3 := e3;
     Transformer.down3_4 := d34;
     Transformer.latent := Transformer.latent m;
     Transformer.up4_3 := Transformer.up4_3 m;
     Transformer.reduce_chan_level3 := Transformer.reduce_chan_level3 m;
     Transformer.decoder_level3 := Transformer.decoder_level3 m;
     Transformer.up3_2 := Transformer.up3_2 m;
     Transformer.reduce_chan_level2 := Transformer.reduce_chan_level2 m;
     Transformer.decoder_level2 := Transformer.decoder_level2 m;
     Transformer.up2_1 := Transformer.up2_1 m;
     Transformer.decoder_level1 := Transformer.decoder_level1 m;
     Transformer.refinement := Transformer.refinement m;
     Transformer.dual_pixel_task := Transformer.dual_pixel_task m;
     Transformer.skip_conv := Transformer.skip_conv m;
     Transformer.output := Transformer.output m |}.

(** A stage without blocks and a down-sampler whose convolution has no
    weights: what the encoder branch is replaced by in the examples. *)
Definition empty_stage : BasicLayer.t Shape :=
  {| BasicLayer.group := 0; BasicLayer.blocks := []; BasicLayer.him := None |}.

Definition empty_down : Downsample.t Shape :=
  {| Downsample.body_conv :=
       {| Conv2d.weight := []; Conv2d.bias := None;
          Conv2d.padding := 0; Conv2d.groups := 0 |} |}.

(** The default arguments with another [group]. *)
Definition config_with_group (g : N) : Config.t :=
  {| Config.inp_channels := 3;
     Config.out_channels := 3;
     Config.dim := 48;
     Config.num_blocks := [4; 6; 6; 8]%nat;
     Config.num_refinement_blocks := 4%nat;
     Config.heads := [1; 2; 4; 8];
     Config.ffn_expansion_factor := 2.66;
     Config.bias := false;
     Config.LayerNorm_type := "WithBias";
     Config.dual_pixel_task := false;
     Config.embed_dim := 48;
     Config.group := g;
     Config.mae_weights_path := None |}.

(** The attention and feed-forward modules of a block of [decoder_level1]. *)
Definition attention_group4 : Attention.t Shape :=
  get_ok (Attention.init 96 1 false 48 4) eq_refl.

Definition feed_forward_group4 : FeedForward.t Shape :=
  get_ok (FeedForward.init 96 2.66 false 48 4) eq_refl.

(** ** Exceptions a computation cannot raise *)

Definition no_attribute_error {A} (r : result A) : Prop :=
  forall attr, r <> Raise (AttributeError attr).

(** The conditioning prologue is safe without a prior, or with both layers. *)
Definition film_safe {T} (ln1 ln2 : option (Linear.t T)) (prior : option T) : Prop :=
  prior = None \/ (ln1 <> None /\ ln2 <> None).

(** ** Conditions under which shapes go through *)

(** A convolution with kernel 1 and no padding, or kernel 3 and padding 1,
    keeps the height and the width. *)
Definition same_size (k p : N) : Prop := (k = 1 /\ p = 0) \/ (k = 3 /\ p = 1).

(** The priors a block can be called with: none, or one vector per image
    when the block has the two FiLM layers. *)
Definition block_prior_fits (embed_dim g b : N) (prior : option Shape) : Prop :=
  prior = None \/ (g = 1 /\ prior = Some [b; embed_dim * 4]).

(** The priors a stage can be called with. *)
Definition stage_prior_fits (embed_dim g b : N) (prior : option Shape) : Prop :=
  prior = None
  \/ (g = 1 /\ prior = Some [b; embed_dim * 4])
  \/ (1 < g /\ exists n, prior = Some [b; n; embed_dim * 4]).

(** The attention heads of the four levels are there and divide the
    channel widths of the stages the forward pass runs. *)
Definition heads_fit (dim : N) (heads : list N) : bool :=
  match heads with
  | h0 :: h1 :: h2 :: h3 :: _ =>
      negb (h0 =? 0) && ((dim * 2) mod h0 =? 0)
      && negb (h1 =? 0) && ((dim * 2) mod h1 =? 0)
      && negb (h2 =? 0) && ((dim * 4) mod h2 =? 0)
      && negb (h3 =? 0) && ((dim * 8) mod h3 =? 0)
  | _ => false
  end.

(** The configurations the forward pass is written for: a 3-channel image in
    and out, the base width 48 that the fixed layers assume, no dual-pixel
    branch, a fusion module in every decoder stage, heads that fit. *)
Definition runs_on_224 (cfg : Config.t) : bool :=
  (Config.inp_channels cfg =? 3) && (Config.out_channels cfg =? 3)
  && (Config.dim cfg =? 48) && negb (Config.dual_pixel_task cfg)
  && (4 <=? Config.group cfg)
  && heads_fit (Config.dim cfg) (Config.heads cfg).

(** ** The spatial size of a feature map *)

(** A batched feature map of height [h] and width [w]. *)
Definition spatial (h w : N) (s : Shape) : Prop := exists b c, s = [b; c; h; w].

(** A shape whose last two axes are [h] and [w]. *)
Definition ends_with (h w : N) (s : Shape) : Prop := exists pre, s = pre ++ [h; w].

(** ** Further inputs and notions *)

(** [Transformer(inp_channels=6, dual_pixel_task=True)], the setting the
    source names for dual-pixel defocus deblurring. *)
Definition dual_pixel_config : Config.t :=
  {| Config.inp_channels := 6;
     Config.out_channels := 3;
     Config.dim := 48;
     Config.num_blocks := [4; 6; 6; 8]%nat;
     Config.num_refinement_blocks := 4%nat;
     Config.heads := [1; 2; 4; 8];
     Config.ffn_expansion_factor := 2.66;
     Config.bias := false;
     Config.LayerNorm_type := "WithBias";
     Config.dual_pixel_task := true;
     Config.embed_dim := 48;
     Config.group := 4;
     Config.mae_weights_path := None |}.

Definition dual_pixel_net : Transformer.t Shape :=
  get_ok (Transformer.init dual_pixel_config) eq_refl.

(** The channel axis of an image or feature map: the third axis from the end. *)
Definition has_channels (c : N) (s : Shape) : Prop :=
  exists pre h w, s = pre ++ [c; h; w].

(** The tensor [[[[0., 1.]]]] of one vector, and the parameters
    [WithBias_LayerNorm(2)] starts with, in a float format. *)
Definition zero_one (fmt : FloatSem.format) : FloatSem.tensor3 :=
  [[[FloatSem.of_Z fmt 0; FloatSem.of_Z fmt 1]]].

Definition ones2 (fmt : FloatSem.format) : FloatSem.vec :=
  [FloatSem.of_Z fmt 1; FloatSem.of_Z fmt 1].

Definition zeros2 (fmt : FloatSem.format) : FloatSem.vec :=
  [FloatSem.of_Z fmt 0; FloatSem.of_Z fmt 0].

(** * Properties *)

(** ** The result monad *)

Lemma bind_ok_inv {A B} (c : result A) (k : A -> result B) (b : B) :
  bind c k = Ok b -> exists a, c = Ok a /\ k a = Ok b.
Proof.
  destruct c as [a | e]; simpl; intros H; [eauto | discriminate].
Qed.

Lemma bind_ok {A B} (c : result A) (k : A -> result B) (a : A) :
  c = Ok a -> bind c k = k a.
Proof. intros ->; reflexivity. Qed.

(** ** Control flow, for every reading of the tensor operations *)

Section AnyTensor.
Context {T : Type} {TT : Torch T}.

(** [C2] A call of [Transformer.forward] without a prior does not return:
    the first statement applies [self.down_1] to [None], which raises.  The
    signature gives [prior] the default [None], and every sub-module
    accepts it. *)
Theorem forward_without_prior_raises {MAE : MaskedAutoencoderViT T}
  (m : Transformer.t T) (inp_img : T) :
  Transformer.forward m inp_img None = Raise NoneTypeError.
Proof. reflexivity. Qed.

(** [C4] The forward pass reads none of [encoder_level1], [down1_2],
    [encoder_level2], [down2_3], [encoder_level3], [down3_4]: two networks
    that agree on every other attribute return the same result on every
    image and prior, whatever the tensor operations compute. *)
Theorem forward_ignores_encoder_branch {MAE : MaskedAutoencoderViT T}
  (m1 m2 : Transformer.t T) :
  same_outside_encoder m1 m2 ->
  forall (inp_img : T) (prior : option T),
    Transformer.forward m1 inp_img prior = Transformer.forward m2 inp_img prior.
Proof.
  intros H inp_img prior.
  destruct m1, m2; unfold same_outside_encoder in H; simpl in H.
  repeat match goal with
         | H : _ /\ _ |- _ => destruct H
         end.
  subst. reflexivity.
Qed.

(** *** What [__init__] leaves in a stage *)

Lemma build_list_Forall {A} (f : result A) (n : nat) (l : list A) :
  build_list f n = Ok l -> List.length l = n /\ Forall (fun a => f = Ok a) l.
Proof.
  revert l; induction n as [| n IH]; simpl; intros l H.
  - injection H as <-. split; [reflexivity | constructor].
  - apply bind_ok_inv in H as (a & Ha & H).
    apply bind_ok_inv in H as (l' & Hl' & H).
    injection H as <-. destruct (IH _ Hl') as [Hlen Hall].
    split; [simpl; congruence | constructor; assumption].
Qed.

Lemma BasicLayer_init_inv dim num_heads f bias ty embed_dim n g (m : BasicLayer.t T) :
  BasicLayer.init dim num_heads f bias ty embed_dim n g = Ok m ->
  BasicLayer.group m = g
  /\ List.length (BasicLayer.blocks m) = n
  /\ Forall (fun b => TransformerBlock.init dim num_heads f bias ty embed_dim g = Ok b)
       (BasicLayer.blocks m)
  /\ (if 1 <? g
      then exists h, HIM.init dim num_heads bias embed_dim ty = Ok h
                     /\ BasicLayer.him m = Some h
      else BasicLayer.him m = None).
Proof.
  unfold BasicLayer.init; intros H.
  apply bind_ok_inv in H as (bs & Hbs & H).
  apply bind_ok_inv in H as (h & Hh & H).
  injection H as <-; simpl.
  apply build_list_Forall in Hbs as [Hlen Hall].
  repeat split; try assumption.
  destruct (1 <? g).
  - apply bind_ok_inv in Hh as (h' & Hh' & Hh). injection Hh as <-. eauto.
  - injection Hh as <-. reflexivity.
Qed.

Lemma TransformerBlock_init_inv dim num_heads f bias ty embed_dim g
  (b : TransformerBlock.t T) :
  TransformerBlock.init dim num_heads f bias ty embed_dim g = Ok b ->
  Attention.init dim num_heads bias embed_dim g = Ok (TransformerBlock.attn b)
  /\ FeedForward.init dim f bias embed_dim g = Ok (TransformerBlock.ffn b)
  /\ TransformerBlock.norm1 b = LayerNorm.init dim ty
  /\ TransformerBlock.norm2 b = LayerNorm.init dim ty.
Proof.
  unfold TransformerBlock.init; intros H.
  apply bind_ok_inv in H as (a & Ha & H).
  apply bind_ok_inv in H as (ff & Hf & H).
  injection H as <-; simpl. auto.
Qed.

Lemma Attention_init_film dim num_heads bias embed_dim g (a : Attention.t T) :
  Attention.init dim num_heads bias embed_dim g = Ok a ->
  Attention.ln1 a = film_init dim embed_dim g
  /\ Attention.ln2 a = film_init dim embed_dim g.
Proof.
  unfold Attention.init; intros H.
  apply bind_ok_inv in H as (c1 & _ & H).
  apply bind_ok_inv in H as (c2 & _ & H).
  apply bind_ok_inv in H as (c3 & _ & H).
  injection H as <-; simpl. auto.
Qed.

(** With [dim = 0] the product [dim * ffn_expansion_factor] is a zero or a
    NaN, whatever the factor. *)
Lemma hidden_features_of_0 (f : float) (h : Z) :
  hidden_features_of 0 f = Ok h -> h = 0%Z.
Proof.
  unfold hidden_features_of.
  change (py_float (Z.of_N 0)) with (Ok 0%float). cbn [bind].
  unfold py_int. rewrite mul_spec.
  change (Prim2SF 0) with (S754_zero false).
  destruct (Prim2SF f) as [s | s | | s m e]; simpl; intros H;
    first [discriminate H | injection H as <-; reflexivity].
Qed.

(** What a constructor call that returns has built: [hidden_features] is at
    least 1, since it is the [groups] of the depth-wise convolution. *)
Lemma FeedForward_init_inv dim f bias embed_dim g (m : FeedForward.t T) :
  FeedForward.init dim f bias embed_dim g = Ok m ->
  exists hidden : Z,
    hidden_features_of dim f = Ok hidden /\ (0 < hidden)%Z
    /\ Conv2d.init dim (Z.to_N hidden * 2) 1 0 1 bias = Ok (FeedForward.project_in m)
    /\ Conv2d.init (Z.to_N hidden * 2) (Z.to_N hidden * 2) 3 1 (Z.to_N hidden * 2) bias
       = Ok (FeedForward.dwconv m)
    /\ Conv2d.init (Z.to_N hidden) dim 1 0 1 bias = Ok (FeedForward.project_out m)
    /\ FeedForward.ln1 m = film_init dim embed_dim g
    /\ FeedForward.ln2 m = film_init dim embed_dim g.
Proof.
  unfold FeedForward.init; intros H.
  apply bind_ok_inv in H as (hidden & Eh & H).
  exists hidden. split; [exact Eh |].
  destruct hidden as [| hp | hn]; [| | discriminate H];
    apply bind_ok_inv in H as (c1 & E1 & H);
    apply bind_ok_inv in H as (c2 & E2 & H);
    apply bind_ok_inv in H as (c3 & E3 & H);
    injection H as <-; cbn [FeedForward.project_in FeedForward.dwconv
                              FeedForward.project_out FeedForward.ln1 FeedForward.ln2].
  - exfalso. unfold Conv2d.init in E2. simpl in E2. discriminate E2.
  - repeat split; try assumption; reflexivity.
Qed.

Lemma FeedForward_init_dim dim f bias embed_dim g (m : FeedForward.t T) :
  FeedForward.init dim f bias embed_dim g = Ok m -> 0 < dim.
Proof.
  intros H. apply FeedForward_init_inv in H as (hidden & Eh & Hpos & _).
  destruct (N.eq_dec dim 0) as [-> |]; [| lia].
  apply hidden_features_of_0 in Eh. lia.
Qed.

Lemma FeedForward_init_film dim f bias embed_dim g (m : FeedForward.t T) :
  FeedForward.init dim f bias embed_dim g = Ok m ->
  FeedForward.ln1 m = film_init dim embed_dim g
  /\ FeedForward.ln2 m = film_init dim embed_dim g.
Proof.
  intros H. apply FeedForward_init_inv in H as (hidden & _ & _ & _ & _ & _ & H1 & H2).
  auto.
Qed.

Lemma film_init_other dim embed_dim g :
  g <> 1 -> film_init (T:=T) dim embed_dim g = None.
Proof.
  intros Hg; unfold film_init.
  destruct (N.eqb_spec g 1); [contradiction | reflexivity].
Qed.

Lemma film_init_one dim embed_dim :
  film_init (T:=T) dim embed_dim 1 = Some (Linear.init (embed_dim * 4) dim true).
Proof. reflexivity. Qed.

Lemma BasicLayer_forward_fused (m : BasicLayer.t T) h x p :
  (1 <? BasicLayer.group m) = true -> BasicLayer.him m = Some h ->
  BasicLayer.forward m x (Some p)
  = (x' <- HIM.forward h x p ;; BasicLayer.run_blocks (BasicLayer.blocks m) x' None).
Proof.
  intros Hg Hh. unfold BasicLayer.forward, BasicLayer.call_him.
  rewrite Hg, Hh. simpl. destruct (HIM.forward h x p); reflexivity.
Qed.

Lemma BasicLayer_forward_plain (m : BasicLayer.t T) x prior :
  prior = None \/ (1 <? BasicLayer.group m) = false ->
  BasicLayer.forward m x prior = BasicLayer.run_blocks (BasicLayer.blocks m) x prior.
Proof.
  intros H. unfold BasicLayer.forward.
  destruct prior as [p |]; [| reflexivity].
  destruct H as [H | H]; [discriminate | rewrite H; reflexivity].
Qed.

(** [C5] In a stage built with [group > 1] and called with a prior, the
    fusion module runs once, on the stage input and that prior, before any
    block, and every block is then called with [prior = None]; in a stage
    built with [group = 1] there is no fusion module and every block is
    called with the prior the stage received. *)
Theorem BasicLayer_fuses_once_then_drops_prior
  dim num_heads f bias ty embed_dim n g (m : BasicLayer.t T) :
  BasicLayer.init dim num_heads f bias ty embed_dim n g = Ok m ->
  (1 < g ->
   exists h, BasicLayer.him m = Some h
     /\ forall x p,
          BasicLayer.forward m x (Some p)
          = (x' <- HIM.forward h x p ;;
             for_each (fun blk x => TransformerBlock.forward blk x None)
               (BasicLayer.blocks m) x'))
  /\ (g = 1 ->
      BasicLayer.him m = None
      /\ forall x prior,
           BasicLayer.forward m x prior
           = for_each (fun blk x => TransformerBlock.forward blk x prior)
               (BasicLayer.blocks m) x).
Proof.
  intros Hinit.
  apply BasicLayer_init_inv in Hinit as (Hg & _ & _ & Hhim).
  split.
  - intros Hlt. apply N.ltb_lt in Hlt as Hb. rewrite Hb in Hhim.
    destruct Hhim as (h & _ & Hh). exists h; split; [assumption |].
    intros x p. apply BasicLayer_forward_fused; [rewrite Hg |]; assumption.
  - intros ->. simpl in Hhim. split; [assumption |].
    intros x prior. apply BasicLayer_forward_plain. right. rewrite Hg. reflexivity.
Qed.

(** *** Where an [AttributeError] can come from *)

Lemma nae_Ok {A} (a : A) : no_attribute_error (Ok a).
Proof. intros attr; discriminate. Qed.

Lemma nae_lift {A} (o : option A) : no_attribute_error (lift o).
Proof. intros attr; destruct o; discriminate. Qed.

Lemma nae_bind {A B} (c : result A) (k : A -> result B) :
  no_attribute_error c -> (forall a, no_attribute_error (k a)) ->
  no_attribute_error (bind c k).
Proof.
  intros Hc Hk attr. destruct c as [a | e]; simpl.
  - apply Hk.
  - intros H. apply (Hc attr). congruence.
Qed.

Lemma nae_unpack2 {A} (l : list A) : no_attribute_error (unpack2 l).
Proof. intros attr. destruct l as [| a [| b [| c l]]]; discriminate. Qed.

Lemma nae_unpack3 {A} (l : list A) : no_attribute_error (unpack3 l).
Proof. intros attr. destruct l as [| a [| b [| c [| d l]]]]; discriminate. Qed.

Lemma nae_unpack4 {A} (l : list A) : no_attribute_error (unpack4 l).
Proof. intros attr. destruct l as [| a [| b [| c [| d [| e l]]]]]; discriminate. Qed.

Create HintDb nae discriminated.
#[local] Hint Resolve nae_Ok nae_lift nae_unpack2 nae_unpack3 nae_unpack4 : nae.

Ltac nae :=
  repeat first
    [ solve [auto 2 with nae nocore]
    | apply nae_bind; [| intros ]
    | match goal with
      | |- no_attribute_error (match ?p with (_, _) => _ end) => destruct p
      end ].

Lemma nae_norm_body (body : norm_body T) x :
  no_attribute_error (norm_body_forward body x).
Proof.
  destruct body; simpl;
    [unfold BiasFree_LayerNorm.forward | unfold WithBias_LayerNorm.forward]; nae.
Qed.
#[local] Hint Resolve nae_norm_body : nae.

Lemma nae_LayerNorm (m : LayerNorm.t T) x :
  no_attribute_error (LayerNorm.forward m x).
Proof.
  unfold LayerNorm.forward, to_3d, to_4d; nae.
Qed.

Lemma nae_LayerNorm_Without_Shape (m : LayerNorm_Without_Shape.t T) x :
  no_attribute_error (LayerNorm_Without_Shape.forward m x).
Proof.
  unfold LayerNorm_Without_Shape.forward; nae.
Qed.
#[local] Hint Resolve nae_LayerNorm nae_LayerNorm_Without_Shape : nae.

Lemma nae_film ln1 ln2 x prior :
  film_safe ln1 ln2 prior -> no_attribute_error (film ln1 ln2 x prior).
Proof.
  intros [-> | [H1 H2]]; [apply nae_Ok |].
  destruct prior as [p |]; [| apply nae_Ok].
  destruct ln1 as [l1 |]; [| contradiction].
  destruct ln2 as [l2 |]; [| contradiction].
  unfold film, film_factor, Linear.forward; nae.
Qed.
#[local] Hint Resolve nae_film : nae.

Lemma nae_Attention (m : Attention.t T) x prior :
  film_safe (Attention.ln1 m) (Attention.ln2 m) prior ->
  no_attribute_error (Attention.forward m x prior).
Proof.
  intros Hs. unfold Attention.forward, Conv2d.forward; nae.
Qed.

Lemma nae_FeedForward (m : FeedForward.t T) x prior :
  film_safe (FeedForward.ln1 m) (FeedForward.ln2 m) prior ->
  no_attribute_error (FeedForward.forward m x prior).
Proof.
  intros Hs. unfold FeedForward.forward, Conv2d.forward; nae.
Qed.
#[local] Hint Resolve nae_Attention nae_FeedForward : nae.

Lemma nae_TransformerBlock (m : TransformerBlock.t T) x prior :
  film_safe (Attention.ln1 (TransformerBlock.attn m))
    (Attention.ln2 (TransformerBlock.attn m)) prior ->
  film_safe (FeedForward.ln1 (TransformerBlock.ffn m))
    (FeedForward.ln2 (TransformerBlock.ffn m)) prior ->
  no_attribute_error (TransformerBlock.forward m x prior).
Proof.
  intros Ha Hf. unfold TransformerBlock.forward; nae.
Qed.

Lemma nae_HIM (m : HIM.t T) x prior :
  no_attribute_error (HIM.forward m x prior).
Proof.
  unfold HIM.forward, Linear.forward; nae.
Qed.

Lemma nae_for_each {A} (f : A -> T -> result T) (l : list A) :
  Forall (fun a => forall x, no_attribute_error (f a x)) l ->
  forall x, no_attribute_error (for_each f l x).
Proof.
  induction 1 as [| a l Ha _ IH]; intros x; simpl.
  - apply nae_Ok.
  - apply nae_bind; [apply Ha | intros; apply IH].
Qed.

Lemma nae_blocks dim num_heads f bias ty embed_dim g (bs : list (TransformerBlock.t T))
  (prior : option T) :
  Forall (fun b => TransformerBlock.init dim num_heads f bias ty embed_dim g = Ok b) bs ->
  prior = None \/ g = 1 ->
  forall x, no_attribute_error (BasicLayer.run_blocks bs x prior).
Proof.
  intros Hall Hsafe. unfold BasicLayer.run_blocks. apply nae_for_each.
  eapply Forall_impl; [| exact Hall]. intros b Hb x. simpl in Hb.
  apply TransformerBlock_init_inv in Hb as (Ha & Hf & _ & _).
  apply Attention_init_film in Ha as [Ha1 Ha2].
  apply FeedForward_init_film in Hf as [Hf1 Hf2].
  apply nae_TransformerBlock; unfold film_safe;
    (destruct Hsafe as [-> | ->]; [left; reflexivity |]);
    right; rewrite ?Ha1, ?Ha2, ?Hf1, ?Hf2, film_init_one; split; discriminate.
Qed.

(** [C10] Attention and feed-forward modules built with [group <> 1] have
    neither [ln1] nor [ln2], and their forward pass raises when it is given
    a prior.  A stage built with [group >= 1] never raises an
    [AttributeError]: for [group > 1] every block is called without a prior,
    for [group = 1] the two layers exist. *)
Theorem film_attribute_error_unreachable_in_stage
  dim num_heads f bias ty embed_dim n g
  (a : Attention.t T) (ff : FeedForward.t T) (m : BasicLayer.t T) :
  Attention.init dim num_heads bias embed_dim g = Ok a ->
  FeedForward.init dim f bias embed_dim g = Ok ff ->
  BasicLayer.init dim num_heads f bias ty embed_dim n g = Ok m ->
  (g <> 1 ->
   Attention.ln1 a = None /\ Attention.ln2 a = None
   /\ FeedForward.ln1 ff = None /\ FeedForward.ln2 ff = None
   /\ forall x p,
        is_ok (Attention.forward a x (Some p)) = false
        /\ (List.length (shape x) = 4%nat ->
            Attention.forward a x (Some p) = Raise (AttributeError "ln1"))
        /\ FeedForward.forward ff x (Some p) = Raise (AttributeError "ln1"))
  /\ (1 <= g -> forall x prior, no_attribute_error (BasicLayer.forward m x prior)).
Proof.
  intros Ha Hff Hm. split.
  - intros Hg.
    apply Attention_init_film in Ha as [Ha1 Ha2].
    apply FeedForward_init_film in Hff as [Hf1 Hf2].
    rewrite (film_init_other _ _ Hg) in Ha1, Ha2, Hf1, Hf2.
    repeat split; try assumption.
    + unfold Attention.forward.
      destruct (unpack4 (shape x)) as [[[[b c] h] w] | e]; simpl; [| reflexivity].
      rewrite Ha1; reflexivity.
    + intros Hlen. unfold Attention.forward.
      destruct (shape x) as [| b [| c [| h [| w [| z l]]]]]; try discriminate.
      simpl. rewrite Ha1; reflexivity.
    + unfold FeedForward.forward. rewrite Hf1; reflexivity.
  - intros Hg x prior.
    apply BasicLayer_init_inv in Hm as (Hgm & _ & Hall & Hhim).
    destruct prior as [p |].
    + destruct (1 <? g) eqn:Hlt.
      * destruct Hhim as (h & _ & Hh).
        rewrite (BasicLayer_forward_fused m x p (h:=h)); [| rewrite Hgm |]; try assumption.
        apply nae_bind; [apply nae_HIM |].
        intros x'. eapply nae_blocks; [exact Hall | left; reflexivity].
      * rewrite BasicLayer_forward_plain; [| right; rewrite Hgm; assumption].
        eapply nae_blocks; [exact Hall |].
        right. apply N.ltb_ge in Hlt. lia.
    + rewrite BasicLayer_forward_plain; [| left; reflexivity].
      eapply nae_blocks; [exact Hall | left; reflexivity].
Qed.


End AnyTensor.

(** ** Shapes through the network *)

Section Shapes.
Local Arguments N.mul : simpl never.
Local Arguments N.add : simpl never.
Local Arguments N.sub : simpl never.
Local Arguments N.div : simpl never.
Local Arguments N.modulo : simpl never.
Local Arguments N.eqb : simpl never.
Local Arguments N.leb : simpl never.
Local Arguments N.ltb : simpl never.

Lemma bdim_refl x : bdim x x = Some x.
Proof. unfold bdim. rewrite N.eqb_refl. reflexivity. Qed.

Lemma bdim_1_r x : bdim x 1 = Some x.
Proof.
  unfold bdim. destruct (N.eqb_spec x 1) as [-> | H]; [reflexivity |].
  rewrite N.eqb_refl. reflexivity.
Qed.

Lemma bdim_1_l x : bdim 1 x = Some x.
Proof.
  unfold bdim. destruct (N.eqb_spec 1 x) as [<- | H]; [reflexivity |].
  rewrite N.eqb_refl. reflexivity.
Qed.

Lemma shape_eqb_refl s : shape_eqb s s = true.
Proof. unfold shape_eqb. destruct (list_eq_dec N.eq_dec s s); congruence. Qed.

Lemma bias_fits_init (bias : bool) (out : N) :
  bias_fits (if bias then Some [out] else None) out = true.
Proof. destruct bias; simpl; [apply shape_eqb_refl | reflexivity]. Qed.

Ltac bsimp :=
  repeat (simpl;
          rewrite ?bdim_refl, ?bdim_1_r, ?bdim_1_l, ?N.eqb_refl, ?shape_eqb_refl,
            ?bias_fits_init).

Lemma conv_out_same k p n : same_size k p -> 0 < n -> conv_out n k p = n /\ (k <=? n + 2 * p) = true /\ (0 <? k) = true.
Proof.
  unfold conv_out. intros [[-> ->] | [-> ->]] Hn; repeat split;
    try (apply N.leb_le); try (apply N.ltb_lt); lia.
Qed.

Lemma Conv2d_forward_shape cin cout k p g bias (m : Conv2d.t Shape) b h w :
  Conv2d.init cin cout k p g bias = Ok m ->
  same_size k p -> 0 < h -> 0 < w -> 0 < cout ->
  Conv2d.forward m [b; cin; h; w] = Ok [b; cout; h; w].
Proof.
  unfold Conv2d.init. intros Hinit Hk Hh Hw Hcout.
  destruct (N.eqb_spec g 0) as [| Hg]; [discriminate |].
  destruct (N.eqb_spec (cin mod g) 0) as [Hci |]; [| discriminate].
  destruct (N.eqb_spec (cout mod g) 0) as [Hco |]; [| discriminate].
  simpl in Hinit. injection Hinit as <-.
  unfold Conv2d.forward; simpl.
  destruct (conv_out_same Hk Hh) as (E1 & E2 & E3).
  destruct (conv_out_same Hk Hw) as (E4 & E5 & _).
  rewrite E1, E2, E3, E4, E5, bias_fits_init.
  replace (g =? 0) with false by (symmetry; apply N.eqb_neq; assumption).
  replace (cin =? cin / g * g) with true.
  2:{ symmetry. apply N.eqb_eq. rewrite N.mul_comm.
      apply N.Div0.div_exact. assumption. }
  replace (g <=? cout) with true.
  2:{ symmetry. apply N.leb_le. apply N.Div0.div_exact in Hco.
      destruct (N.eq_dec (cout / g) 0) as [E | E]; [rewrite E in Hco; lia | nia]. }
  rewrite Hco, N.eqb_refl. reflexivity.
Qed.

Ltac conv_step :=
  erewrite Conv2d_forward_shape;
  [ | eassumption
    | first [left; split; reflexivity | right; split; reflexivity]
    | assumption | assumption | first [assumption | reflexivity | lia] ];
  simpl bind.

Lemma Linear_forward_2d i o bias b :
  Linear.forward (Linear.init (T:=Shape) i o bias) [b; i] = Ok [b; o].
Proof. unfold Linear.forward, Linear.init; simpl. unfold shape_linear; bsimp. reflexivity. Qed.

Lemma Linear_forward_3d i o bias b n :
  Linear.forward (Linear.init (T:=Shape) i o bias) [b; n; i] = Ok [b; n; o].
Proof. unfold Linear.forward, Linear.init; simpl. unfold shape_linear; bsimp. reflexivity. Qed.

Lemma norm_body_forward_3d dim ty b n :
  norm_body_forward (norm_body_init (T:=Shape) dim ty) [b; n; dim] = Ok [b; n; dim].
Proof.
  unfold norm_body_init. destruct (String.eqb ty "BiasFree"); simpl.
  - unfold BiasFree_LayerNorm.forward; simpl. unfold broadcast; bsimp. reflexivity.
  - unfold WithBias_LayerNorm.forward; simpl. unfold broadcast; bsimp. reflexivity.
Qed.

Lemma LayerNorm_forward_shape dim ty b h w :
  LayerNorm.forward (LayerNorm.init (T:=Shape) dim ty) [b; dim; h; w] = Ok [b; dim; h; w].
Proof.
  unfold LayerNorm.forward, LayerNorm.init, to_3d, to_4d. simpl.
  rewrite norm_body_forward_3d. bsimp. reflexivity.
Qed.

Lemma LayerNorm_Without_Shape_forward_3d dim ty b n :
  LayerNorm_Without_Shape.forward (LayerNorm_Without_Shape.init (T:=Shape) dim ty) [b; n; dim]
  = Ok [b; n; dim].
Proof.
  unfold LayerNorm_Without_Shape.forward, LayerNorm_Without_Shape.init. simpl.
  apply norm_body_forward_3d.
Qed.

Lemma film_shape dim embed_dim g b h w prior :
  block_prior_fits embed_dim g b prior ->
  film (film_init dim embed_dim g) (film_init dim embed_dim g) [b; dim; h; w] prior
  = Ok [b; dim; h; w].
Proof.
  intros [-> | [-> ->]]; [reflexivity |].
  unfold film, film_init, film_factor. simpl.
  rewrite Linear_forward_2d. simpl. unfold broadcast. bsimp. reflexivity.
Qed.


Lemma chunk_sizes_3 d : 0 < d -> chunk_sizes (d * 3) 3 = [d; d; d].
Proof.
  intros Hd. unfold chunk_sizes.
  assert ((d * 3 + 3 - 1) / 3 = d) as ->.
  { symmetry. apply N.div_unique with (r := 2); lia. }
  replace (d =? 0) with false by (symmetry; apply N.eqb_neq; lia).
  assert ((d * 3 + d - 1) / d = 3) as ->.
  { symmetry. apply N.div_unique with (r := d - 1); lia. }
  change (N.to_nat (N.max 3 1 - 1)) with 2%nat. simpl.
  replace (d - (d * N.max 3 1 - d * 3)) with d; [reflexivity |].
  change (N.max 3 1) with 3. lia.
Qed.

Lemma chunk_sizes_2 d : 0 < d -> chunk_sizes (d * 2) 2 = [d; d].
Proof.
  intros Hd. unfold chunk_sizes.
  assert ((d * 2 + 2 - 1) / 2 = d) as ->.
  { symmetry. apply N.div_unique with (r := 1); lia. }
  replace (d =? 0) with false by (symmetry; apply N.eqb_neq; lia).
  assert ((d * 2 + d - 1) / d = 2) as ->.
  { symmetry. apply N.div_unique with (r := d - 1); lia. }
  change (N.to_nat (N.max 2 1 - 1)) with 1%nat. simpl.
  replace (d - (d * N.max 2 1 - d * 2)) with d; [reflexivity |].
  change (N.max 2 1) with 2. lia.
Qed.

Lemma Conv2d_init_groups cin cout k p g bias (m : Conv2d.t Shape) :
  Conv2d.init cin cout k p g bias = Ok m -> g <> 0.
Proof.
  unfold Conv2d.init. destruct (N.eqb_spec g 0); [discriminate | auto].
Qed.

Lemma FeedForward_forward_shape dim f bias embed_dim g (m : FeedForward.t Shape)
  b h w prior :
  FeedForward.init dim f bias embed_dim g = Ok m ->
  block_prior_fits embed_dim g b prior ->
  0 < h -> 0 < w ->
  FeedForward.forward m [b; dim; h; w] prior = Ok [b; dim; h; w].
Proof.
  intros Hinit Hp Hh Hw.
  pose proof Hinit as Hdim. apply FeedForward_init_dim in Hdim.
  apply FeedForward_init_inv in Hinit
    as (hidden & _ & Hpos & Hpin & Hdw & Hpout & Hl1 & Hl2).
  set (hf := Z.to_N hidden) in *.
  assert (0 < hf) as Hhf by (unfold hf; lia).
  assert (0 < hf * 2) as Hhf2 by lia.
  unfold FeedForward.forward. rewrite Hl1, Hl2.
  rewrite film_shape by assumption. simpl bind.
  conv_step. conv_step.
  unfold shape_chunk. simpl.
  rewrite (chunk_sizes_2 Hhf). simpl. unfold broadcast. bsimp.
  conv_step. reflexivity.
Qed.


Lemma heads_cover dim num_heads :
  dim mod num_heads = 0 -> num_heads * (dim / num_heads) = dim.
Proof. intros H. symmetry. apply N.Div0.div_exact. assumption. Qed.

Lemma Attention_forward_shape dim num_heads bias embed_dim g (m : Attention.t Shape)
  b h w prior :
  Attention.init dim num_heads bias embed_dim g = Ok m ->
  num_heads <> 0 -> dim mod num_heads = 0 ->
  block_prior_fits embed_dim g b prior ->
  0 < h -> 0 < w ->
  Attention.forward m [b; dim; h; w] prior = Ok [b; dim; h; w].
Proof.
  unfold Attention.init. intros Hinit Hn Hdiv Hp Hh Hw.
  apply bind_ok_inv in Hinit as (c1 & Hc1 & Hinit).
  apply bind_ok_inv in Hinit as (c2 & Hc2 & Hinit).
  apply bind_ok_inv in Hinit as (c3 & Hc3 & Hinit).
  injection Hinit as <-.
  assert (0 < dim) as Hdim by (apply Conv2d_init_groups in Hc2; lia).
  unfold Attention.forward.
  simpl Attention.ln1. simpl Attention.ln2. simpl Attention.qkv.
  simpl Attention.qkv_dwconv. simpl Attention.project_out.
  simpl Attention.num_heads. simpl Attention.temperature.
  simpl (unpack4 _). simpl bind.
  rewrite film_shape by assumption. simpl bind.
  conv_step. conv_step.
  unfold shape_chunk. simpl.
  rewrite (chunk_sizes_3 Hdim). simpl.
  replace (num_heads =? 0) with false by (symmetry; apply N.eqb_neq; assumption).
  rewrite Hdiv. bsimp. unfold broadcast. bsimp.
  rewrite heads_cover by assumption.
  conv_step. reflexivity.
Qed.

Lemma TransformerBlock_forward_shape dim num_heads f bias ty embed_dim g
  (m : TransformerBlock.t Shape) b h w prior :
  TransformerBlock.init dim num_heads f bias ty embed_dim g = Ok m ->
  num_heads <> 0 -> dim mod num_heads = 0 ->
  block_prior_fits embed_dim g b prior ->
  0 < h -> 0 < w ->
  TransformerBlock.forward m [b; dim; h; w] prior = Ok [b; dim; h; w].
Proof.
  intros Hinit Hn Hdiv Hp Hh Hw.
  apply TransformerBlock_init_inv in Hinit as (Ha & Hf & Hn1 & Hn2).
  unfold TransformerBlock.forward. rewrite Hn1, Hn2.
  rewrite LayerNorm_forward_shape. simpl bind.
  erewrite Attention_forward_shape by eassumption. simpl bind.
  unfold broadcast. bsimp.
  rewrite LayerNorm_forward_shape. simpl bind.
  erewrite FeedForward_forward_shape by eassumption. simpl bind.
  unfold broadcast. bsimp. reflexivity.
Qed.

Lemma run_blocks_shape dim num_heads f bias ty embed_dim g
  (bs : list (TransformerBlock.t Shape)) b h w prior :
  Forall (fun blk => TransformerBlock.init dim num_heads f bias ty embed_dim g = Ok blk) bs ->
  num_heads <> 0 -> dim mod num_heads = 0 ->
  block_prior_fits embed_dim g b prior ->
  0 < h -> 0 < w ->
  BasicLayer.run_blocks bs [b; dim; h; w] prior = Ok [b; dim; h; w].
Proof.
  intros Hall Hn Hdiv Hp Hh Hw. unfold BasicLayer.run_blocks.
  induction Hall as [| blk bs Hblk _ IH]; simpl; [reflexivity |].
  erewrite TransformerBlock_forward_shape by eassumption. simpl. exact IH.
Qed.

Lemma HIM_forward_shape dim num_heads bias embed_dim ty (m : HIM.t Shape) b h w n :
  HIM.init dim num_heads bias embed_dim ty = Ok m ->
  dim mod num_heads = 0 -> 0 < dim ->
  HIM.forward m [b; dim; h; w] [b; n; embed_dim * 4] = Ok [b; dim; h; w].
Proof.
  unfold HIM.init. intros Hinit Hdiv Hdim.
  destruct (N.eqb_spec num_heads 0) as [| Hn]; [discriminate |].
  destruct (N.eqb_spec (dim / num_heads) 0) as [| Hhd]; [discriminate |].
  injection Hinit as <-.
  unfold HIM.forward.
  simpl HIM.norm1. simpl HIM.norm2. simpl HIM.q. simpl HIM.kv. simpl HIM.proj.
  simpl HIM.num_heads. simpl HIM.scale.
  simpl (unpack4 _). simpl bind.
  simpl (lift (rearrange _ _)). simpl bind.
  rewrite LayerNorm_Without_Shape_forward_3d. simpl bind.
  rewrite LayerNorm_Without_Shape_forward_3d. simpl bind.
  rewrite !Linear_forward_3d. simpl bind.
  unfold shape_chunk. simpl.
  rewrite (N.mul_comm 2 dim), (chunk_sizes_2 Hdim). simpl.
  replace (num_heads =? 0) with false by (symmetry; apply N.eqb_neq; assumption).
  rewrite Hdiv. bsimp.
  rewrite heads_cover by assumption.
  rewrite Linear_forward_3d. simpl bind.
  unfold broadcast. bsimp. reflexivity.
Qed.


Lemma BasicLayer_forward_shape dim num_heads f bias ty embed_dim nb g
  (m : BasicLayer.t Shape) b h w prior :
  BasicLayer.init dim num_heads f bias ty embed_dim nb g = Ok m ->
  num_heads <> 0 -> dim mod num_heads = 0 -> 0 < dim ->
  stage_prior_fits embed_dim g b prior ->
  0 < h -> 0 < w ->
  BasicLayer.forward m [b; dim; h; w] prior = Ok [b; dim; h; w].
Proof.
  intros Hinit Hn Hdiv Hdim Hp Hh Hw.
  apply BasicLayer_init_inv in Hinit as (Hg & _ & Hall & Hhim).
  destruct Hp as [-> | [[-> ->] | [Hlt [n ->]]]].
  - rewrite BasicLayer_forward_plain by (left; reflexivity).
    eapply run_blocks_shape; try eassumption. left; reflexivity.
  - rewrite BasicLayer_forward_plain by (right; rewrite Hg; reflexivity).
    eapply run_blocks_shape; try eassumption. right; split; reflexivity.
  - apply N.ltb_lt in Hlt. rewrite Hlt in Hhim. destruct Hhim as (hm & Hhm & Hsome).
    erewrite BasicLayer_forward_fused; [| rewrite Hg; exact Hlt | exact Hsome].
    erewrite HIM_forward_shape by eassumption. simpl bind.
    eapply run_blocks_shape; try eassumption. left; reflexivity.
Qed.

Lemma Upsample_forward_shape n (m : Upsample.t Shape) b h w :
  Upsample.init n = Ok m ->
  (n * 2) mod 4 = 0 -> 0 < h -> 0 < w -> 0 < n ->
  Upsample.forward m [b; n; h; w] = Ok [b; n * 2 / 4; h * 2; w * 2].
Proof.
  unfold Upsample.init. intros Hinit Hdiv Hh Hw Hn.
  apply bind_ok_inv in Hinit as (c & Hc & Hinit). injection Hinit as <-.
  unfold Upsample.forward. simpl Upsample.body_conv. conv_step.
  unfold shape_pixel_shuffle. simpl. change (2 * 2) with 4. rewrite Hdiv. bsimp. reflexivity.
Qed.

Lemma Downsample_forward_shape n (m : Downsample.t Shape) b h w :
  Downsample.init n = Ok m ->
  h mod 2 = 0 -> w mod 2 = 0 -> 0 < h -> 0 < w -> 2 <= n ->
  Downsample.forward m [b; n; h; w] = Ok [b; n / 2 * 4; h / 2; w / 2].
Proof.
  unfold Downsample.init. intros Hinit Hh2 Hw2 Hh Hw Hn.
  assert (0 < n / 2) as Hn2.
  { apply N.div_str_pos. lia. }
  apply bind_ok_inv in Hinit as (c & Hc & Hinit). injection Hinit as <-.
  unfold Downsample.forward. simpl Downsample.body_conv. conv_step.
  unfold shape_pixel_unshuffle. simpl. change (2 * 2) with 4. rewrite Hh2, Hw2. bsimp. reflexivity.
Qed.

Lemma PriorDown_forward_shape n_in n_out embed_dim b :
  PriorDown.forward (PriorDown.init (T:=Shape) n_in n_out embed_dim)
    (Some [b; n_in; embed_dim * 4])
  = Ok [b; n_out; embed_dim * 4].
Proof.
  unfold PriorDown.forward, PriorDown.init. simpl.
  rewrite !Linear_forward_3d. simpl. rewrite Linear_forward_3d. reflexivity.
Qed.


Lemma shape_permute_021 a b c : shape_permute [a; b; c] [0; 2; 1] = Some [a; c; b].
Proof. reflexivity. Qed.

Lemma shape_upsample_28 b c h w :
  0 < c -> 0 < h -> 0 < w ->
  shape_upsample_bilinear (28, 28) [b; c; h; w] = Some [b; c; 28; 28].
Proof.
  intros Hc Hh Hw. unfold shape_upsample_bilinear.
  apply N.ltb_lt in Hc, Hh, Hw. rewrite Hc, Hh, Hw. reflexivity.
Qed.

Lemma shape_view_tokens b :
  shape_view [b; 64; 14 * 14] [b; 64; 14; 14] = Some [b; 64; 14; 14].
Proof.
  unfold shape_view.
  replace (numel [b; 64; 14 * 14] =? numel [b; 64; 14; 14]) with true; [reflexivity |].
  symmetry. apply N.eqb_eq. unfold numel. simpl. lia.
Qed.

Ltac inv_binds H :=
  repeat (let x := fresh "x" in
          let E := fresh "E" in
          apply bind_ok_inv in H as (x & E & H)).

Section WithMAE.
Context {MAE : MaskedAutoencoderViT Shape}.

Lemma Transformer_forward_shape_224 (cfg : Config.t) (m : Transformer.t Shape) (B : N) :
  runs_on_224 cfg = true ->
  Transformer.init cfg = Ok m ->
  0 < B ->
  mae_forward (Transformer.mae_encoder m) [B; 3; 224; 224] = Ok [B; 50; 64] ->
  Transformer.forward m [B; 3; 224; 224]
    (Some [B; Config.group cfg * Config.group cfg; Config.embed_dim cfg * 4])
  = Ok [B; Config.out_channels cfg; 224; 224].
Proof.
  destruct cfg as [inp out dim nbs nref heads f bias ty dual e g path].
  unfold runs_on_224. simpl.
  intros Hcfg Hinit HB Hmae.
  repeat (apply andb_prop in Hcfg as [Hcfg ?]).
  repeat match goal with
         | H : (_ =? _) = true |- _ => apply N.eqb_eq in H
         | H : (_ <=? _) = true |- _ => apply N.leb_le in H
         | H : negb _ = true |- _ => apply negb_true_iff in H
         end.
  subst inp out dim dual.
  destruct heads as [| h0 [| h1 [| h2 [| h3 rest]]]]; try discriminate.
  match goal with H : heads_fit _ _ = true |- _ => unfold heads_fit in H; rename H into Hheads end.
  repeat (apply andb_prop in Hheads as [Hheads ?]).
  repeat match goal with
         | H : (_ =? _) = true |- _ => apply N.eqb_eq in H
         | H : negb _ = true |- _ => apply negb_true_iff in H; apply N.eqb_neq in H
         end.
  unfold Transformer.init in Hinit.
  cbn [Config.inp_channels Config.out_channels Config.dim Config.num_blocks
       Config.num_refinement_blocks Config.heads Config.ffn_expansion_factor
       Config.bias Config.LayerNorm_type Config.dual_pixel_task Config.embed_dim
       Config.group Config.mae_weights_path] in Hinit.
  cbv zeta in Hinit.
  inv_binds Hinit.
  injection Hinit as <-.
  repeat match goal with
         | H : bind (getitem (_ :: _) _) _ = Ok _ |- _ => simpl in H
         | H : bind (getitem nbs _) _ = Ok _ |- _ =>
             let n := fresh "n" in
             let E := fresh "En" in
             apply bind_ok_inv in H as (n & E & H)
         end.
  change (48 * 2) with 96 in *. change (48 * 4) with 192 in *.
  change (48 * 8) with 384 in *.
  cbn [Transformer.mae_encoder] in Hmae.
  assert (1 < g / 2) as Hg2.
  { apply N.div_le_lower_bound with (b := 2) (q := 2) in H0; lia. }
  unfold Transformer.forward.
  cbn [Transformer.mae_encoder Transformer.linear_layer Transformer.channel_expand_layer
       Transformer.conv_layer Transformer.upsample_layer
       Transformer.channel_increase_layer_level3 Transformer.channel_increase_layer_level2
       Transformer.channel_increase_layer_level1 Transformer.down_1 Transformer.down_2
       Transformer.patch_embed Transformer.channel_reducer Transformer.latent
       Transformer.up4_3 Transformer.reduce_chan_level3 Transformer.decoder_level3
       Transformer.up3_2 Transformer.reduce_chan_level2 Transformer.decoder_level2
       Transformer.up2_1 Transformer.decoder_level1 Transformer.refinement
       Transformer.dual_pixel_task Transformer.skip_conv Transformer.output].
  (* multi-scale prior *)
  rewrite PriorDown_forward_shape. cbn [bind].
  rewrite PriorDown_forward_shape. cbn [bind].
  replace (lift (flatten [B; 1; e * 4] 1)) with (Ok [B; e * 4]).
  2:{ cbn. unfold shape_flatten. simpl. unfold numel. simpl.
      replace (1 * (e * 4 * 1)) with (e * 4) by lia. reflexivity. }
  cbn [bind].
  (* patch embedding, channel reduction, MAE *)
  unfold OverlapPatchEmbed.forward.
  unfold OverlapPatchEmbed.init in E6.
  apply bind_ok_inv in E6 as (pe & Epe & E6). injection E6 as <-.
  cbn [OverlapPatchEmbed.proj].
  assert (0 < 224) as H224 by lia.
  assert (0 < 14) as H14 by lia.
  assert (0 < 28) as H28 by lia.
  assert (0 < 28 * 2) as H56 by lia.
  assert (0 < 28 * 2 * 2) as H112 by lia.
  conv_step. conv_step.
  rewrite Hmae. cbn [bind].
  rewrite shape_permute_021. cbn [bind lift].
  rewrite Linear_forward_3d. cbn [bind getitem nth_error lift].
  rewrite shape_view_tokens. cbn [bind lift].
  conv_step. conv_step.
  rewrite ?shape_upsample_28 by lia. cbn [bind lift].
  (* latent *)
  erewrite BasicLayer_forward_shape;
    [ | eassumption | assumption | assumption | lia
      | right; left; split; reflexivity | assumption | assumption ].
  cbn [bind].
  (* level 3 *)
  erewrite Upsample_forward_shape;
    [ | eassumption | reflexivity | assumption | assumption | reflexivity ].
  cbn [bind]. change (384 * 2 / 4) with 192.
  conv_step. conv_step.
  erewrite BasicLayer_forward_shape;
    [ | eassumption | assumption | assumption | lia
      | right; right; split; [assumption | eexists; reflexivity]
      | assumption | assumption ].
  cbn [bind].
  (* level 2 *)
  erewrite Upsample_forward_shape;
    [ | eassumption | reflexivity | assumption | assumption | reflexivity ].
  cbn [bind]. change (192 * 2 / 4) with 96.
  assert (0 < 28 * 2 * 2 * 2) as H224' by lia.
  conv_step. conv_step.
  erewrite BasicLayer_forward_shape;
    [ | eassumption | assumption | assumption | lia
      | right; right; split; [assumption | eexists; reflexivity]
      | assumption | assumption ].
  cbn [bind].
  (* level 1 *)
  erewrite Upsample_forward_shape;
    [ | eassumption | reflexivity | assumption | assumption | reflexivity ].
  cbn [bind]. change (96 * 2 / 4) with 48.
  conv_step.
  erewrite BasicLayer_forward_shape;
    [ | eassumption | assumption | assumption | lia
      | right; right; split; [lia | eexists; reflexivity]
      | assumption | assumption ].
  cbn [bind].
  erewrite BasicLayer_forward_shape;
    [ | eassumption | assumption | assumption | lia
      | right; right; split; [lia | eexists; reflexivity]
      | assumption | assumption ].
  cbn [bind].
  conv_step.
  change (28 * 2 * 2 * 2) with 224.
  cbn. unfold broadcast. bsimp. reflexivity.
Qed.

End WithMAE.
End Shapes.

(** ** What a successful forward pass returns

    The lemmas above say when the shapes go through; these say what the
    result looks like when they do, for every configuration, encoder, image
    and prior. *)

Section OnlyAt224.
Local Arguments N.mul : simpl never.
Local Arguments N.add : simpl never.
Local Arguments N.sub : simpl never.
Local Arguments N.div : simpl never.
Local Arguments N.modulo : simpl never.
Local Arguments N.eqb : simpl never.
Local Arguments N.leb : simpl never.
Local Arguments N.ltb : simpl never.

Lemma lift_ok_inv {A} (o : option A) (a : A) : lift o = Ok a -> o = Some a.
Proof. destruct o; simpl; congruence. Qed.

Lemma spatial_ends_with h w s : spatial h w s -> ends_with h w s.
Proof. intros (b & c & ->). exists [b; c]. reflexivity. Qed.

Lemma ends_with_rev h w s : ends_with h w s <-> exists r, rev s = w :: h :: r.
Proof.
  split.
  - intros (pre & ->). exists (rev pre). rewrite rev_app_distr. reflexivity.
  - intros (r & H). exists (rev r).
    rewrite <- (rev_involutive s), H. simpl. rewrite <- app_assoc. reflexivity.
Qed.

Lemma ends_with_rank4 h w s :
  ends_with h w s -> List.length s = 4%nat -> spatial h w s.
Proof.
  intros (pre & ->) Hlen. rewrite length_app in Hlen. simpl in Hlen.
  destruct pre as [| b [| c [| d pre]]]; simpl in Hlen; try lia.
  exists b, c. reflexivity.
Qed.

Lemma bdim_same_or_one a b d : bdim a b = Some d -> (b = a \/ b = 1 -> d = a).
Proof.
  unfold bdim. intros H Hb.
  destruct (N.eqb_spec a b); [congruence |].
  destruct (N.eqb_spec a 1); [destruct Hb; congruence |].
  destruct (N.eqb_spec b 1); congruence.
Qed.

Lemma bdim_not_one a b d : bdim a b = Some d -> a <> 1 -> d = a.
Proof.
  unfold bdim. intros H Ha.
  destruct (N.eqb_spec a b); [congruence |].
  destruct (N.eqb_spec a 1); [contradiction |].
  destruct (N.eqb_spec b 1); congruence.
Qed.

Lemma bdim_result_right a b : bdim a b = Some b -> a <> 1 -> a = b.
Proof. intros H Ha. symmetry. exact (@bdim_not_one a b b H Ha). Qed.

(** Broadcasting keeps the last two axes when the other operand has the
    same ones or has 1 and 1 there. *)
Lemma broadcast_ends_with h w x y z :
  broadcast x y = Some z ->
  ends_with h w x ->
  ends_with h w y \/ ends_with 1 1 y ->
  ends_with h w z.
Proof.
  unfold broadcast. intros H Hx Hy.
  apply ends_with_rev in Hx as (rx & Hx). rewrite Hx in H.
  assert (exists w' h' ry, rev y = w' :: h' :: ry /\ (w' = w \/ w' = 1) /\ (h' = h \/ h' = 1))
    as (w' & h' & ry & Hy' & Hw & Hh).
  { destruct Hy as [Hy | Hy]; apply ends_with_rev in Hy as (ry & Hy); eauto 10. }
  rewrite Hy' in H. simpl in H.
  destruct (bdim w w') as [dw |] eqn:Ew; [| discriminate].
  destruct (bdim h h') as [dh |] eqn:Eh; [| discriminate].
  destruct (broadcast_rev rx ry) as [r |]; [| discriminate].
  simpl in H. injection H as <-.
  pose proof (@bdim_same_or_one _ _ _ Ew Hw). pose proof (@bdim_same_or_one _ _ _ Eh Hh).
  subst dw dh.
  exists (rev r). simpl. rewrite <- app_assoc. reflexivity.
Qed.

Lemma broadcast_rank4 x y z :
  broadcast x y = Some z -> List.length x = 4%nat -> List.length y = 4%nat ->
  List.length z = 4%nat.
Proof.
  intros H Hx Hy.
  destruct x as [| x0 [| x1 [| x2 [| x3 [| x4 x]]]]]; try discriminate.
  destruct y as [| y0 [| y1 [| y2 [| y3 [| y4 y]]]]]; try discriminate.
  unfold broadcast in H. simpl in H.
  destruct (bdim x3 y3); [| discriminate].
  destruct (bdim x2 y2); [| discriminate].
  destruct (bdim x1 y1); [| discriminate].
  destruct (bdim x0 y0); [| discriminate].
  simpl in H. injection H as <-. reflexivity.
Qed.

Lemma broadcast_spatial h w x y z :
  broadcast x y = Some z -> spatial h w x -> spatial h w y -> spatial h w z.
Proof.
  intros H Hx Hy. apply ends_with_rank4.
  - eapply broadcast_ends_with; [exact H | apply spatial_ends_with; exact Hx |].
    left. apply spatial_ends_with; exact Hy.
  - destruct Hx as (? & ? & ->), Hy as (? & ? & ->).
    eapply broadcast_rank4; [exact H | |]; reflexivity.
Qed.

(** A convolution only takes inputs of three or four axes. *)
Lemma shape_conv2d_spatial x weight bias padding groups y h w k :
  shape_conv2d x weight bias padding groups = Some y ->
  (exists co cig, weight = [co; cig; k; k]) -> same_size k padding ->
  ends_with h w x -> List.length x <> 3%nat ->
  spatial h w y.
Proof.
  intros H (co & cig & ->) Hk Hx Hlen. unfold shape_conv2d in H.
  destruct x as [| x0 [| x1 [| x2 [| x3 [| x4 x]]]]]; try discriminate;
    [contradiction Hlen; reflexivity |].
  apply ends_with_rank4 in Hx; [| reflexivity].
  destruct Hx as (b & c & E). injection E as -> -> -> ->.
  match type of H with (if ?c then _ else _) = _ => destruct c eqn:Ec end;
    [| discriminate].
  injection H as <-.
  repeat (apply andb_prop in Ec as [Ec ?]).
  repeat match goal with
         | H : (_ <=? _) = true |- _ => apply N.leb_le in H
         end.
  exists b, co. unfold conv_out.
  destruct Hk as [[-> ->] | [-> ->]]; repeat f_equal; lia.
Qed.

Lemma Conv2d_forward_spatial cin cout k p g bias (m : Conv2d.t Shape) x y h w :
  Conv2d.init cin cout k p g bias = Ok m -> same_size k p ->
  Conv2d.forward m x = Ok y ->
  ends_with h w x -> List.length x <> 3%nat ->
  spatial h w y.
Proof.
  unfold Conv2d.init. intros Hinit Hk Hf Hx Hlen.
  destruct (g =? 0); [discriminate |].
  destruct (negb (cin mod g =? 0)); [discriminate |].
  destruct (negb (cout mod g =? 0)); [discriminate |].
  injection Hinit as <-. unfold Conv2d.forward in Hf.
  apply lift_ok_inv in Hf.
  cbn [Conv2d.weight Conv2d.bias Conv2d.padding Conv2d.groups conv2d shape_torch empty]
    in Hf.
  eapply shape_conv2d_spatial;
    [exact Hf | do 2 eexists; reflexivity | exact Hk | exact Hx | exact Hlen].
Qed.


Lemma rank_of_ends_with_ge2 h w s : ends_with h w s -> (2 <= List.length s)%nat.
Proof. intros (pre & ->). rewrite length_app. simpl. lia. Qed.

Lemma to_4d_spatial y h w z : to_4d (T:=Shape) y h w = Ok z -> spatial h w z.
Proof.
  unfold to_4d. intros H. apply lift_ok_inv in H. simpl in H.
  destruct y as [| b [| n [| c [| ? ?]]]]; try discriminate.
  destruct (n =? h * w); [| discriminate]. injection H as <-.
  exists b, c. reflexivity.
Qed.

Lemma unpack2_last2 (s : Shape) h w h' w' :
  unpack2 (last2 s) = Ok (h', w') -> spatial h w s -> h' = h /\ w' = w.
Proof. intros H (b & c & ->). simpl in H. injection H as <- <-. auto. Qed.

Lemma LayerNorm_forward_spatial (m : LayerNorm.t Shape) x y h w :
  LayerNorm.forward m x = Ok y -> spatial h w x -> spatial h w y.
Proof.
  unfold LayerNorm.forward. intros H Hx.
  apply bind_ok_inv in H as ([h' w'] & E1 & H).
  apply bind_ok_inv in H as (x3 & E2 & H).
  apply bind_ok_inv in H as (y3 & E3 & H).
  destruct (unpack2_last2 E1 Hx) as [-> ->].
  eapply to_4d_spatial; exact H.
Qed.

(** [k.unsqueeze(-1).unsqueeze(-1)] ends in two axes of size 1. *)
Lemma film_factor_ends_with_1 attr (ln : option (Linear.t Shape)) p k :
  film_factor attr ln p = Ok k -> ends_with 1 1 k.
Proof.
  unfold film_factor. intros H. destruct ln as [l |]; [| discriminate].
  apply bind_ok_inv in H as (k0 & _ & H). injection H as <-.
  exists k0. simpl. rewrite <- app_assoc. reflexivity.
Qed.

Lemma film_ends_with ln1 ln2 x prior y h w :
  film (T:=Shape) ln1 ln2 x prior = Ok y -> ends_with h w x -> ends_with h w y.
Proof.
  unfold film. intros H Hx. destruct prior as [p |]; [| injection H as <-; exact Hx].
  apply bind_ok_inv in H as (k1 & E1 & H).
  apply bind_ok_inv in H as (k2 & E2 & H).
  apply bind_ok_inv in H as (xk & E3 & H).
  apply lift_ok_inv in E3, H. simpl in E3, H.
  apply film_factor_ends_with_1 in E1, E2.
  eapply broadcast_ends_with; [exact H | | right; exact E2].
  eapply broadcast_ends_with; [exact E3 | exact Hx | right; exact E1].
Qed.

(** Broadcasting against a shape of four axes never gives three. *)
Lemma broadcast_rank_ge x y z :
  broadcast x y = Some z -> (List.length x <= List.length z)%nat.
Proof.
  unfold broadcast. intros H.
  destruct (broadcast_rev (rev x) (rev y)) as [r |] eqn:E; [| discriminate].
  injection H as <-. rewrite length_rev, <- (length_rev x).
  revert E. generalize (rev x) (rev y). clear. intros a. revert r.
  induction a as [| a0 a IH]; intros r b E; simpl; [lia |].
  destruct b as [| b0 b]; simpl in E.
  - injection E as <-. simpl. lia.
  - destruct (bdim a0 b0); [| discriminate].
    destruct (broadcast_rev a b) as [r' |] eqn:E'; [| discriminate].
    injection E as <-. simpl. specialize (IH _ _ E'). lia.
Qed.

Lemma film_rank ln1 ln2 x prior y :
  film (T:=Shape) ln1 ln2 x prior = Ok y -> (List.length x <= List.length y)%nat.
Proof.
  unfold film. intros H. destruct prior as [p |]; [| injection H as <-; lia].
  apply bind_ok_inv in H as (k1 & E1 & H).
  apply bind_ok_inv in H as (k2 & E2 & H).
  apply bind_ok_inv in H as (xk & E3 & H).
  apply lift_ok_inv in E3, H. simpl in E3, H.
  apply broadcast_rank_ge in E3, H. lia.
Qed.


Ltac inv_bind H :=
  let a := fresh "a" in
  let E := fresh "E" in
  apply bind_ok_inv in H as (a & E & H);
  cbv beta in H;
  repeat match type of H with
         | context [match ?p with pair _ _ => _ end] => is_var p; destruct p
         end.

Lemma Attention_init_project_out dim num_heads bias embed_dim g (m : Attention.t Shape) :
  Attention.init dim num_heads bias embed_dim g = Ok m ->
  Conv2d.init dim dim 1 0 1 bias = Ok (Attention.project_out m).
Proof.
  unfold Attention.init. intros H.
  apply bind_ok_inv in H as (c1 & _ & H).
  apply bind_ok_inv in H as (c2 & _ & H).
  apply bind_ok_inv in H as (c3 & E & H).
  injection H as <-. exact E.
Qed.

Lemma rearrange_merge_spatial head h w (x y : Shape) :
  rearrange (merge_heads_4d head h w) x = Some y -> spatial h w y.
Proof.
  simpl. destruct x as [| b [| hd [| c [| n [| ? ?]]]]]; try discriminate.
  destruct ((hd =? head) && (n =? h * w))%bool; [| discriminate].
  intros H. injection H as <-. exists b, (hd * c). reflexivity.
Qed.

Lemma spatial_rank h w s : spatial h w s -> List.length s = 4%nat.
Proof. intros (b & c & ->). reflexivity. Qed.

Lemma Attention_forward_spatial dim num_heads bias embed_dim g (m : Attention.t Shape)
  x prior y h w :
  Attention.init dim num_heads bias embed_dim g = Ok m ->
  Attention.forward m x prior = Ok y -> spatial h w x -> spatial h w y.
Proof.
  intros Hinit H Hx. apply Attention_init_project_out in Hinit.
  unfold Attention.forward in H.
  destruct Hx as (b & c & ->). simpl (unpack4 _) in H. cbn [bind] in H.
  repeat inv_bind H.
  match goal with
  | E : lift (rearrange (merge_heads_4d _ _ _) _) = Ok _ |- _ =>
      apply lift_ok_inv in E; apply rearrange_merge_spatial in E; rename E into Hm
  end.
  eapply Conv2d_forward_spatial;
    [exact Hinit | left; split; reflexivity | exact H
     | apply spatial_ends_with; exact Hm
     | rewrite (spatial_rank Hm); discriminate].
Qed.


Lemma FeedForward_init_convs dim f bias embed_dim g (m : FeedForward.t Shape) :
  FeedForward.init dim f bias embed_dim g = Ok m ->
  exists hf,
    Conv2d.init dim (hf * 2) 1 0 1 bias = Ok (FeedForward.project_in m)
    /\ Conv2d.init (hf * 2) (hf * 2) 3 1 (hf * 2) bias = Ok (FeedForward.dwconv m)
    /\ Conv2d.init hf dim 1 0 1 bias = Ok (FeedForward.project_out m).
Proof.
  intros H.
  apply FeedForward_init_inv in H as (hidden & _ & _ & E1 & E2 & E3 & _).
  exists (Z.to_N hidden). repeat split; assumption.
Qed.

Lemma chunk_dim1_spatial (d : Shape) chunks cs h w :
  chunk d chunks 1 = Some cs -> spatial h w d -> Forall (spatial h w) cs.
Proof.
  intros H (b & c & ->). simpl in H. unfold shape_chunk in H. simpl in H.
  destruct (chunks =? 0); [discriminate |].
  injection H as <-. apply Forall_map. apply Forall_forall. intros sz _.
  exists b, sz. reflexivity.
Qed.

Lemma FeedForward_forward_spatial dim f bias embed_dim g (m : FeedForward.t Shape)
  x prior y h w :
  FeedForward.init dim f bias embed_dim g = Ok m ->
  FeedForward.forward m x prior = Ok y -> spatial h w x -> spatial h w y.
Proof.
  intros Hinit H Hx.
  apply FeedForward_init_convs in Hinit as (hf & Hin & Hdw & Hout).
  unfold FeedForward.forward in H.
  apply bind_ok_inv in H as (x1 & Efilm & H).
  apply bind_ok_inv in H as (x2 & Ein & H).
  apply bind_ok_inv in H as (d & Edw & H).
  apply bind_ok_inv in H as ([c1 c2] & Echunk & H).
  apply bind_ok_inv in H as (x3 & Emul & H).
  apply bind_ok_inv in Echunk as (cs & Ecs & Eun).
  apply lift_ok_inv in Ecs, Emul.
  assert (ends_with h w x1) as H1
    by (eapply film_ends_with; [exact Efilm | apply spatial_ends_with; exact Hx]).
  apply film_rank in Efilm as R1. rewrite (spatial_rank Hx) in R1.
  assert (spatial h w x2) as H2.
  { eapply Conv2d_forward_spatial;
      [exact Hin | left; split; reflexivity | exact Ein | exact H1 | lia]. }
  assert (spatial h w d) as H3.
  { eapply Conv2d_forward_spatial;
      [exact Hdw | right; split; reflexivity | exact Edw
       | apply spatial_ends_with; exact H2 | rewrite (spatial_rank H2); discriminate]. }
  assert (Forall (spatial h w) cs) as Hcs
    by (eapply chunk_dim1_spatial; [exact Ecs | exact H3]).
  destruct cs as [| s1 [| s2 [| s3 cs]]]; try discriminate.
  injection Eun as <- <-.
  inversion Hcs as [| ? ? Hs1 Hcs']; subst. inversion Hcs' as [| ? ? Hs2 _]; subst.
  simpl in Emul.
  assert (spatial h w x3) as H4
    by (eapply broadcast_spatial; [exact Emul | exact Hs1 | exact Hs2]).
  eapply Conv2d_forward_spatial;
    [exact Hout | left; split; reflexivity | exact H
     | apply spatial_ends_with; exact H4 | rewrite (spatial_rank H4); discriminate].
Qed.

Lemma TransformerBlock_forward_spatial dim num_heads f bias ty embed_dim g
  (m : TransformerBlock.t Shape) x prior y h w :
  TransformerBlock.init dim num_heads f bias ty embed_dim g = Ok m ->
  TransformerBlock.forward m x prior = Ok y -> spatial h w x -> spatial h w y.
Proof.
  intros Hinit H Hx.
  apply TransformerBlock_init_inv in Hinit as (Ha & Hf & _ & _).
  unfold TransformerBlock.forward in H.
  apply bind_ok_inv in H as (x1 & E1 & H).
  apply bind_ok_inv in H as (x2 & E2 & H). injection H as <-.
  apply bind_ok_inv in E1 as (n1 & En1 & E1).
  apply bind_ok_inv in E1 as (a1 & Ea1 & E1).
  apply bind_ok_inv in E2 as (n2 & En2 & E2).
  apply bind_ok_inv in E2 as (f2 & Ef2 & E2).
  apply lift_ok_inv in E1, E2. simpl in E1, E2.
  assert (spatial h w x1) as H1.
  { eapply broadcast_spatial; [exact E1 | exact Hx |].
    eapply Attention_forward_spatial; [exact Ha | exact Ea1 |].
    eapply LayerNorm_forward_spatial; eassumption. }
  eapply broadcast_spatial; [exact E2 | exact H1 |].
  eapply FeedForward_forward_spatial; [exact Hf | exact Ef2 |].
  eapply LayerNorm_forward_spatial; eassumption.
Qed.

Lemma run_blocks_spatial dim num_heads f bias ty embed_dim g
  (bs : list (TransformerBlock.t Shape)) prior h w :
  Forall (fun blk => TransformerBlock.init dim num_heads f bias ty embed_dim g = Ok blk) bs ->
  forall x y, BasicLayer.run_blocks bs x prior = Ok y -> spatial h w x -> spatial h w y.
Proof.
  unfold BasicLayer.run_blocks.
  induction 1 as [| blk bs Hblk _ IH]; intros x y H Hx; simpl in H.
  - injection H as <-. exact Hx.
  - apply bind_ok_inv in H as (x' & E & H).
    eapply IH; [exact H |]. eapply TransformerBlock_forward_spatial; eassumption.
Qed.

Lemma HIM_forward_spatial (m : HIM.t Shape) x prior y h w :
  HIM.forward m x prior = Ok y -> spatial h w x -> spatial h w y.
Proof.
  unfold HIM.forward. intros H (b & c & ->).
  simpl (unpack4 _) in H. cbn [bind] in H.
  repeat inv_bind H. injection H as <-.
  match goal with
  | E : lift (rearrange (b_hw_c_to_bchw _ _) ?y) = Ok ?z |- _ =>
      change (spatial h w z);
      apply (@to_4d_spatial y h w); unfold to_4d; exact E
  end.
Qed.

Lemma BasicLayer_forward_spatial dim num_heads f bias ty embed_dim nb g
  (m : BasicLayer.t Shape) x prior y h w :
  BasicLayer.init dim num_heads f bias ty embed_dim nb g = Ok m ->
  BasicLayer.forward m x prior = Ok y -> spatial h w x -> spatial h w y.
Proof.
  intros Hinit H Hx.
  apply BasicLayer_init_inv in Hinit as (Hg & _ & Hall & Hhim).
  destruct prior as [p |].
  - destruct (1 <? g) eqn:Hlt.
    + destruct Hhim as (hm & _ & Hsome).
      rewrite (BasicLayer_forward_fused m x p (h := hm)) in H;
        [| rewrite Hg; exact Hlt | exact Hsome].
      apply bind_ok_inv in H as (x' & E & H).
      eapply run_blocks_spatial; [exact Hall | exact H |].
      eapply HIM_forward_spatial; eassumption.
    + rewrite BasicLayer_forward_plain in H by (right; rewrite Hg; exact Hlt).
      eapply run_blocks_spatial; eassumption.
  - rewrite BasicLayer_forward_plain in H by (left; reflexivity).
    eapply run_blocks_spatial; eassumption.
Qed.

Lemma Upsample_forward_spatial n (m : Upsample.t Shape) x y h w :
  Upsample.init n = Ok m ->
  Upsample.forward m x = Ok y -> spatial h w x -> spatial (h * 2) (w * 2) y.
Proof.
  unfold Upsample.init. intros Hinit H Hx.
  apply bind_ok_inv in Hinit as (c & Hc & Hinit). injection Hinit as <-.
  unfold Upsample.forward in H. simpl Upsample.body_conv in H.
  apply bind_ok_inv in H as (z & Ez & H). apply lift_ok_inv in H.
  assert (spatial h w z) as (b & co & ->).
  { eapply Conv2d_forward_spatial;
      [exact Hc | right; split; reflexivity | exact Ez
       | apply spatial_ends_with; exact Hx | rewrite (spatial_rank Hx); discriminate]. }
  simpl in H. unfold shape_pixel_shuffle in H. simpl in H.
  match type of H with (if ?c then _ else _) = _ => destruct c end; [| discriminate].
  injection H as <-. eexists _, _. reflexivity.
Qed.


(** Broadcasting cannot shrink an axis that is not 1. *)
Lemma broadcast_ends_with_not_one h w x y z :
  broadcast x y = Some z ->
  ends_with h w x -> h <> 1 -> w <> 1 -> (2 <= List.length y)%nat ->
  ends_with h w z.
Proof.
  unfold broadcast. intros H Hx Hh Hw Hy.
  apply ends_with_rev in Hx as (rx & Hx). rewrite Hx in H.
  rewrite <- length_rev in Hy.
  destruct (rev y) as [| w' [| h' ry]]; simpl in Hy; try lia.
  simpl in H.
  destruct (bdim w w') as [dw |] eqn:Ew; [| discriminate].
  destruct (bdim h h') as [dh |] eqn:Eh; [| discriminate].
  destruct (broadcast_rev rx ry) as [r |]; [| discriminate].
  simpl in H. injection H as <-.
  apply bdim_not_one in Ew; [| exact Hw]. apply bdim_not_one in Eh; [| exact Hh].
  subst. exists (rev r). simpl. rewrite <- app_assoc. reflexivity.
Qed.

Lemma shape_conv2d_rank x weight bias padding groups y :
  shape_conv2d x weight bias padding groups = Some y ->
  (3 <= List.length x)%nat /\ (3 <= List.length y)%nat.
Proof.
  unfold shape_conv2d. intros H.
  destruct weight as [| co [| cig [| kh [| kw [| ? ?]]]]]; try discriminate.
  destruct x as [| x0 [| x1 [| x2 [| x3 [| x4 x]]]]]; try discriminate;
    match type of H with (if ?c then _ else _) = _ => destruct c end;
    try discriminate; injection H as <-; simpl; lia.
Qed.

Lemma Conv2d_forward_rank (m : Conv2d.t Shape) x y :
  Conv2d.forward m x = Ok y -> (3 <= List.length x)%nat /\ (3 <= List.length y)%nat.
Proof.
  unfold Conv2d.forward. intros H. apply lift_ok_inv in H.
  eapply shape_conv2d_rank. exact H.
Qed.

Section WithMAE.
Context {MAE : MaskedAutoencoderViT Shape}.

Ltac inv_getitems :=
  repeat match goal with
         | H : bind (getitem _ _) _ = Ok _ |- _ =>
             let n := fresh "n" in
             let E := fresh "En" in
             apply bind_ok_inv in H as (n & E & H)
         end.

Lemma Transformer_forward_ends_with_224 (cfg : Config.t) (m : Transformer.t Shape)
  (inp_img : Shape) (prior : option Shape) (y : Shape) :
  Transformer.init cfg = Ok m ->
  Transformer.forward m inp_img prior = Ok y ->
  ends_with 224 224 y.
Proof.
  intros Hinit H.
  unfold Transformer.init in Hinit. cbv zeta in Hinit.
  repeat (let x := fresh "x" in
          let E := fresh "E" in
          apply bind_ok_inv in Hinit as (x & E & Hinit)).
  injection Hinit as <-.
  inv_getitems.
  unfold Transformer.forward in H.
  cbn [Transformer.mae_encoder Transformer.linear_layer Transformer.channel_expand_layer
       Transformer.conv_layer Transformer.upsample_layer
       Transformer.channel_increase_layer_level3 Transformer.channel_increase_layer_level2
       Transformer.channel_increase_layer_level1 Transformer.down_1 Transformer.down_2
       Transformer.patch_embed Transformer.channel_reducer Transformer.latent
       Transformer.up4_3 Transformer.reduce_chan_level3 Transformer.decoder_level3
       Transformer.up3_2 Transformer.reduce_chan_level2 Transformer.decoder_level2
       Transformer.up2_1 Transformer.decoder_level1 Transformer.refinement
       Transformer.dual_pixel_task Transformer.skip_conv Transformer.output
       Transformer.call_skip_conv] in H.
  apply bind_ok_inv in H as (p2 & E_p2 & H).
  apply bind_ok_inv in H as (p3 & E_p3 & H).
  apply bind_ok_inv in H as (pe & E_pe & H).
  apply bind_ok_inv in H as (red & E_red & H).
  apply bind_ok_inv in H as (mae_out & E_mae_out & H).
  apply bind_ok_inv in H as (perm & E_perm & H).
  apply bind_ok_inv in H as (lin & E_lin & H).
  apply bind_ok_inv in H as (viewed & E_viewed & H).
  apply bind_ok_inv in H as (expd & E_expd & H).
  apply bind_ok_inv in H as (conv & E_conv & H).
  apply bind_ok_inv in H as (ups & E_ups & H).
  apply bind_ok_inv in H as (lat & E_lat & H).
  apply bind_ok_inv in H as (u43 & E_u43 & H).
  apply bind_ok_inv in H as (i3 & E_i3 & H).
  apply bind_ok_inv in H as (r3 & E_r3 & H).
  apply bind_ok_inv in H as (d3 & E_d3 & H).
  apply bind_ok_inv in H as (u32 & E_u32 & H).
  apply bind_ok_inv in H as (i2 & E_i2 & H).
  apply bind_ok_inv in H as (r2 & E_r2 & H).
  apply bind_ok_inv in H as (d2 & E_d2 & H).
  apply bind_ok_inv in H as (u21 & E_u21 & H).
  apply bind_ok_inv in H as (i1 & E_i1 & H).
  apply bind_ok_inv in H as (d1 & E_d1 & H).
  apply bind_ok_inv in H as (ref & E_ref & H).
  apply lift_ok_inv in E_ups.
  assert (spatial 28 28 ups) as S0.
  { cbn [upsample_bilinear shape_torch] in E_ups. unfold shape_upsample_bilinear in E_ups.
    destruct conv as [| b [| c [| h [| w [| ? ?]]]]]; try discriminate.
    match type of E_ups with (if ?c then _ else _) = _ => destruct c end;
      [| discriminate].
    injection E_ups as <-. exists b, c. reflexivity. }
  assert (spatial 28 28 lat) as S1
    by (eapply BasicLayer_forward_spatial; [exact E14 | exact E_lat | exact S0]).
  assert (spatial (28 * 2) (28 * 2) u43) as S2
    by (eapply Upsample_forward_spatial; [exact E15 | exact E_u43 | exact S1]).
  assert (forall cin cout bias (c : Conv2d.t Shape) h w xx z,
             Conv2d.init cin cout 1 0 1 bias = Ok c -> Conv2d.forward c xx = Ok z ->
             spatial h w xx -> spatial h w z) as conv1.
  { intros cin cout bias0 c h w xx z Hc Hz Hx.
    eapply Conv2d_forward_spatial;
      [exact Hc | left; split; reflexivity | exact Hz
       | apply spatial_ends_with; exact Hx | rewrite (spatial_rank Hx); discriminate]. }
  assert (spatial (28 * 2) (28 * 2) r3) as S3.
  { eapply conv1; [exact E16 | exact E_r3 |]. eapply conv1; [exact E3 | exact E_i3 | exact S2]. }
  assert (spatial (28 * 2) (28 * 2) d3) as S4
    by (eapply BasicLayer_forward_spatial; [exact E17 | exact E_d3 | exact S3]).
  assert (spatial (28 * 2 * 2) (28 * 2 * 2) u32) as S5
    by (eapply Upsample_forward_spatial; [exact E18 | exact E_u32 | exact S4]).
  assert (spatial (28 * 2 * 2) (28 * 2 * 2) r2) as S6.
  { eapply conv1; [exact E19 | exact E_r2 |]. eapply conv1; [exact E4 | exact E_i2 | exact S5]. }
  assert (spatial (28 * 2 * 2) (28 * 2 * 2) d2) as S7
    by (eapply BasicLayer_forward_spatial; [exact E20 | exact E_d2 | exact S6]).
  assert (spatial (28 * 2 * 2 * 2) (28 * 2 * 2 * 2) u21) as S8
    by (eapply Upsample_forward_spatial; [exact E21 | exact E_u21 | exact S7]).
  change (28 * 2 * 2 * 2) with 224 in S8.
  assert (spatial 224 224 i1) as S9 by (eapply conv1; [exact E5 | exact E_i1 | exact S8]).
  assert (spatial 224 224 d1) as S10
    by (eapply BasicLayer_forward_spatial; [exact E22 | exact E_d1 | exact S9]).
  assert (spatial 224 224 ref) as S11
    by (eapply BasicLayer_forward_spatial; [exact E23 | exact E_ref | exact S10]).
  assert (forall xx z, Conv2d.forward x25 xx = Ok z -> ends_with 224 224 xx ->
                       List.length xx <> 3%nat -> spatial 224 224 z) as conv_out_layer.
  { intros xx z Hz Hx Hr.
    eapply Conv2d_forward_spatial;
      [exact E25 | right; split; reflexivity | exact Hz | exact Hx | exact Hr]. }
  destruct (Config.dual_pixel_task cfg).
  - (* the dual-pixel branch *)
    apply bind_ok_inv in H as (sum & E_sum & H).
    apply bind_ok_inv in E_sum as (skip & E_skip & E_sum).
    apply lift_ok_inv in E_sum. cbn [add shape_torch] in E_sum.
    apply bind_ok_inv in E24 as (sc & E_sc & E24). injection E24 as <-.
    cbn [Transformer.call_skip_conv Transformer.skip_conv] in E_skip.
    apply Conv2d_forward_rank in E_skip as [_ Rskip].
    apply spatial_ends_with. apply (conv_out_layer _ _ H).
    + eapply broadcast_ends_with_not_one;
        [exact E_sum | apply spatial_ends_with; exact S11
         | discriminate | discriminate | lia].
    + apply broadcast_rank_ge in E_sum. rewrite (spatial_rank S11) in E_sum. lia.
  - (* the residual branch *)
    apply bind_ok_inv in H as (o & E_o & H).
    apply lift_ok_inv in H. cbn [add shape_torch] in H.
    assert (spatial 224 224 o) as S12.
    { apply (conv_out_layer _ _ E_o);
        [apply spatial_ends_with; exact S11 | rewrite (spatial_rank S11); discriminate]. }
    unfold OverlapPatchEmbed.forward in E_pe.
    apply Conv2d_forward_rank in E_pe as [Rimg _].
    eapply broadcast_ends_with_not_one;
      [exact H | apply spatial_ends_with; exact S12 | discriminate | discriminate | lia].
Qed.

(** A tensor the forward pass returns has the spatial size of the image
    only if the image is 224 x 224. *)
Lemma Transformer_forward_same_size_only_at_224 (cfg : Config.t) (m : Transformer.t Shape)
  (inp_img : Shape) (prior : option Shape) (B C H W : N) :
  Transformer.init cfg = Ok m ->
  Transformer.forward m inp_img prior = Ok [B; C; H; W] ->
  H = 224 /\ W = 224.
Proof.
  intros Hinit Hf.
  destruct (Transformer_forward_ends_with_224 _ _ _ Hinit Hf) as (pre & E).
  apply (f_equal (@rev N)) in E. rewrite rev_app_distr in E. simpl in E.
  injection E as -> ->. split; reflexivity.
Qed.

End WithMAE.
End OnlyAt224.

(** ** Conditions the shapes cannot do without *)

Section Necessary.
Local Arguments N.mul : simpl never.
Local Arguments N.div : simpl never.
Local Arguments N.modulo : simpl never.
Local Arguments N.eqb : simpl never.

Lemma Conv2d_init_inv cin cout k p g bias (m : Conv2d.t Shape) :
  Conv2d.init cin cout k p g bias = Ok m ->
  m = {| Conv2d.weight := [cout; cin / g; k; k];
         Conv2d.bias := if bias then Some [cout] else None;
         Conv2d.padding := p; Conv2d.groups := g |}.
Proof.
  unfold Conv2d.init. intros H.
  destruct (g =? 0); [discriminate |].
  destruct (negb (cin mod g =? 0)); [discriminate |].
  destruct (negb (cout mod g =? 0)); [discriminate |].
  injection H as <-. reflexivity.
Qed.

Lemma Linear_forward_3d_inv i o bias b n c y :
  Linear.forward (Linear.init (T:=Shape) i o bias) [b; n; c] = Ok y ->
  c = i /\ y = [b; n; o].
Proof.
  unfold Linear.forward, Linear.init. intros H. apply lift_ok_inv in H.
  cbn [Linear.weight Linear.bias linear shape_torch empty] in H.
  unfold shape_linear in H. simpl in H.
  destruct (N.eqb_spec c i) as [-> |]; [| discriminate].
  simpl in H. destruct (bias_fits _ _); [| discriminate].
  injection H as <-. auto.
Qed.

Lemma PriorDown_forward_inv n_in n_out embed_dim b n c y :
  PriorDown.forward (PriorDown.init (T:=Shape) n_in n_out embed_dim) (Some [b; n; c]) = Ok y ->
  n = n_in /\ c = embed_dim * 4.
Proof.
  unfold PriorDown.forward, PriorDown.init. simpl. intros H.
  apply bind_ok_inv in H as (y1 & E1 & H).
  apply Linear_forward_3d_inv in E1 as [-> ->]. simpl in H.
  apply Linear_forward_3d_inv in H as [-> _]. auto.
Qed.

Section WithMAE.
Context {MAE : MaskedAutoencoderViT Shape}.

(** The prior must have exactly [group * group] tokens of width
    [embed_dim * 4]. *)
Lemma Transformer_forward_prior_tokens (cfg : Config.t) (m : Transformer.t Shape)
  (inp_img : Shape) (b n c : N) (y : Shape) :
  Transformer.init cfg = Ok m ->
  Transformer.forward m inp_img (Some [b; n; c]) = Ok y ->
  n = Config.group cfg * Config.group cfg /\ c = Config.embed_dim cfg * 4.
Proof.
  intros Hinit H.
  assert (Transformer.down_1 m
          = PriorDown.init (Config.group cfg * Config.group cfg)
              (Config.group cfg * Config.group cfg / 4) (Config.embed_dim cfg)) as Hd.
  { unfold Transformer.init in Hinit. cbv zeta in Hinit.
    repeat (let x := fresh "x" in
            let E := fresh "E" in
            apply bind_ok_inv in Hinit as (x & E & Hinit)).
    injection Hinit as <-. reflexivity. }
  unfold Transformer.forward in H.
  apply bind_ok_inv in H as (p2 & E & _). rewrite Hd in E.
  eapply PriorDown_forward_inv. exact E.
Qed.

End WithMAE.

(** [Downsample] returns the doubled channel count and the halved size only
    on even sizes. *)
Lemma Downsample_forward_needs_even (B C H W : N) (d : Downsample.t Shape) :
  Downsample.init C = Ok d ->
  Downsample.forward d [B; C; H; W] = Ok [B; 2 * C; H / 2; W / 2] ->
  C mod 2 = 0 /\ H mod 2 = 0 /\ W mod 2 = 0.
Proof.
  unfold Downsample.init. intros Hinit Hf.
  apply bind_ok_inv in Hinit as (c & Hc & Hinit). injection Hinit as <-.
  unfold Downsample.forward in Hf. cbn [Downsample.body_conv] in Hf.
  apply bind_ok_inv in Hf as (z & Ez & Hf). apply lift_ok_inv in Hf.
  assert (spatial H W z) as Hz.
  { eapply Conv2d_forward_spatial;
      [exact Hc | right; split; reflexivity | exact Ez
       | exists [B; C]; reflexivity | discriminate]. }
  assert (z = [B; C / 2; H; W]) as ->.
  { apply Conv2d_init_inv in Hc. subst c.
    unfold Conv2d.forward in Ez. apply lift_ok_inv in Ez.
    cbn [Conv2d.weight Conv2d.bias Conv2d.padding Conv2d.groups conv2d shape_torch empty] in Ez.
    unfold shape_conv2d in Ez.
    match type of Ez with (if ?c then _ else _) = _ => destruct c end; [| discriminate].
    destruct Hz as (b' & c' & ->). injection Ez as <- <-. reflexivity. }
  cbn [pixel_unshuffle shape_torch] in Hf. unfold shape_pixel_unshuffle in Hf.
  simpl in Hf.
  destruct (N.eqb_spec (H mod 2) 0) as [EH |]; [| discriminate].
  destruct (N.eqb_spec (W mod 2) 0) as [EW |]; [| discriminate].
  simpl in Hf. injection Hf as HC. change (2 * 2) with 4 in HC.
  repeat split; try assumption.
  pose proof (N.Div0.div_mod C 2) as Hdm.
  assert (C mod 2 < 2) as Hub by (apply N.mod_upper_bound; discriminate). lia.
Qed.

End Necessary.

(** ** The network on 224 x 224 images *)

(** [C1] For every configuration the forward pass is written for
    ([runs_on_224]), every batch size [B >= 1] and a prior of shape
    (B, group * group, embed_dim * 4): if the encoder turns the reduced
    (B, 3, 224, 224) image into 50 tokens of width 64, the forward pass
    on a (B, 3, 224, 224) image returns a tensor of shape
    (B, out_channels, 224, 224), the spatial size of the input. *)
Theorem forward_shape_on_224_images {MAE : MaskedAutoencoderViT Shape}
  (cfg : Config.t) (m : Transformer.t Shape) (B : N) :
  runs_on_224 cfg = true ->
  Transformer.init cfg = Ok m ->
  0 < B ->
  mae_forward (Transformer.mae_encoder m) [B; 3; 224; 224] = Ok [B; 50; 64] ->
  Transformer.forward m [B; 3; 224; 224]
    (Some [B; Config.group cfg * Config.group cfg; Config.embed_dim cfg * 4])
  = Ok [B; Config.out_channels cfg; 224; 224].
Proof. apply Transformer_forward_shape_224. Qed.

Lemma forward_shape_on_224_images_witness :
  runs_on_224 default_config = true
  /\ Transformer.init default_config = Ok default_net
  /\ 0 < 2
  /\ mae_forward (Transformer.mae_encoder default_net) [2; 3; 224; 224] = Ok [2; 50; 64]
  /\ Transformer.forward default_net [2; 3; 224; 224] (Some [2; 4 * 4; 48 * 4])
     = Ok [2; 3; 224; 224].
Proof.
  split; [reflexivity |]. split; [reflexivity |]. split; [reflexivity |].
  split; [reflexivity |].
  apply (@forward_shape_on_224_images mae_shape default_config default_net 2);
    reflexivity.
Defined.

(** The decoder starts from a 28 x 28 latent whatever the image size: on an
    8 x 8 image (8 is a multiple of 8) the 224 x 224 output cannot be added
    to the image, even with an encoder that accepts every size. *)
Lemma forward_on_8x8_image_raises :
  8 mod 8 = 0
  /\ Transformer.forward default_net [1; 3; 8; 8] (Some [1; 16; 192])
     = Raise RuntimeError
  /\ Transformer.forward default_net [1; 3; 8; 8] (Some [1; 16; 192])
     <> Ok [1; 3; 8; 8].
Proof.
  split; [reflexivity |]. split; [vm_compute; reflexivity |].
  vm_compute. discriminate.
Qed.

(** [C3] With the default arguments, a (1, 3, 224, 224) image and a prior
    of 16 tokens, shape (1, 16, 192): if the encoder returns shape
    (1, 50, 64), the forward pass raises nothing and returns shape
    (1, 3, 224, 224). *)
Theorem default_forward_with_16_tokens {MAE : MaskedAutoencoderViT Shape}
  (m : Transformer.t Shape) :
  Transformer.init default_config = Ok m ->
  mae_forward (Transformer.mae_encoder m) [1; 3; 224; 224] = Ok [1; 50; 64] ->
  Transformer.forward m [1; 3; 224; 224] (Some [1; 16; 192]) = Ok [1; 3; 224; 224].
Proof.
  intros Hinit Hmae.
  apply (@Transformer_forward_shape_224 MAE default_config m 1);
    [reflexivity | assumption | reflexivity | assumption].
Qed.

Lemma default_forward_with_16_tokens_witness :
  Transformer.init default_config = Ok default_net
  /\ mae_forward (Transformer.mae_encoder default_net) [1; 3; 224; 224] = Ok [1; 50; 64]
  /\ Transformer.forward default_net [1; 3; 224; 224] (Some [1; 16; 192])
     = Ok [1; 3; 224; 224].
Proof.
  split; [reflexivity |]. split; [reflexivity |].
  apply (@default_forward_with_16_tokens mae_shape default_net); reflexivity.
Defined.

(** A prior of 32 tokens (32 is divisible by 16) does not fit
    [nn.Linear(16, 4)], the first layer with weights of [down_1]. *)
Lemma default_forward_with_32_tokens_raises :
  32 mod 16 = 0
  /\ Transformer.forward default_net [1; 3; 224; 224] (Some [1; 32; 192])
     = Raise RuntimeError.
Proof. split; [reflexivity | vm_compute; reflexivity]. Qed.

(** ** Down-sampling followed by up-sampling *)

(** [C8] For a non-empty tensor of shape (B, C, H, W) with [C], [H] and [W]
    even, [Downsample(C)] returns shape (B, 2C, H/2, W/2) and
    [Upsample(2C)] applied to it returns shape (B, C, H, W). *)
Theorem Downsample_then_Upsample_restores_shape
  (B C H W : N) (d : Downsample.t Shape) (u : Upsample.t Shape) :
  Downsample.init C = Ok d ->
  Upsample.init (2 * C) = Ok u ->
  0 < B -> 0 < C -> 0 < H -> 0 < W ->
  C mod 2 = 0 -> H mod 2 = 0 -> W mod 2 = 0 ->
  Downsample.forward d [B; C; H; W] = Ok [B; 2 * C; H / 2; W / 2]
  /\ (y <- Downsample.forward d [B; C; H; W] ;; Upsample.forward u y)
     = Ok [B; C; H; W].
Proof.
  intros Hd Hu HB HC HH HW HC2 HH2 HW2.
  assert (C / 2 * 4 = 2 * C) as EC.
  { apply N.Div0.div_exact in HC2. lia. }
  assert (2 * (H / 2) = H) as EH by (symmetry; apply N.Div0.div_exact; assumption).
  assert (2 * (W / 2) = W) as EW by (symmetry; apply N.Div0.div_exact; assumption).
  assert (Downsample.forward d [B; C; H; W] = Ok [B; 2 * C; H / 2; W / 2]) as Hdown.
  { erewrite Downsample_forward_shape; try eassumption.
    - rewrite EC. reflexivity.
    - apply N.Div0.div_exact in HC2. lia. }
  split; [exact Hdown |].
  rewrite Hdown. cbn [bind].
  erewrite Upsample_forward_shape; [ | eassumption | | lia | lia | lia ].
  - assert (2 * C * 2 / 4 = C) as -> by (symmetry; apply N.div_unique_exact; lia).
    replace (H / 2 * 2) with H by lia. replace (W / 2 * 2) with W by lia.
    reflexivity.
  - replace (2 * C * 2) with (C * 4) by lia. apply N.Div0.mod_mul.
Qed.

Lemma Downsample_then_Upsample_restores_shape_witness :
  Downsample.init 48 = Ok (get_ok (Downsample.init (T := Shape) 48) eq_refl)
  /\ Upsample.init (2 * 48) = Ok (get_ok (Upsample.init (T := Shape) (2 * 48)) eq_refl)
  /\ 0 < 1 /\ 0 < 48 /\ 0 < 224 /\ 0 < 224
  /\ 48 mod 2 = 0 /\ 224 mod 2 = 0 /\ 224 mod 2 = 0
  /\ Downsample.forward (get_ok (Downsample.init (T := Shape) 48) eq_refl) [1; 48; 224; 224]
     = Ok [1; 2 * 48; 224 / 2; 224 / 2]
  /\ (y <- Downsample.forward (get_ok (Downsample.init (T := Shape) 48) eq_refl)
            [1; 48; 224; 224] ;;
      Upsample.forward (get_ok (Upsample.init (T := Shape) (2 * 48)) eq_refl) y)
     = Ok [1; 48; 224; 224].
Proof.
  repeat (split; [reflexivity |]).
  apply (@Downsample_then_Upsample_restores_shape 1 48 224 224); reflexivity.
Defined.

(** An odd height cannot be unshuffled, and an odd channel count is not
    doubled: [Downsample(3)] returns 4 channels, which [Upsample(6)] rejects. *)
Lemma Downsample_then_Upsample_odd_sizes_raise :
  (d <- Downsample.init 2 ;; u <- Upsample.init 4 ;;
   y <- Downsample.forward d [1; 2; 3; 3] ;; Upsample.forward u y)
  = Raise RuntimeError
  /\ (d <- Downsample.init 3 ;; Downsample.forward d [1; 3; 2; 2]) = Ok [1; 4; 1; 1]
  /\ (d <- Downsample.init 3 ;; u <- Upsample.init 6 ;;
      y <- Downsample.forward d [1; 3; 2; 2] ;; Upsample.forward u y)
     = Raise RuntimeError.
Proof. repeat split; vm_compute; reflexivity. Qed.

(** ** Examples for the control-flow theorems *)

Lemma forward_ignores_encoder_branch_witness :
  same_outside_encoder default_net
    (replace_encoder default_net empty_stage empty_down empty_stage empty_down
       empty_stage empty_down)
  /\ Transformer.encoder_level1 default_net <> empty_stage
  /\ Transformer.forward default_net [1; 3; 224; 224] (Some [1; 16; 192])
     = Transformer.forward
         (replace_encoder default_net empty_stage empty_down empty_stage empty_down
            empty_stage empty_down)
         [1; 3; 224; 224] (Some [1; 16; 192]).
Proof.
  split; [repeat split |]. split.
  - intros H. apply (f_equal (@BasicLayer.group Shape)) in H. discriminate H.
  - apply (@forward_ignores_encoder_branch Shape shape_torch mae_shape).
    repeat split.
Defined.

Lemma BasicLayer_fuses_once_then_drops_prior_witness :
  BasicLayer.init 96 1 2.66 false "WithBias" 48 4 4 = Ok stage_group4
  /\ 1 < 4
  /\ (exists h, BasicLayer.him stage_group4 = Some h
        /\ forall x p,
             BasicLayer.forward stage_group4 x (Some p)
             = (x' <- HIM.forward h x p ;;
                for_each (fun blk x => TransformerBlock.forward blk x None)
                  (BasicLayer.blocks stage_group4) x'))
  /\ BasicLayer.init 384 8 2.66 false "WithBias" 48 8 1 = Ok stage_group1
  /\ (BasicLayer.him stage_group1 = None
      /\ forall x prior,
           BasicLayer.forward stage_group1 x prior
           = for_each (fun blk x => TransformerBlock.forward blk x prior)
               (BasicLayer.blocks stage_group1) x).
Proof.
  split; [reflexivity |]. split; [reflexivity |]. split.
  - apply (proj1 (@BasicLayer_fuses_once_then_drops_prior Shape shape_torch
                    96 1 2.66 false "WithBias" 48 4%nat 4 stage_group4 eq_refl)).
    reflexivity.
  - split; [reflexivity |].
    apply (proj2 (@BasicLayer_fuses_once_then_drops_prior Shape shape_torch
                    384 8 2.66 false "WithBias" 48 8%nat 1 stage_group1 eq_refl)).
    reflexivity.
Defined.

Lemma film_attribute_error_unreachable_in_stage_witness :
  Attention.init 96 1 false 48 4 = Ok attention_group4
  /\ FeedForward.init 96 2.66 false 48 4 = Ok feed_forward_group4
  /\ BasicLayer.init 96 1 2.66 false "WithBias" 48 4 4 = Ok stage_group4
  /\ 4 <> 1 /\ 1 <= 4
  /\ FeedForward.forward feed_forward_group4 [1; 96; 224; 224] (Some [1; 16; 192])
     = Raise (AttributeError "ln1")
  /\ no_attribute_error
       (BasicLayer.forward stage_group4 [1; 96; 224; 224] (Some [1; 16; 192])).
Proof.
  pose proof (@film_attribute_error_unreachable_in_stage Shape shape_torch
                96 1 2.66 false "WithBias" 48 4%nat 4
                attention_group4 feed_forward_group4 stage_group4
                eq_refl eq_refl eq_refl) as [Hfail Hsafe].
  assert (4 <> 1) as Hne by discriminate.
  assert (1 <= 4) as Hle by (intros H; discriminate H).
  split; [reflexivity |]. split; [reflexivity |]. split; [reflexivity |].
  split; [exact Hne |]. split; [exact Hle |]. split.
  - apply (Hfail Hne).
  - apply (Hsafe Hle).
Defined.

(** A stage built with [group = 0] has blocks without [ln1] and hands them
    the prior.  [Transformer(group=1)] builds such stages: its
    [decoder_level3] gets [group // 2 = 0]. *)
Lemma stage_with_group_0_raises_attribute_error :
  (l <- BasicLayer.init 192 4 2.66 false "WithBias" 48 6 0 ;;
   BasicLayer.forward l [1; 192; 56; 56] (Some [1; 0; 192]))
  = Raise (AttributeError "ln1")
  /\ (m <- Transformer.init (config_with_group 1) ;;
      Transformer.forward m [1; 3; 224; 224] (Some [1; 1; 192]))
     = Raise (AttributeError "ln1").
Proof. split; vm_compute; reflexivity. Qed.

(** ** More on control flow, for every reading of the tensor operations *)

Section AnyTensorMore.
Context {T : Type} {TT : Torch T}.

Lemma for_each_app {A X} (f : A -> X -> result X) (l1 l2 : list A) (x : X) :
  for_each f (l1 ++ l2) x = (y <- for_each f l1 x ;; for_each f l2 y).
Proof.
  revert x; induction l1 as [| a l1 IH]; intros x; simpl; [reflexivity |].
  destruct (f a x) as [x' | e]; simpl; [apply IH | reflexivity].
Qed.

(** [X9] A stage with the blocks [bs1 ++ bs2] is the stage with [bs1]
    followed by the stage with [bs2]; the second one sees the prior only if
    [group <= 1], since with [group > 1] the first one has consumed it in
    the fusion module.  For every reading of the tensor operations. *)
Theorem BasicLayer_forward_splits (g : N) (hm : option (HIM.t T))
  (bs1 bs2 : list (TransformerBlock.t T)) (x : T) (prior : option T) :
  BasicLayer.forward
    {| BasicLayer.group := g; BasicLayer.blocks := bs1 ++ bs2; BasicLayer.him := hm |}
    x prior
  = (y <- BasicLayer.forward
            {| BasicLayer.group := g; BasicLayer.blocks := bs1; BasicLayer.him := hm |}
            x prior ;;
     BasicLayer.forward
       {| BasicLayer.group := g; BasicLayer.blocks := bs2; BasicLayer.him := hm |}
       y (if 1 <? g then None else prior)).
Proof.
  unfold BasicLayer.forward, BasicLayer.call_him, BasicLayer.run_blocks.
  cbn [BasicLayer.group BasicLayer.blocks BasicLayer.him].
  destruct prior as [p |]; [destruct (1 <? g) eqn:Hg |].
  - destruct hm as [h |]; [| reflexivity].
    destruct (HIM.forward h x p) as [x' | e]; [| reflexivity].
    cbn [bind]. rewrite for_each_app.
    destruct (for_each _ bs1 x') as [y | e]; reflexivity.
  - cbn [bind]. rewrite for_each_app.
    destruct (for_each _ bs1 x) as [y | e]; [| reflexivity].
    reflexivity.
  - cbn [bind]. rewrite for_each_app.
    destruct (for_each _ bs1 x) as [y | e]; [| reflexivity].
    cbn [bind]. destruct (1 <? g); reflexivity.
Qed.

Lemma getitem_ok_length {A} (l : list A) (i : nat) (a : A) :
  getitem l i = Ok a -> (i < List.length l)%nat.
Proof.
  unfold getitem. destruct (nth_error l i) eqn:E; [| discriminate].
  intros _. apply nth_error_Some. congruence.
Qed.

(** [X6] [Transformer.__init__] returns only if [heads] and [num_blocks]
    have at least four entries each: it reads [heads[3]] and
    [num_blocks[3]].  For every reading of the tensor operations. *)
Theorem Transformer_init_needs_four_levels {MAE : MaskedAutoencoderViT T}
  (cfg : Config.t) (m : Transformer.t T) :
  Transformer.init cfg = Ok m ->
  (4 <= List.length (Config.heads cfg))%nat
  /\ (4 <= List.length (Config.num_blocks cfg))%nat.
Proof.
  intros Hinit.
  unfold Transformer.init in Hinit. cbv zeta in Hinit.
  repeat (let x := fresh "x" in
          let E := fresh "E" in
          apply bind_ok_inv in Hinit as (x & E & Hinit)).
  repeat match goal with
         | H : bind (getitem _ _) _ = Ok _ |- _ =>
             let n := fresh "n" in
             let E := fresh "En" in
             apply bind_ok_inv in H as (n & E & H)
         end.
  split.
  - match goal with
    | H : getitem (Config.heads cfg) 3 = Ok _ |- _ => apply getitem_ok_length in H; exact H
    end.
  - match goal with
    | H : getitem (Config.num_blocks cfg) 3 = Ok _ |- _ => apply getitem_ok_length in H; exact H
    end.
Qed.

(** The product [dim * ffn_expansion_factor] is the rounded one: 3 times
    the float 0.3333333333333333 is 1.0, and 100 times the float 0.57 is
    below 57. *)
Lemma hidden_features_of_rounds :
  hidden_features_of 48 2.66 = Ok 127%Z
  /\ hidden_features_of 3 0.3333333333333333 = Ok 1%Z
  /\ hidden_features_of 100 0.57 = Ok 56%Z.
Proof. repeat split; vm_compute; reflexivity. Qed.


End AnyTensorMore.

(** ** More on shapes *)

Section MoreShapes.
Local Arguments N.mul : simpl never.
Local Arguments N.add : simpl never.
Local Arguments N.sub : simpl never.
Local Arguments N.div : simpl never.
Local Arguments N.modulo : simpl never.
Local Arguments N.eqb : simpl never.
Local Arguments N.leb : simpl never.
Local Arguments N.ltb : simpl never.

(** *** Channels of the image *)

Lemma has_channels_inj c c' s : has_channels c s -> has_channels c' s -> c = c'.
Proof.
  intros (pre & h & w & ->) (pre' & h' & w' & E).
  apply (f_equal (@rev N)) in E. rewrite !rev_app_distr in E. simpl in E.
  injection E as _ _ E _. exact E.
Qed.

(** A convolution built for [cin] input channels takes only such inputs and
    returns [cout] channels. *)
Lemma Conv2d_forward_channels cin cout k p g bias (m : Conv2d.t Shape) x y :
  Conv2d.init cin cout k p g bias = Ok m ->
  Conv2d.forward m x = Ok y ->
  has_channels cin x /\ has_channels cout y.
Proof.
  intros Hinit Hf.
  assert (cin / g * g = cin) as Hc.
  { unfold Conv2d.init in Hinit.
    destruct (N.eqb_spec g 0); [discriminate |].
    destruct (N.eqb_spec (cin mod g) 0) as [E |]; [| discriminate].
    apply N.Div0.div_exact in E. lia. }
  apply Conv2d_init_inv in Hinit. subst m.
  unfold Conv2d.forward in Hf. apply lift_ok_inv in Hf.
  cbn [Conv2d.weight Conv2d.bias Conv2d.padding Conv2d.groups conv2d shape_torch empty] in Hf.
  unfold shape_conv2d in Hf.
  destruct x as [| x0 [| x1 [| x2 [| x3 [| x4 x]]]]]; try discriminate;
    match type of Hf with (if ?c then _ else _) = _ => destruct c eqn:Ec end;
    try discriminate; injection Hf as <-;
    repeat (apply andb_prop in Ec as [Ec ?]);
    match goal with
    | H : (_ =? cin / g * g) = true |- _ => apply N.eqb_eq in H; rewrite Hc in H; subst
    end.
  - split; [exists [], x1, x2 | eexists [], _, _]; reflexivity.
  - split; [exists [x0], x2, x3 | eexists [x0], _, _]; reflexivity.
Qed.

Section WithMAE.
Context {MAE : MaskedAutoencoderViT Shape}.

(** The layers of [__init__] that see the image. *)
Lemma Transformer_init_image_layers (cfg : Config.t) (m : Transformer.t Shape) :
  Transformer.init cfg = Ok m ->
  Conv2d.init (Config.inp_channels cfg) (Config.dim cfg) 3 1 1 false
  = Ok (OverlapPatchEmbed.proj (Transformer.patch_embed m))
  /\ Conv2d.init 48 3 1 0 1 false = Ok (Transformer.channel_reducer m)
  /\ Transformer.dual_pixel_task m = Config.dual_pixel_task cfg
  /\ (Config.dual_pixel_task cfg = true ->
      exists c, Conv2d.init (Config.dim cfg) (Config.dim cfg * 2) 1 0 1 (Config.bias cfg) = Ok c
                /\ Transformer.skip_conv m = Some c)
  /\ Conv2d.init (Config.dim cfg * 2) (Config.out_channels cfg) 3 1 1 (Config.bias cfg)
     = Ok (Transformer.output m).
Proof.
  intros Hinit.
  unfold Transformer.init in Hinit. cbv zeta in Hinit.
  repeat (let x := fresh "x" in
          let E := fresh "E" in
          apply bind_ok_inv in Hinit as (x & E & Hinit)).
  injection Hinit as <-.
  cbn [Transformer.patch_embed Transformer.channel_reducer Transformer.dual_pixel_task
       Transformer.skip_conv Transformer.output].
  repeat match goal with
         | H : OverlapPatchEmbed.init _ _ _ = Ok _ |- _ =>
             unfold OverlapPatchEmbed.init in H;
             apply bind_ok_inv in H as (? & ? & H); injection H as <-
         end.
  cbn [OverlapPatchEmbed.proj].
  repeat split; try assumption.
  intros Hd.
  match goal with
  | H : (if Config.dual_pixel_task cfg then _ else _) = Ok _ |- _ =>
      rewrite Hd in H; apply bind_ok_inv in H as (c & Hc & H); injection H as <-;
      exists c; split; [exact Hc | reflexivity]
  end.
Qed.

(** The image passes [patch_embed] and [channel_reducer] before anything
    else reads it. *)
Lemma Transformer_forward_image_layers (m : Transformer.t Shape) inp_img prior y :
  Transformer.forward m inp_img prior = Ok y ->
  exists pe red,
    Conv2d.forward (OverlapPatchEmbed.proj (Transformer.patch_embed m)) inp_img = Ok pe
    /\ Conv2d.forward (Transformer.channel_reducer m) pe = Ok red
    /\ (Transformer.dual_pixel_task m = true ->
        exists s, Transformer.call_skip_conv m red = Ok s).
Proof.
  unfold Transformer.forward. intros H.
  apply bind_ok_inv in H as (p2 & _ & H).
  apply bind_ok_inv in H as (p3 & _ & H).
  apply bind_ok_inv in H as (pe & E_pe & H).
  apply bind_ok_inv in H as (red & E_red & H).
  exists pe, red. split; [exact E_pe |]. split; [exact E_red |].
  intros Hd.
  repeat (let x := fresh "x" in
          let E := fresh "E" in
          apply bind_ok_inv in H as (x & E & H)).
  rewrite Hd in *.
  repeat match goal with
         | H : bind _ _ = Ok _ |- _ =>
           let x := fresh "x" in
           let E := fresh "E" in
           apply bind_ok_inv in H as (x & E & H)
         end.
  eauto.
Qed.

(** [X3] A forward pass that returns belongs to a network built with
    [dim = 48], and its image has [inp_channels] channels: [patch_embed]
    returns [dim] channels and [channel_reducer] is [nn.Conv2d(48, 3, ...)]
    whatever [dim] is. *)
Theorem forward_needs_dim_48 (cfg : Config.t) (m : Transformer.t Shape)
  (inp_img : Shape) (prior : option Shape) (y : Shape) :
  Transformer.init cfg = Ok m ->
  Transformer.forward m inp_img prior = Ok y ->
  Config.dim cfg = 48 /\ has_channels (Config.inp_channels cfg) inp_img.
Proof.
  intros Hinit Hf.
  apply Transformer_init_image_layers in Hinit as (Hpe & Hred & _).
  apply Transformer_forward_image_layers in Hf as (pe & red & Epe & Ered & _).
  destruct (@Conv2d_forward_channels _ _ _ _ _ _ _ _ _ Hpe Epe) as [Himg Hpe_out].
  destruct (@Conv2d_forward_channels _ _ _ _ _ _ _ _ _ Hred Ered) as [Hpe_in _].
  split; [exact (has_channels_inj Hpe_out Hpe_in) | exact Himg].
Qed.

(** [X4] A network built with [dual_pixel_task = True] never returns from
    [forward]: [skip_conv] is [nn.Conv2d(dim, 2 * dim, ...)] and is applied
    to [inp_enc_level1], which [channel_reducer] has cut down to 3 channels,
    while [channel_reducer] itself needs [dim = 48]. *)
Theorem dual_pixel_branch_never_returns (cfg : Config.t) (m : Transformer.t Shape)
  (inp_img : Shape) (prior : option Shape) :
  Transformer.init cfg = Ok m ->
  Config.dual_pixel_task cfg = true ->
  is_ok (Transformer.forward m inp_img prior) = false.
Proof.
  intros Hinit Hd.
  destruct (Transformer.forward m inp_img prior) as [y |] eqn:Hf; [exfalso | reflexivity].
  apply Transformer_init_image_layers in Hinit as (Hpe & Hred & Hdm & Hskip & _).
  destruct (Hskip Hd) as (c & Hc & Hsc).
  apply Transformer_forward_image_layers in Hf as (pe & red & Epe & Ered & Hs).
  rewrite Hdm in Hs. destruct (Hs Hd) as (s & Es).
  unfold Transformer.call_skip_conv in Es. rewrite Hsc in Es.
  destruct (@Conv2d_forward_channels _ _ _ _ _ _ _ _ _ Hpe Epe) as [_ Hpe_out].
  destruct (@Conv2d_forward_channels _ _ _ _ _ _ _ _ _ Hred Ered) as [Hpe_in Hred_out].
  destruct (@Conv2d_forward_channels _ _ _ _ _ _ _ _ _ Hc Es) as [Hred_in _].
  pose proof (has_channels_inj Hpe_out Hpe_in) as E1.
  pose proof (has_channels_inj Hred_out Hred_in) as E2.
  rewrite E1 in E2. discriminate E2.
Qed.

End WithMAE.

(** *** The layer-norm wrappers do not check the channel count *)

Lemma bdim_idem c dim d : bdim c dim = Some d -> bdim d dim = Some d.
Proof.
  intros H. unfold bdim in H.
  destruct (N.eqb_spec c dim) as [-> |].
  - injection H as <-. apply bdim_refl.
  - destruct (N.eqb_spec c 1) as [-> |].
    + injection H as <-. apply bdim_refl.
    + destruct (N.eqb_spec dim 1) as [-> |]; [| discriminate].
      injection H as <-. apply bdim_1_r.
Qed.

Lemma norm_body_forward_broadcasts dim ty b n c :
  norm_body_forward (norm_body_init (T:=Shape) dim ty) [b; n; c]
  = match bdim c dim with
    | Some d => Ok [b; n; d]
    | None => Raise RuntimeError
    end.
Proof.
  unfold norm_body_init.
  destruct (String.eqb ty "BiasFree"); cbn [norm_body_forward].
  - unfold BiasFree_LayerNorm.forward, BiasFree_LayerNorm.init.
    cbn [BiasFree_LayerNorm.weight var_last add_scalar torch_sqrt div mul ones shape_torch].
    unfold shape_reduce_last, split_last, broadcast. simpl.
    rewrite !bdim_refl, bdim_1_r. simpl.
    destruct (bdim c dim) as [d |]; reflexivity.
  - unfold WithBias_LayerNorm.forward, WithBias_LayerNorm.init.
    cbn [WithBias_LayerNorm.weight WithBias_LayerNorm.bias mean_last var_last add_scalar
         torch_sqrt sub div mul add ones zeros shape_torch].
    unfold shape_reduce_last, split_last, broadcast. simpl.
    rewrite !bdim_refl, bdim_1_r. simpl.
    rewrite !bdim_refl, bdim_1_r. simpl.
    destruct (bdim c dim) as [d |] eqn:E; [| reflexivity]. simpl.
    rewrite (@bdim_idem _ _ _ E). reflexivity.
Qed.

(** [X13] [LayerNorm.forward] never compares the channel count [c] of its
    input with the [dim] it was built for: the product with [weight] (and
    the sum with [bias]) broadcasts.  On (b, c, h, w) it returns
    (b, d, h, w) when [c] and [dim] broadcast to [d] (they agree, or one of
    them is 1), and raises otherwise; a one-channel map comes out with
    [dim] channels. *)
Theorem LayerNorm_broadcasts_channels dim ty b c h w :
  LayerNorm.forward (LayerNorm.init (T:=Shape) dim ty) [b; c; h; w]
  = match bdim c dim with
    | Some d => Ok [b; d; h; w]
    | None => Raise RuntimeError
    end.
Proof.
  unfold LayerNorm.forward, LayerNorm.init, to_3d, to_4d.
  cbn [LayerNorm.body shape shape_torch last2 List.length Nat.sub skipn unpack2 bind
       rearrange shape_rearrange lift].
  rewrite norm_body_forward_broadcasts.
  destruct (bdim c dim) as [d |]; [| reflexivity].
  cbn [bind rearrange shape_rearrange shape_torch]. rewrite N.eqb_refl. reflexivity.
Qed.

(** *** When the attention module returns *)

Lemma Conv2d_forward_inv4 cin cout k p g bias (m : Conv2d.t Shape) b c h w y :
  Conv2d.init cin cout k p g bias = Ok m -> same_size k p ->
  Conv2d.forward m [b; c; h; w] = Ok y ->
  c = cin /\ 0 < h /\ 0 < w /\ y = [b; cout; h; w].
Proof.
  intros Hinit Hk Hf.
  assert (cin / g * g = cin) as Hc.
  { unfold Conv2d.init in Hinit.
    destruct (N.eqb_spec g 0); [discriminate |].
    destruct (N.eqb_spec (cin mod g) 0) as [E |]; [| discriminate].
    apply N.Div0.div_exact in E. lia. }
  apply Conv2d_init_inv in Hinit. subst m.
  unfold Conv2d.forward in Hf. apply lift_ok_inv in Hf.
  cbn [Conv2d.weight Conv2d.bias Conv2d.padding Conv2d.groups conv2d shape_torch empty] in Hf.
  unfold shape_conv2d in Hf.
  match type of Hf with (if ?c then _ else _) = _ => destruct c eqn:Ec end;
    [| discriminate].
  injection Hf as <-.
  repeat (apply andb_prop in Ec as [Ec ?]).
  repeat match goal with
         | H : (_ <=? _) = true |- _ => apply N.leb_le in H
         | H : (_ =? _) = true |- _ => apply N.eqb_eq in H
         end.
  unfold conv_out.
  destruct Hk as [[-> ->] | [-> ->]];
    (split; [lia |]); (split; [lia |]); (split; [lia |]);
    repeat f_equal; lia.
Qed.

Lemma Attention_init_convs dim num_heads bias embed_dim g (m : Attention.t Shape) :
  Attention.init dim num_heads bias embed_dim g = Ok m ->
  Conv2d.init dim (dim * 3) 1 0 1 bias = Ok (Attention.qkv m)
  /\ Conv2d.init (dim * 3) (dim * 3) 3 1 (dim * 3) bias = Ok (Attention.qkv_dwconv m)
  /\ Attention.num_heads m = num_heads.
Proof.
  unfold Attention.init. intros H.
  apply bind_ok_inv in H as (c1 & E1 & H).
  apply bind_ok_inv in H as (c2 & E2 & H).
  apply bind_ok_inv in H as (c3 & E3 & H).
  injection H as <-. auto.
Qed.

(** With a head count that is zero or does not divide the width, the
    rearrangement into heads raises. *)
Lemma Attention_forward_bad_heads dim num_heads bias embed_dim g (m : Attention.t Shape)
  b h w :
  Attention.init dim num_heads bias embed_dim g = Ok m ->
  num_heads = 0 \/ dim mod num_heads <> 0 ->
  0 < h -> 0 < w ->
  Attention.forward m [b; dim; h; w] None = Raise RuntimeError.
Proof.
  intros Hinit Hbad Hh Hw.
  apply Attention_init_convs in Hinit as (Hc1 & Hc2 & Hn).
  assert (0 < dim) as Hdim by (apply Conv2d_init_groups in Hc2; lia).
  unfold Attention.forward. rewrite Hn.
  cbn [shape shape_torch unpack4 bind film].
  erewrite Conv2d_forward_shape;
    [| exact Hc1 | left; split; reflexivity | assumption | assumption | lia].
  cbn [bind].
  erewrite Conv2d_forward_shape;
    [| exact Hc2 | right; split; reflexivity | assumption | assumption | lia].
  cbn [bind chunk shape_torch]. unfold shape_chunk. simpl.
  rewrite (chunk_sizes_3 Hdim). simpl.
  destruct (N.eqb_spec num_heads 0) as [| Hne]; [reflexivity |].
  destruct (N.eqb_spec (dim mod num_heads) 0) as [E |]; [| reflexivity].
  destruct Hbad; contradiction.
Qed.

(** [X10] Without a prior, [Attention.forward] returns exactly on the
    inputs (b, dim, h, w) with [h, w >= 1], provided [num_heads] is not zero
    and divides [dim]; what it returns has the shape of the input.
    [__init__] accepts any [num_heads]: a bad one shows only in [forward]. *)
Theorem Attention_forward_returns_iff dim num_heads bias embed_dim g
  (m : Attention.t Shape) (x y : Shape) :
  Attention.init dim num_heads bias embed_dim g = Ok m ->
  Attention.forward m x None = Ok y
  <-> (exists b h w, x = [b; dim; h; w] /\ 0 < h /\ 0 < w)
      /\ num_heads <> 0 /\ dim mod num_heads = 0 /\ y = x.
Proof.
  intros Hinit. split.
  - intros H.
    assert (exists b h w, x = [b; dim; h; w] /\ 0 < h /\ 0 < w) as (b & h & w & -> & Hh & Hw).
    { pose proof Hinit as Hc1. apply Attention_init_convs in Hc1 as (Hc1 & _ & _).
      unfold Attention.forward in H. cbn [shape shape_torch] in H.
      destruct x as [| b [| c [| h [| w [| ? ?]]]]]; try discriminate H.
      cbn [unpack4 bind film] in H.
      apply bind_ok_inv in H as (qkv & E & _).
      apply bind_ok_inv in E as (y1 & E1 & _).
      destruct (@Conv2d_forward_inv4 _ _ _ _ _ _ _ _ _ _ _ _ Hc1
                  (or_introl (conj eq_refl eq_refl)) E1) as (-> & Hh & Hw & _).
      exists b, h, w. auto. }
    destruct (N.eqb_spec num_heads 0) as [Hz | Hnz].
    { rewrite (@Attention_forward_bad_heads dim num_heads bias embed_dim g m b h w Hinit (or_introl Hz) Hh Hw) in H.
      discriminate H. }
    destruct (N.eqb_spec (dim mod num_heads) 0) as [Hdiv | Hnd].
    2:{ rewrite (@Attention_forward_bad_heads dim num_heads bias embed_dim g m b h w Hinit (or_intror Hnd) Hh Hw) in H.
        discriminate H. }
    erewrite Attention_forward_shape in H; try eassumption; [| left; reflexivity].
    injection H as <-.
    split; [exists b, h, w; auto |]. auto.
  - intros ((b & h & w & -> & Hh & Hw) & Hnz & Hdiv & ->).
    eapply Attention_forward_shape; try eassumption. left; reflexivity.
Qed.

(** *** A stage with FiLM layers takes a flat prior *)

Lemma Linear_forward_inv i o bias (p k : Shape) :
  Linear.forward (Linear.init (T:=Shape) i o bias) p = Ok k ->
  exists pre, p = pre ++ [i] /\ k = pre ++ [o].
Proof.
  unfold Linear.forward, Linear.init. intros H. apply lift_ok_inv in H.
  cbn [Linear.weight Linear.bias linear shape_torch empty] in H.
  unfold shape_linear, split_last in H.
  destruct (rev p) as [| l r] eqn:Er; [discriminate |].
  destruct (N.eqb_spec l i) as [-> |]; [| discriminate].
  cbn [andb] in H. destruct (bias_fits _ _); [| discriminate].
  injection H as <-. exists (rev r). split; [| reflexivity].
  rewrite <- (rev_involutive p), Er. reflexivity.
Qed.

Lemma broadcast_rank_ge_r x y z :
  broadcast x y = Some z -> (List.length y <= List.length z)%nat.
Proof.
  unfold broadcast. intros H.
  destruct (broadcast_rev (rev x) (rev y)) as [r |] eqn:E; [| discriminate].
  injection H as <-. rewrite length_rev, <- (length_rev y).
  revert E. generalize (rev x) (rev y). clear. intros a. revert r.
  induction a as [| a0 a IH]; intros r b E; simpl in E.
  - injection E as <-. lia.
  - destruct b as [| b0 b]; [simpl; lia |].
    destruct (bdim a0 b0); [| discriminate].
    destruct (broadcast_rev a b) as [r' |] eqn:E'; [| discriminate].
    injection E as <-. simpl. specialize (IH _ _ E'). lia.
Qed.

Lemma Conv2d_forward_rank_le (m : Conv2d.t Shape) x y :
  Conv2d.forward m x = Ok y -> (List.length x <= 4)%nat.
Proof.
  unfold Conv2d.forward. intros H. apply lift_ok_inv in H.
  cbn [conv2d shape_torch] in H. unfold shape_conv2d in H.
  destruct (Conv2d.weight m) as [| co [| cig [| kh [| kw [| ? ?]]]]]; try discriminate.
  destruct x as [| x0 [| x1 [| x2 [| x3 [| x4 x]]]]]; try discriminate; simpl; lia.
Qed.

Lemma film_needs_flat_prior dim embed_dim (x p y : Shape) :
  film (film_init dim embed_dim 1) (film_init dim embed_dim 1) x (Some p) = Ok y ->
  exists pre, p = pre ++ [embed_dim * 4] /\ (List.length pre + 3 <= List.length y)%nat.
Proof.
  unfold film, film_init. change (1 =? 1) with true. cbn [film_factor].
  intros H.
  apply bind_ok_inv in H as (k1 & E1 & H).
  apply bind_ok_inv in H as (k2 & E2 & H).
  apply bind_ok_inv in H as (xk & E3 & H).
  apply bind_ok_inv in E1 as (k & Ek & E1). injection E1 as <-.
  apply Linear_forward_inv in Ek as (pre & -> & ->).
  apply lift_ok_inv in E3, H. cbn [mul add shape_torch] in E3, H.
  apply broadcast_rank_ge_r in E3. apply broadcast_rank_ge in H.
  cbn [unsqueeze_last shape_torch] in E3. rewrite !length_app in E3. simpl in E3.
  exists pre. split; [reflexivity | lia].
Qed.

Lemma stage_group_1_flat_prior
  dim num_heads f bias ty embed_dim nb (m : BasicLayer.t Shape) (x p y : Shape) :
  BasicLayer.init dim num_heads f bias ty embed_dim nb 1 = Ok m ->
  (0 < nb)%nat ->
  BasicLayer.forward m x (Some p) = Ok y ->
  exists pre, p = pre ++ [embed_dim * 4] /\ (List.length pre <= 1)%nat.
Proof.
  intros Hinit Hnb H.
  apply BasicLayer_init_inv in Hinit as (Hg & Hlen & Hall & _).
  rewrite BasicLayer_forward_plain in H by (right; rewrite Hg; reflexivity).
  destruct (BasicLayer.blocks m) as [| blk bs]; [simpl in Hlen; lia |].
  inversion Hall as [| ? ? Hblk _]; subst.
  unfold BasicLayer.run_blocks in H. cbn [for_each] in H.
  apply bind_ok_inv in H as (x' & E & _).
  apply TransformerBlock_init_inv in Hblk as (Ha & _ & _ & _).
  pose proof Ha as Hfilm. apply Attention_init_film in Hfilm as [Hl1 Hl2].
  unfold TransformerBlock.forward in E.
  apply bind_ok_inv in E as (x1 & E1 & _).
  apply bind_ok_inv in E1 as (n1 & _ & E1).
  apply bind_ok_inv in E1 as (a1 & Ea & _).
  unfold Attention.forward in Ea. rewrite Hl1, Hl2 in Ea.
  apply bind_ok_inv in Ea as ([[[b c] h] w] & _ & Ea).
  apply bind_ok_inv in Ea as (xf & Efilm & Ea).
  apply bind_ok_inv in Ea as (qkv & Eqkv & _).
  apply bind_ok_inv in Eqkv as (y1 & Ey1 & _).
  apply film_needs_flat_prior in Efilm as (pre & -> & Hrank).
  apply Conv2d_forward_rank_le in Ey1.
  exists pre. split; [reflexivity | lia].
Qed.

(** [X8] A stage built with [group = 1] and at least one block returns on
    a prior only if the prior is (embed_dim * 4,) or (b, embed_dim * 4):
    the FiLM factors get two more axes by [unsqueeze], so a prior with a
    token axis makes the product a tensor of five axes or more, which the
    convolution rejects.  This is why [forward] flattens [prior_3]. *)
Theorem stage_with_group_1_takes_flat_prior
  dim num_heads f bias ty embed_dim nb (m : BasicLayer.t Shape) (x p y : Shape) :
  BasicLayer.init dim num_heads f bias ty embed_dim nb 1 = Ok m ->
  (0 < nb)%nat ->
  BasicLayer.forward m x (Some p) = Ok y ->
  exists pre, p = pre ++ [embed_dim * 4] /\ (List.length pre <= 1)%nat.
Proof. intros Hinit Hnb H. eapply stage_group_1_flat_prior; eassumption. Qed.

(** *** Up-sampling followed by down-sampling *)

(** [X15] For [C] a positive multiple of 4 and positive [H], [W]:
    [Upsample(C)] maps (B, C, H, W) to (B, C/2, 2H, 2W), and
    [Downsample(C/2)] maps that back to (B, C, H, W).  No parity condition
    on [H] and [W] is needed in this order. *)
Theorem Upsample_then_Downsample_restores_shape
  (B C H W : N) (u : Upsample.t Shape) (d : Downsample.t Shape) :
  Upsample.init C = Ok u ->
  Downsample.init (C / 2) = Ok d ->
  0 < C -> C mod 4 = 0 -> 0 < H -> 0 < W ->
  Upsample.forward u [B; C; H; W] = Ok [B; C / 2; H * 2; W * 2]
  /\ (y <- Upsample.forward u [B; C; H; W] ;; Downsample.forward d y) = Ok [B; C; H; W].
Proof.
  intros Hu Hd Hpos HC HH HW.
  apply N.Div0.div_exact in HC.
  assert (C / 2 = 2 * (C / 4)) as E2
    by (symmetry; apply N.div_unique_exact; [discriminate | lia]).
  assert (C * 2 / 4 = C / 2) as E1
    by (rewrite E2; symmetry; apply N.div_unique_exact; [discriminate | lia]).
  assert (C / 2 / 2 = C / 4) as E3
    by (rewrite E2, N.mul_comm; apply N.div_mul; discriminate).
  assert (Upsample.forward u [B; C; H; W] = Ok [B; C / 2; H * 2; W * 2]) as Hup.
  { erewrite Upsample_forward_shape;
      [| eassumption | | assumption | assumption | assumption].
    - rewrite E1. reflexivity.
    - rewrite HC. replace (4 * (C / 4) * 2) with ((2 * (C / 4)) * 4) by lia.
      apply N.Div0.mod_mul. }
  split; [exact Hup |]. rewrite Hup. cbn [bind].
  erewrite Downsample_forward_shape; [| eassumption | | | lia | lia | lia].
  - rewrite E3. replace (C / 4 * 4) with C by lia.
    rewrite !N.div_mul by discriminate. reflexivity.
  - apply N.Div0.mod_mul.
  - apply N.Div0.mod_mul.
Qed.

(** *** When the feed-forward module returns *)

Lemma Conv2d_forward_inv3 cin cout k p g bias (m : Conv2d.t Shape) c h w y :
  Conv2d.init cin cout k p g bias = Ok m -> same_size k p ->
  Conv2d.forward m [c; h; w] = Ok y ->
  y = [cout; h; w].
Proof.
  intros Hinit Hk Hf.
  apply Conv2d_init_inv in Hinit. subst m.
  unfold Conv2d.forward in Hf. apply lift_ok_inv in Hf.
  cbn [Conv2d.weight Conv2d.bias Conv2d.padding Conv2d.groups conv2d shape_torch empty] in Hf.
  unfold shape_conv2d in Hf.
  match type of Hf with (if ?c then _ else _) = _ => destruct c eqn:Ec end;
    [| discriminate].
  injection Hf as <-.
  repeat (apply andb_prop in Ec as [Ec ?]).
  repeat match goal with
         | H : (_ <=? _) = true |- _ => apply N.leb_le in H
         end.
  unfold conv_out.
  destruct Hk as [[-> ->] | [-> ->]]; repeat f_equal; lia.
Qed.

(** On an unbatched (c, h, w) input, [chunk(2, dim=1)] cuts the height, and
    the product keeps all [2 * hidden_features] channels, which
    [project_out] does not take. *)
Lemma FeedForward_forward_rejects_3d dim f bias embed_dim g (m : FeedForward.t Shape)
  c h w y :
  FeedForward.init dim f bias embed_dim g = Ok m ->
  FeedForward.forward m [c; h; w] None = Ok y -> False.
Proof.
  intros Hinit H.
  apply FeedForward_init_convs in Hinit as (hf & Hin & Hdw & Hout).
  assert (0 < hf) as Hhf by (apply Conv2d_init_groups in Hdw; lia).
  unfold FeedForward.forward in H. cbn [film bind] in H.
  apply bind_ok_inv in H as (x2 & Ein & H).
  apply bind_ok_inv in H as (d & Edw & H).
  apply bind_ok_inv in H as ([c1 c2] & Echunk & H).
  apply bind_ok_inv in H as (x3 & Emul & H).
  apply bind_ok_inv in Echunk as (cs & Ecs & Eun).
  apply lift_ok_inv in Ecs, Emul.
  eapply Conv2d_forward_inv3 in Ein; [| exact Hin | left; split; reflexivity]. subst x2.
  eapply Conv2d_forward_inv3 in Edw; [| exact Hdw | right; split; reflexivity]. subst d.
  cbn [chunk shape_torch] in Ecs. unfold shape_chunk in Ecs. simpl in Ecs.
  injection Ecs as <-.
  destruct (chunk_sizes h 2) as [| s1 [| s2 [| s3 ss]]]; try discriminate Eun.
  cbn [map set_nth unpack2] in Eun. injection Eun as <- <-.
  cbn [mul gelu shape_torch] in Emul. unfold broadcast in Emul. simpl in Emul.
  destruct (bdim w w); [| discriminate].
  destruct (bdim s1 s2); [| discriminate].
  rewrite bdim_refl in Emul. simpl in Emul. injection Emul as <-.
  destruct (@Conv2d_forward_channels _ _ _ _ _ _ _ _ _ Hout H) as [Hc _].
  assert (has_channels (hf * 2) [hf * 2; n0; n]) as Hc' by (exists [], n0, n; reflexivity).
  pose proof (has_channels_inj Hc Hc'). lia.
Qed.

(** [X11] Without a prior, [FeedForward.forward] returns exactly on the
    batched inputs (b, dim, h, w) with [h, w >= 1], and what it returns has
    the shape of the input.  An unbatched (dim, h, w) input passes the
    first two convolutions, but [chunk(2, dim=1)] then cuts the height
    instead of the channels and [project_out] rejects the result. *)
Theorem FeedForward_forward_returns_iff dim f bias embed_dim g
  (m : FeedForward.t Shape) (x y : Shape) :
  FeedForward.init dim f bias embed_dim g = Ok m ->
  FeedForward.forward m x None = Ok y
  <-> (exists b h w, x = [b; dim; h; w] /\ 0 < h /\ 0 < w) /\ y = x.
Proof.
  intros Hinit. split.
  - intros H.
    assert (exists b h w, x = [b; dim; h; w] /\ 0 < h /\ 0 < w) as (b & h & w & -> & Hh & Hw).
    { pose proof Hinit as Hc. apply FeedForward_init_convs in Hc as (hf & Hin & _ & _).
      pose proof H as H0.
      unfold FeedForward.forward in H0. cbn [film bind] in H0.
      apply bind_ok_inv in H0 as (x2 & Ein & _).
      pose proof Ein as Hge. apply Conv2d_forward_rank in Hge as [Hge _].
      pose proof Ein as Hle. apply Conv2d_forward_rank_le in Hle.
      destruct x as [| b [| c [| h [| w [| ? ?]]]]]; simpl in Hge, Hle; try lia.
      - exfalso. eapply FeedForward_forward_rejects_3d; eassumption.
      - destruct (@Conv2d_forward_inv4 _ _ _ _ _ _ _ _ _ _ _ _ Hin
                    (or_introl (conj eq_refl eq_refl)) Ein) as (-> & Hh & Hw & _).
        exists b, h, w. auto. }
    erewrite FeedForward_forward_shape in H; try eassumption; [| left; reflexivity].
    injection H as <-.
    split; [exists b, h, w; auto | reflexivity].
  - intros ((b & h & w & -> & Hh & Hw) & ->).
    eapply FeedForward_forward_shape; try eassumption. left; reflexivity.
Qed.

(** *** The fusion module *)

(** [X14] [HIM.__init__] raises [ZeroDivisionError] exactly when
    [num_heads = 0] ([dim // 0]) or [dim < num_heads] ([head_dim = 0] and
    [0 ** -0.5]).  A module it returns maps a (b, dim, h, w) feature map and
    a (b, n, embed_dim * 4) prior, for any token count [n], to a
    (b, dim, h, w) tensor when [num_heads] divides [dim]. *)
Theorem HIM_init_and_forward dim num_heads bias embed_dim ty :
  (HIM.init (T:=Shape) dim num_heads bias embed_dim ty = Raise ZeroDivisionError
   <-> num_heads = 0 \/ dim < num_heads)
  /\ (forall (m : HIM.t Shape) b h w n,
        HIM.init dim num_heads bias embed_dim ty = Ok m ->
        dim mod num_heads = 0 ->
        HIM.forward m [b; dim; h; w] [b; n; embed_dim * 4] = Ok [b; dim; h; w]).
Proof.
  split.
  - unfold HIM.init.
    destruct (N.eqb_spec num_heads 0) as [-> | Hn].
    + split; [intros _; left; reflexivity | reflexivity].
    + destruct (N.eqb_spec (dim / num_heads) 0) as [E | E].
      * split; [intros _; right | reflexivity].
        apply N.div_small_iff in E; assumption.
      * split; [discriminate |].
        intros [-> | Hlt]; [contradiction |].
        apply N.div_small_iff in Hlt; [contradiction | assumption].
  - intros m b h w n Hinit Hdiv.
    eapply HIM_forward_shape; try eassumption.
    unfold HIM.init in Hinit.
    destruct (N.eqb_spec num_heads 0) as [| Hn]; [discriminate |].
    destruct (N.eqb_spec (dim / num_heads) 0) as [| E]; [discriminate |].
    destruct (N.eq_dec dim 0) as [-> |]; [| lia].
    rewrite N.Div0.div_0_l in E. contradiction.
Qed.

(** *** The group count of a network that runs *)

Lemma film_without_layers (x p : Shape) :
  film (T:=Shape) None None x (Some p) = Raise (AttributeError "ln1").
Proof. reflexivity. Qed.

(** A stage built with [group <= 1] hands the prior to its blocks, which
    take at most a (b, embed_dim * 4) prior. *)
Lemma stage_rejects_token_prior dim num_heads f bias ty embed_dim nb g
  (m : BasicLayer.t Shape) (x p y : Shape) :
  BasicLayer.init dim num_heads f bias ty embed_dim nb g = Ok m ->
  (0 < nb)%nat -> g <= 1 ->
  BasicLayer.forward m x (Some p) = Ok y ->
  (List.length p <= 2)%nat.
Proof.
  intros Hinit Hnb Hg H.
  destruct (N.eq_dec g 1) as [-> | Hne].
  - destruct (@stage_group_1_flat_prior _ _ _ _ _ _ _ _ _ _ _ Hinit Hnb H)
      as (pre & -> & Hpre).
    rewrite length_app. simpl. lia.
  - exfalso.
    apply BasicLayer_init_inv in Hinit as (Hgm & Hlen & Hall & _).
    rewrite BasicLayer_forward_plain in H
      by (right; rewrite Hgm; apply N.ltb_ge; exact Hg).
    destruct (BasicLayer.blocks m) as [| blk bs]; [simpl in Hlen; lia |].
    inversion Hall as [| ? ? Hblk _]; subst.
    unfold BasicLayer.run_blocks in H. cbn [for_each] in H.
    apply bind_ok_inv in H as (x' & E & _).
    apply TransformerBlock_init_inv in Hblk as (Ha & _ & _ & _).
    apply Attention_init_film in Ha as [Hl1 Hl2].
    rewrite (film_init_other _ _ Hne) in Hl1, Hl2.
    unfold TransformerBlock.forward in E.
    apply bind_ok_inv in E as (x1 & E1 & _).
    apply bind_ok_inv in E1 as (n1 & _ & E1).
    apply bind_ok_inv in E1 as (a1 & Ea & _).
    unfold Attention.forward in Ea. rewrite Hl1, Hl2 in Ea.
    apply bind_ok_inv in Ea as ([[[b c] h] w] & _ & Ea).
    apply bind_ok_inv in Ea as (xf & Efilm & _).
    rewrite film_without_layers in Efilm. discriminate Efilm.
Qed.

Lemma PriorDown_forward_rank n_in n_out embed_dim (x : option Shape) (y : Shape) :
  PriorDown.forward (PriorDown.init (T:=Shape) n_in n_out embed_dim) x = Ok y ->
  List.length y = 3%nat.
Proof.
  unfold PriorDown.forward, PriorDown.init. intros H.
  destruct x as [p |]; [| discriminate].
  cbn [PriorDown.tokens PriorDown.channels] in H.
  apply bind_ok_inv in H as (p1 & E1 & H). apply lift_ok_inv in E1.
  cbn [rearrange shape_torch] in E1.
  destruct p as [| b [| n [| c [| ? ?]]]]; try discriminate E1.
  injection E1 as <-.
  apply bind_ok_inv in H as (p2 & E2 & H).
  apply Linear_forward_3d_inv in E2 as [_ ->].
  apply bind_ok_inv in H as (p3 & E3 & H). apply lift_ok_inv in E3.
  cbn [rearrange shape_rearrange shape_torch] in E3. injection E3 as <-.
  apply Linear_forward_3d_inv in H as [_ ->]. reflexivity.
Qed.

Lemma getitem_nth {A} (l : list A) (i : nat) (a d : A) :
  getitem l i = Ok a -> nth i l d = a.
Proof.
  unfold getitem. destruct (nth_error l i) eqn:E; [| discriminate].
  intros H. injection H as <-. apply nth_error_nth. exact E.
Qed.

(** *** When the resizing modules return *)

(** A convolution that returns has at least [groups] output channels, so at
    least one: [F.conv2d] rejects a weight with fewer. *)
Lemma Conv2d_forward_out_channels cin cout k p g bias (m : Conv2d.t Shape) (x y : Shape) :
  Conv2d.init cin cout k p g bias = Ok m ->
  Conv2d.forward m x = Ok y -> 0 < cout.
Proof.
  intros Hinit Hf.
  pose proof Hinit as Hg. apply Conv2d_init_groups in Hg.
  apply Conv2d_init_inv in Hinit. subst m.
  unfold Conv2d.forward in Hf. apply lift_ok_inv in Hf.
  cbn [Conv2d.weight Conv2d.bias Conv2d.padding Conv2d.groups conv2d shape_torch empty] in Hf.
  unfold shape_conv2d in Hf.
  destruct x as [| a [| b [| c [| d [| ? ?]]]]]; try discriminate Hf;
    (match type of Hf with (if ?c then _ else _) = _ => destruct c eqn:Ec end;
     [| discriminate Hf]);
    repeat (apply andb_prop in Ec as [Ec ?]);
    match goal with H : (g <=? cout) = true |- _ => apply N.leb_le in H end; lia.
Qed.

(** [X20] [Downsample(n)] returns on (B, C, H, W) exactly when [C = n],
    [n >= 2] and [H], [W] are positive and even; the result is
    (B, (n // 2) * 4, H/2, W/2), which is (B, 2n, H/2, W/2) only for even
    [n].  [Downsample(0)] and [Downsample(1)] can be built, but their
    convolution has no output channel and [forward] raises. *)
Theorem Downsample_forward_returns_iff (n : N) (d : Downsample.t Shape)
  (B C H W : N) (y : Shape) :
  Downsample.init n = Ok d ->
  Downsample.forward d [B; C; H; W] = Ok y
  <-> C = n /\ 2 <= n /\ 0 < H /\ 0 < W /\ H mod 2 = 0 /\ W mod 2 = 0
      /\ y = [B; n / 2 * 4; H / 2; W / 2].
Proof.
  intros Hinit. split.
  - intros H0. pose proof H0 as Hf.
    pose proof Hinit as Hc. unfold Downsample.init in Hc.
    apply bind_ok_inv in Hc as (c & Hc & Hd). injection Hd as <-.
    unfold Downsample.forward in Hf. cbn [Downsample.body_conv] in Hf.
    apply bind_ok_inv in Hf as (z & Ez & Hf). apply lift_ok_inv in Hf.
    pose proof Ez as Hout. eapply Conv2d_forward_out_channels in Hout; [| exact Hc].
    assert (2 <= n) as Hn.
    { destruct (N.lt_ge_cases n 2) as [Hlt | Hge]; [| exact Hge].
      apply N.div_small in Hlt. lia. }
    destruct (@Conv2d_forward_inv4 _ _ _ _ _ _ _ _ _ _ _ _ Hc
                (or_intror (conj eq_refl eq_refl)) Ez) as (-> & HH & HW & ->).
    cbn [pixel_unshuffle shape_torch] in Hf. unfold shape_pixel_unshuffle in Hf.
    simpl in Hf.
    destruct (N.eqb_spec (H mod 2) 0) as [EH |]; [| discriminate].
    destruct (N.eqb_spec (W mod 2) 0) as [EW |]; [| discriminate].
    simpl in Hf. injection Hf as <-.
    repeat split; assumption.
  - intros (-> & Hn & HH & HW & EH & EW & ->).
    eapply Downsample_forward_shape; eassumption.
Qed.

(** [X21] [Upsample(n)] returns on (B, C, H, W) exactly when [C = n], [n] is
    positive and even and [H], [W] are positive; the result is
    (B, n/2, 2H, 2W).  With an odd [n] the pixel shuffle has [2n] channels
    to regroup by 4 and raises; [Upsample(0)] can be built, but its
    convolution has no output channel and [forward] raises. *)
Theorem Upsample_forward_returns_iff (n : N) (u : Upsample.t Shape)
  (B C H W : N) (y : Shape) :
  Upsample.init n = Ok u ->
  Upsample.forward u [B; C; H; W] = Ok y
  <-> C = n /\ 0 < n /\ 0 < H /\ 0 < W /\ n mod 2 = 0
      /\ y = [B; n / 2; H * 2; W * 2].
Proof.
  intros Hinit.
  assert (n mod 2 = 0 <-> (n * 2) mod 4 = 0) as Heven.
  { change 4 with (2 * 2). rewrite N.Div0.mul_mod_distr_r.
    split; intros E; [rewrite E; reflexivity | lia]. }
  assert (n mod 2 = 0 -> n * 2 / 4 = n / 2) as Hhalf.
  { intros E. change 4 with (2 * 2). rewrite N.Div0.div_mul_cancel_r by discriminate.
    reflexivity. }
  split.
  - intros H0. pose proof H0 as Hf.
    pose proof Hinit as Hc. unfold Upsample.init in Hc.
    apply bind_ok_inv in Hc as (c & Hc & Hd). injection Hd as <-.
    unfold Upsample.forward in Hf. cbn [Upsample.body_conv] in Hf.
    apply bind_ok_inv in Hf as (z & Ez & Hf). apply lift_ok_inv in Hf.
    pose proof Ez as Hout. eapply Conv2d_forward_out_channels in Hout; [| exact Hc].
    assert (0 < n) as Hn by lia.
    destruct (@Conv2d_forward_inv4 _ _ _ _ _ _ _ _ _ _ _ _ Hc
                (or_intror (conj eq_refl eq_refl)) Ez) as (-> & HH & HW & ->).
    cbn [pixel_shuffle shape_torch] in Hf. unfold shape_pixel_shuffle in Hf.
    simpl in Hf. change (2 * 2) with 4 in Hf.
    destruct (N.eqb_spec ((n * 2) mod 4) 0) as [E |]; [| discriminate].
    simpl in Hf. injection Hf as <-.
    apply Heven in E. rewrite (Hhalf E).
    repeat split; assumption.
  - intros (-> & Hn & HH & HW & E & ->).
    erewrite Upsample_forward_shape; [| eassumption | apply Heven; exact E | assumption ..].
    rewrite (Hhalf E). reflexivity.
Qed.

(** *** The network as a whole *)

Section WithMAE.
Context {MAE : MaskedAutoencoderViT Shape}.

(** [X1] Whatever the configuration, the encoder, the image and the prior:
    a tensor that [Transformer.forward] returns has 224 and 224 as its last
    two axes.  The decoder starts from the fixed 28 x 28 output of
    [upsample_layer] and doubles three times. *)
Theorem forward_result_ends_with_224 (cfg : Config.t) (m : Transformer.t Shape)
  (inp_img : Shape) (prior : option Shape) (y : Shape) :
  Transformer.init cfg = Ok m ->
  Transformer.forward m inp_img prior = Ok y ->
  exists pre, y = pre ++ [224; 224].
Proof. intros Hinit Hf. exact (Transformer_forward_ends_with_224 _ _ _ Hinit Hf). Qed.

(** [X2] A forward pass that returns was given a prior of exactly three
    axes, with [group * group] tokens of width [embed_dim * 4]: the first
    layer with weights of [down_1] is [nn.Linear(group*group, ...)] over the
    token axis, the last one [nn.Linear(embed_dim*4, embed_dim*4)]. *)
Theorem forward_prior_shape_is_forced (cfg : Config.t) (m : Transformer.t Shape)
  (inp_img p y : Shape) :
  Transformer.init cfg = Ok m ->
  Transformer.forward m inp_img (Some p) = Ok y ->
  exists b, p = [b; Config.group cfg * Config.group cfg; Config.embed_dim cfg * 4].
Proof.
  intros Hinit H.
  assert (exists b n c, p = [b; n; c]) as (b & n & c & ->).
  { unfold Transformer.forward in H.
    apply bind_ok_inv in H as (p2 & E & _).
    unfold PriorDown.forward in E.
    apply bind_ok_inv in E as (p1 & E & _). apply lift_ok_inv in E.
    cbn [rearrange shape_torch] in E.
    destruct p as [| b [| n [| c [| ? ?]]]]; try discriminate E. eauto. }
  eapply Transformer_forward_prior_tokens in H as [-> ->]; [| exact Hinit].
  exists b. reflexivity.
Qed.

Lemma Transformer_init_decoder_stages (cfg : Config.t) (m : Transformer.t Shape) :
  Transformer.init cfg = Ok m ->
  Transformer.down_1 m
  = PriorDown.init (Config.group cfg * Config.group cfg)
      (Config.group cfg * Config.group cfg / 4) (Config.embed_dim cfg)
  /\ (exists h,
        BasicLayer.init (Config.dim cfg * 4) h (Config.ffn_expansion_factor cfg)
          (Config.bias cfg) (Config.LayerNorm_type cfg) (Config.embed_dim cfg)
          (nth 2 (Config.num_blocks cfg) O) (Config.group cfg / 2)
        = Ok (Transformer.decoder_level3 m))
  /\ (exists h,
        BasicLayer.init (Config.dim cfg * 2) h (Config.ffn_expansion_factor cfg)
          (Config.bias cfg) (Config.LayerNorm_type cfg) (Config.embed_dim cfg)
          (nth 1 (Config.num_blocks cfg) O) (Config.group cfg / 2)
        = Ok (Transformer.decoder_level2 m)).
Proof.
  intros Hinit.
  unfold Transformer.init in Hinit. cbv zeta in Hinit.
  repeat (let x := fresh "x" in
          let E := fresh "E" in
          apply bind_ok_inv in Hinit as (x & E & Hinit)).
  injection Hinit as <-.
  cbn [Transformer.down_1 Transformer.decoder_level3 Transformer.decoder_level2].
  split; [reflexivity |].
  repeat match goal with
         | H : bind (getitem _ _) _ = Ok _ |- _ =>
             let n := fresh "n" in
             let E := fresh "En" in
             apply bind_ok_inv in H as (n & E & H)
         end.
  repeat match goal with
         | H : getitem (Config.num_blocks cfg) _ = Ok _ |- _ =>
             apply (@getitem_nth _ _ _ _ O) in H; subst
         end.
  split; eexists; eassumption.
Qed.

Lemma Transformer_forward_decoder_stages (m : Transformer.t Shape) inp_img prior y :
  Transformer.forward m inp_img prior = Ok y ->
  exists p2,
    PriorDown.forward (Transformer.down_1 m) prior = Ok p2
    /\ (exists x3 d3,
          BasicLayer.forward (Transformer.decoder_level3 m) x3 (Some p2) = Ok d3)
    /\ (exists x2 d2,
          BasicLayer.forward (Transformer.decoder_level2 m) x2 (Some p2) = Ok d2).
Proof.
  unfold Transformer.forward. intros H.
  apply bind_ok_inv in H as (p2 & E_p2 & H).
  exists p2. split; [exact E_p2 |].
  repeat (let x := fresh "x" in
          let E := fresh "E" in
          apply bind_ok_inv in H as (x & E & H)).
  split; eauto.
Qed.

(** [X5] When [decoder_level2] or [decoder_level3] has at least one block,
    a forward pass that returns belongs to a network built with
    [group >= 4].  These stages are built with [group // 2] and are given
    the token prior [prior_2]; with [group // 2 <= 1] they hand it to their
    blocks, which take no prior ([group // 2 = 0]) or a flat one
    ([group // 2 = 1]). *)
Theorem forward_needs_group_4 (cfg : Config.t) (m : Transformer.t Shape)
  (inp_img : Shape) (prior : option Shape) (y : Shape) :
  Transformer.init cfg = Ok m ->
  (0 < nth 1 (Config.num_blocks cfg) O \/ 0 < nth 2 (Config.num_blocks cfg) O)%nat ->
  Transformer.forward m inp_img prior = Ok y ->
  4 <= Config.group cfg.
Proof.
  intros Hinit Hnb H.
  apply Transformer_init_decoder_stages in Hinit as (Hd1 & (h3 & Hs3) & (h2 & Hs2)).
  apply Transformer_forward_decoder_stages in H
    as (p2 & Ep2 & (x3 & d3 & E3) & (x2 & d2 & E2)).
  rewrite Hd1 in Ep2. apply PriorDown_forward_rank in Ep2.
  destruct (N.le_gt_cases (Config.group cfg / 2) 1) as [Hle | Hgt].
  - exfalso. destruct Hnb as [Hnb | Hnb].
    + pose proof (@stage_rejects_token_prior _ _ _ _ _ _ _ _ _ _ _ _ Hs2 Hnb Hle E2). lia.
    + pose proof (@stage_rejects_token_prior _ _ _ _ _ _ _ _ _ _ _ _ Hs3 Hnb Hle E3). lia.
  - pose proof (N.Div0.mul_div_le (Config.group cfg) 2). lia.
Qed.

Lemma Transformer_init_linear_layer (cfg : Config.t) (m : Transformer.t Shape) :
  Transformer.init cfg = Ok m ->
  Transformer.linear_layer m = Linear.init 50 (14 * 14) true.
Proof.
  intros Hinit.
  unfold Transformer.init in Hinit. cbv zeta in Hinit.
  repeat (let x := fresh "x" in
          let E := fresh "E" in
          apply bind_ok_inv in Hinit as (x & E & Hinit)).
  injection Hinit as <-. reflexivity.
Qed.

(** [X22] What the forward pass asks of the encoder: a forward pass that
    returns got from [mae_encoder] a tensor of three axes with 50 tokens,
    for [nn.Linear(50, 14 * 14)] after the permutation, and of width 64, for
    [view(b, 64, 14, 14)] (for a non-empty batch).  This holds whatever
    [embed_dim] the encoder was built with. *)
Theorem forward_needs_encoder_output_50_by_64 (cfg : Config.t) (m : Transformer.t Shape)
  (inp_img : Shape) (prior : option Shape) (y : Shape) :
  Transformer.init cfg = Ok m ->
  Transformer.forward m inp_img prior = Ok y ->
  exists reduced b c,
    mae_forward (Transformer.mae_encoder m) reduced = Ok [b; 50; c]
    /\ (b = 0 \/ c = 64).
Proof.
  intros Hinit H.
  apply Transformer_init_linear_layer in Hinit.
  unfold Transformer.forward in H. rewrite Hinit in H.
  apply bind_ok_inv in H as (p2 & _ & H).
  apply bind_ok_inv in H as (p3 & _ & H).
  apply bind_ok_inv in H as (pe & _ & H).
  apply bind_ok_inv in H as (red & _ & H).
  apply bind_ok_inv in H as (e & E_mae & H).
  apply bind_ok_inv in H as (perm & E_perm & H).
  apply bind_ok_inv in H as (lin & E_lin & H).
  apply bind_ok_inv in H as (viewed & E_view & _).
  apply lift_ok_inv in E_perm. cbn [permute shape_torch] in E_perm.
  unfold shape_permute in E_perm.
  destruct e as [| b [| t [| c [| ? ?]]]]; try discriminate E_perm.
  simpl in E_perm. injection E_perm as <-.
  apply Linear_forward_3d_inv in E_lin as [-> ->].
  cbn [shape shape_torch getitem nth_error bind] in E_view.
  apply lift_ok_inv in E_view. cbn [view shape_torch] in E_view.
  unfold shape_view in E_view.
  destruct (N.eqb_spec (numel [b; c; 14 * 14]) (numel [b; 64; 14; 14])) as [En |];
    [| discriminate].
  exists red, b, c. split; [exact E_mae |].
  unfold numel in En. simpl in En.
  destruct (N.eq_dec b 0) as [-> |]; [left; reflexivity | right].
  change (14 * 14) with 196 in En.
  assert (b * (c * 196) = b * (64 * 196)) as En' by lia.
  apply N.mul_cancel_l in En'; [| assumption]. lia.
Qed.

End WithMAE.

(** *** A stage keeps the shape *)

(** [X7] A stage returns the shape it is given, for any number of blocks,
    when the head count divides the width and the sizes are positive:
    without a prior, with a (b, embed_dim * 4) prior when [group = 1], with
    a (b, n, embed_dim * 4) prior of any token count [n] when [group > 1]. *)
Theorem stage_keeps_shape dim num_heads f bias ty embed_dim nb g
  (m : BasicLayer.t Shape) (b h w : N) (prior : option Shape) :
  BasicLayer.init dim num_heads f bias ty embed_dim nb g = Ok m ->
  num_heads <> 0 -> dim mod num_heads = 0 -> 0 < dim ->
  0 < h -> 0 < w ->
  prior = None
  \/ (g = 1 /\ prior = Some [b; embed_dim * 4])
  \/ (1 < g /\ exists n, prior = Some [b; n; embed_dim * 4]) ->
  BasicLayer.forward m [b; dim; h; w] prior = Ok [b; dim; h; w].
Proof.
  intros Hinit Hn Hdiv Hdim Hh Hw Hp.
  eapply BasicLayer_forward_shape; eassumption.
Qed.

End MoreShapes.

(** ** Examples for the further properties *)

Lemma forward_needs_dim_48_witness :
  Transformer.init default_config = Ok default_net
  /\ Transformer.forward default_net [1; 3; 224; 224] (Some [1; 16; 192])
     = Ok [1; 3; 224; 224]
  /\ Config.dim default_config = 48
  /\ has_channels (Config.inp_channels default_config) [1; 3; 224; 224].
Proof.
  assert (Transformer.forward default_net [1; 3; 224; 224] (Some [1; 16; 192])
          = Ok [1; 3; 224; 224]) as Hf by (vm_compute; reflexivity).
  split; [reflexivity |]. split; [exact Hf |].
  apply (@forward_needs_dim_48 mae_shape default_config default_net
           [1; 3; 224; 224] (Some [1; 16; 192]) [1; 3; 224; 224] eq_refl Hf).
Defined.

Lemma dual_pixel_branch_never_returns_witness :
  Transformer.init dual_pixel_config = Ok dual_pixel_net
  /\ Config.dual_pixel_task dual_pixel_config = true
  /\ is_ok (Transformer.forward dual_pixel_net [1; 6; 224; 224] (Some [1; 16; 192])) = false.
Proof.
  split; [reflexivity |]. split; [reflexivity |].
  apply (@dual_pixel_branch_never_returns mae_shape dual_pixel_config dual_pixel_net
           [1; 6; 224; 224] (Some [1; 16; 192]) eq_refl eq_refl).
Defined.

Lemma forward_result_ends_with_224_witness :
  Transformer.init default_config = Ok default_net
  /\ Transformer.forward default_net [2; 3; 224; 224] (Some [2; 16; 192])
     = Ok [2; 3; 224; 224]
  /\ exists pre, [2; 3; 224; 224] = pre ++ [224; 224].
Proof.
  assert (Transformer.forward default_net [2; 3; 224; 224] (Some [2; 16; 192])
          = Ok [2; 3; 224; 224]) as Hf by (vm_compute; reflexivity).
  split; [reflexivity |]. split; [exact Hf |].
  apply (@forward_result_ends_with_224 mae_shape default_config default_net
           [2; 3; 224; 224] (Some [2; 16; 192]) [2; 3; 224; 224] eq_refl Hf).
Defined.

Lemma forward_prior_shape_is_forced_witness :
  Transformer.init default_config = Ok default_net
  /\ Transformer.forward default_net [1; 3; 224; 224] (Some [1; 16; 192])
     = Ok [1; 3; 224; 224]
  /\ exists b, [1; 16; 192] = [b; 4 * 4; 48 * 4].
Proof.
  assert (Transformer.forward default_net [1; 3; 224; 224] (Some [1; 16; 192])
          = Ok [1; 3; 224; 224]) as Hf by (vm_compute; reflexivity).
  split; [reflexivity |]. split; [exact Hf |].
  apply (@forward_prior_shape_is_forced mae_shape default_config default_net
           [1; 3; 224; 224] [1; 16; 192] [1; 3; 224; 224] eq_refl Hf).
Defined.

Lemma forward_needs_group_4_witness :
  Transformer.init default_config = Ok default_net
  /\ (0 < nth 1 [4; 6; 6; 8] O \/ 0 < nth 2 [4; 6; 6; 8] O)%nat
  /\ Transformer.forward default_net [1; 3; 224; 224] (Some [1; 16; 192])
     = Ok [1; 3; 224; 224]
  /\ 4 <= Config.group default_config.
Proof.
  assert (Transformer.forward default_net [1; 3; 224; 224] (Some [1; 16; 192])
          = Ok [1; 3; 224; 224]) as Hf by (vm_compute; reflexivity).
  assert (0 < nth 1 [4; 6; 6; 8] O \/ 0 < nth 2 [4; 6; 6; 8] O)%nat as Hnb
    by (left; simpl; lia).
  split; [reflexivity |]. split; [exact Hnb |]. split; [exact Hf |].
  apply (@forward_needs_group_4 mae_shape default_config default_net
           [1; 3; 224; 224] (Some [1; 16; 192]) [1; 3; 224; 224] eq_refl Hnb Hf).
Defined.

Lemma Transformer_init_needs_four_levels_witness :
  Transformer.init default_config = Ok default_net
  /\ (4 <= List.length (Config.heads default_config))%nat
  /\ (4 <= List.length (Config.num_blocks default_config))%nat.
Proof.
  split; [reflexivity |].
  apply (@Transformer_init_needs_four_levels Shape shape_torch mae_shape
           default_config default_net eq_refl).
Defined.

Lemma stage_with_group_1_takes_flat_prior_witness :
  BasicLayer.init 384 8 2.66 false "WithBias" 48 8 1 = Ok stage_group1
  /\ (0 < 8)%nat
  /\ BasicLayer.forward stage_group1 [2; 384; 28; 28] (Some [2; 192]) = Ok [2; 384; 28; 28]
  /\ exists pre, [2; 192] = pre ++ [48 * 4] /\ (List.length pre <= 1)%nat.
Proof.
  assert (BasicLayer.forward stage_group1 [2; 384; 28; 28] (Some [2; 192])
          = Ok [2; 384; 28; 28]) as Hf by (vm_compute; reflexivity).
  assert (0 < 8)%nat as Hnb by lia.
  split; [reflexivity |]. split; [exact Hnb |]. split; [exact Hf |].
  apply (@stage_with_group_1_takes_flat_prior 384 8 2.66 false "WithBias" 48 8%nat
           stage_group1 [2; 384; 28; 28] [2; 192] [2; 384; 28; 28] eq_refl Hnb Hf).
Defined.

Lemma stage_keeps_shape_witness :
  BasicLayer.init 96 1 2.66 false "WithBias" 48 4 4 = Ok stage_group4
  /\ 1 <> 0 /\ 96 mod 1 = 0 /\ 0 < 96 /\ 0 < 224 /\ 0 < 224
  /\ (1 < 4 /\ exists n, Some [2; 16; 48 * 4] = Some [2; n; 48 * 4])
  /\ BasicLayer.forward stage_group4 [2; 96; 224; 224] (Some [2; 16; 48 * 4])
     = Ok [2; 96; 224; 224].
Proof.
  assert (1 <> 0) as H1 by discriminate.
  assert (1 < 4 /\ exists n, Some [2; 16; 48 * 4] = Some [2; n; 48 * 4]) as Hp
    by (split; [reflexivity | exists 16; reflexivity]).
  split; [reflexivity |]. split; [exact H1 |].
  split; [reflexivity |]. split; [reflexivity |]. split; [reflexivity |].
  split; [reflexivity |]. split; [exact Hp |].
  apply (@stage_keeps_shape 96 1 2.66 false "WithBias" 48 4%nat 4 stage_group4
           2 224 224 (Some [2; 16; 48 * 4]) eq_refl H1 eq_refl eq_refl eq_refl eq_refl
           (or_intror (or_intror Hp))).
Defined.

Lemma Attention_forward_returns_iff_witness :
  Attention.init 96 1 false 48 4 = Ok attention_group4
  /\ (Attention.forward attention_group4 [1; 96; 224; 224] None = Ok [1; 96; 224; 224]
      <-> (exists b h w, [1; 96; 224; 224] = [b; 96; h; w] /\ 0 < h /\ 0 < w)
          /\ 1 <> 0 /\ 96 mod 1 = 0 /\ [1; 96; 224; 224] = [1; 96; 224; 224]).
Proof.
  split; [reflexivity |].
  apply (@Attention_forward_returns_iff 96 1 false 48 4 attention_group4
           [1; 96; 224; 224] [1; 96; 224; 224] eq_refl).
Defined.

Lemma FeedForward_forward_returns_iff_witness :
  FeedForward.init 96 2.66 false 48 4 = Ok feed_forward_group4
  /\ (FeedForward.forward feed_forward_group4 [1; 96; 224; 224] None
      = Ok [1; 96; 224; 224]
      <-> (exists b h w, [1; 96; 224; 224] = [b; 96; h; w] /\ 0 < h /\ 0 < w)
          /\ [1; 96; 224; 224] = [1; 96; 224; 224]).
Proof.
  split; [reflexivity |].
  apply (@FeedForward_forward_returns_iff 96 2.66 false 48 4 feed_forward_group4
           [1; 96; 224; 224] [1; 96; 224; 224] eq_refl).
Defined.

Lemma Upsample_then_Downsample_restores_shape_witness :
  Upsample.init 384 = Ok (get_ok (Upsample.init (T := Shape) 384) eq_refl)
  /\ Downsample.init (384 / 2) = Ok (get_ok (Downsample.init (T := Shape) (384 / 2)) eq_refl)
  /\ 0 < 384 /\ 384 mod 4 = 0 /\ 0 < 28 /\ 0 < 28
  /\ Upsample.forward (get_ok (Upsample.init (T := Shape) 384) eq_refl) [1; 384; 28; 28]
     = Ok [1; 384 / 2; 28 * 2; 28 * 2]
  /\ (y <- Upsample.forward (get_ok (Upsample.init (T := Shape) 384) eq_refl)
            [1; 384; 28; 28] ;;
      Downsample.forward (get_ok (Downsample.init (T := Shape) (384 / 2)) eq_refl) y)
     = Ok [1; 384; 28; 28].
Proof.
  repeat (split; [reflexivity |]).
  apply (@Upsample_then_Downsample_restores_shape 1 384 28 28); reflexivity.
Defined.

Lemma Downsample_forward_returns_iff_witness :
  Downsample.init 48 = Ok (get_ok (Downsample.init (T := Shape) 48) eq_refl)
  /\ (Downsample.forward (get_ok (Downsample.init (T := Shape) 48) eq_refl)
        [1; 48; 224; 224] = Ok [1; 96; 112; 112]
      <-> 48 = 48 /\ 2 <= 48 /\ 0 < 224 /\ 0 < 224 /\ 224 mod 2 = 0 /\ 224 mod 2 = 0
          /\ [1; 96; 112; 112] = [1; 48 / 2 * 4; 224 / 2; 224 / 2]).
Proof.
  split; [reflexivity |].
  apply (@Downsample_forward_returns_iff 48
           (get_ok (Downsample.init (T := Shape) 48) eq_refl)
           1 48 224 224 [1; 96; 112; 112] eq_refl).
Defined.

Lemma Upsample_forward_returns_iff_witness :
  Upsample.init 384 = Ok (get_ok (Upsample.init (T := Shape) 384) eq_refl)
  /\ (Upsample.forward (get_ok (Upsample.init (T := Shape) 384) eq_refl)
        [1; 384; 28; 28] = Ok [1; 192; 56; 56]
      <-> 384 = 384 /\ 0 < 384 /\ 0 < 28 /\ 0 < 28 /\ 384 mod 2 = 0
          /\ [1; 192; 56; 56] = [1; 384 / 2; 28 * 2; 28 * 2]).
Proof.
  split; [reflexivity |].
  apply (@Upsample_forward_returns_iff 384
           (get_ok (Upsample.init (T := Shape) 384) eq_refl)
           1 384 28 28 [1; 192; 56; 56] eq_refl).
Defined.

Lemma forward_needs_encoder_output_50_by_64_witness :
  Transformer.init default_config = Ok default_net
  /\ Transformer.forward default_net [1; 3; 224; 224] (Some [1; 16; 192])
     = Ok [1; 3; 224; 224]
  /\ exists reduced b c,
       mae_forward (Transformer.mae_encoder default_net) reduced = Ok [b; 50; c]
       /\ (b = 0 \/ c = 64).
Proof.
  assert (Transformer.forward default_net [1; 3; 224; 224] (Some [1; 16; 192])
          = Ok [1; 3; 224; 224]) as Hf by (vm_compute; reflexivity).
  split; [reflexivity |]. split; [exact Hf |].
  apply (@forward_needs_encoder_output_50_by_64 mae_shape default_config default_net
           [1; 3; 224; 224] (Some [1; 16; 192]) [1; 3; 224; 224] eq_refl Hf).
Defined.

(** ** Layer arithmetic over the reals *)

Import RealSem.
Local Open Scope R_scope.

Lemma zip_with_map_r {A B C} (f : A -> B -> C) (g : A -> B) (l : list A) :
  zip_with f l (map g l) = map (fun a => f a (g a)) l.
Proof. induction l as [| a l IH]; simpl; [reflexivity | rewrite IH; reflexivity]. Qed.

Lemma zip_with_map_l {A A' B C} (f : A' -> B -> C) (g : A -> A') (l : list A) (r : list B) :
  zip_with f (map g l) r = zip_with (fun a b => f (g a) b) l r.
Proof.
  revert r; induction l as [| a l IH]; intros [| b r]; simpl; try reflexivity.
  rewrite IH; reflexivity.
Qed.

Lemma zip_with_length {A B C} (f : A -> B -> C) (l : list A) (r : list B) :
  List.length l = List.length r -> List.length (zip_with f l r) = List.length l.
Proof.
  revert r; induction l as [| a l IH]; intros [| b r]; simpl; intros H; try reflexivity;
    try discriminate.
  rewrite IH; congruence.
Qed.

Lemma bc_vec_same_length (op : R -> R -> R) (a w : vec) :
  List.length a = List.length w -> bc_vec op a w = zip_with op a w.
Proof.
  intros H. destruct w as [| s [| s' w]]; try reflexivity.
  destruct a as [| x [| x' a]]; try discriminate. reflexivity.
Qed.

Lemma zip_with_map_both {A B C D} (f : B -> C -> D) (g : A -> B) (h : A -> C) (l : list A) :
  zip_with f (map g l) (map h l) = map (fun a => f (g a) (h a)) l.
Proof. induction l as [| a l IH]; simpl; [reflexivity | rewrite IH; reflexivity]. Qed.

(** A reduction with [keepdim=True] keeps the leading axes: a tensor
    computed vector by vector and a reduction of the same input combine
    vector by vector. *)
Lemma bc3_reduced (op : R -> R -> R) (h : vec -> vec) (g : vec -> R) (x : tensor3) :
  bc3 op (map (map h) x) (map (map (fun v => [g v])) x)
  = map (map (fun v => map (fun yi => op yi (g v)) (h v))) x.
Proof.
  unfold bc3. rewrite zip_with_map_both. apply map_ext. intros row.
  rewrite zip_with_map_both. reflexivity.
Qed.

Lemma map3_reduced (f : R -> R) (g : vec -> R) (x : tensor3) :
  map3 f (map (map (fun v => [g v])) x) = map (map (fun v => [f (g v)])) x.
Proof.
  unfold map3. rewrite map_map. apply map_ext. intros row.
  rewrite map_map. reflexivity.
Qed.

Lemma map_map_id (x : tensor3) : map (map (fun v : vec => v)) x = x.
Proof.
  induction x as [| row x IH]; simpl; [reflexivity |].
  rewrite map_id, IH. reflexivity.
Qed.

Lemma BiasFree_LayerNorm_forward_rows (weight : vec) (x : tensor3) :
  BiasFree_LayerNorm_forward weight x
  = map (map (fun v => bc_vec Rmult (map (fun xi => xi / sqrt (var v + eps)) v) weight)) x.
Proof.
  unfold BiasFree_LayerNorm_forward, var_last, bc_param.
  rewrite !map3_reduced.
  rewrite <- (map_map_id x) at 1. rewrite bc3_reduced.
  rewrite map_map. apply map_ext. intros row. rewrite map_map. reflexivity.
Qed.

Lemma WithBias_LayerNorm_forward_rows (weight bias : vec) (x : tensor3) :
  WithBias_LayerNorm_forward weight bias x
  = map (map (fun v =>
                bc_vec Rplus
                  (bc_vec Rmult
                     (map (fun xi => (xi - mean v) / sqrt (var v + eps)) v) weight)
                  bias)) x.
Proof.
  unfold WithBias_LayerNorm_forward, var_last, mean_last, bc_param.
  rewrite !map3_reduced.
  rewrite <- (map_map_id x) at 1. rewrite bc3_reduced.
  rewrite bc3_reduced.
  rewrite !map_map. apply map_ext. intros row. rewrite !map_map.
  apply map_ext. intros v. rewrite map_map. reflexivity.
Qed.

Lemma zip_with3_nested {A B C D} (f : A -> B -> R) (g : R -> C -> D)
  (a : list A) (b : list B) (c : list C) :
  zip_with g (zip_with f a b) c = zip_with3 (fun x y z => g (f x y) z) a b c.
Proof.
  revert b c; induction a as [| x a IH]; intros [| y b] [| z c]; simpl; try reflexivity.
  rewrite IH. reflexivity.
Qed.

(** [C7] On a sequence of vectors of the normalised width, the bias-free
    layer norm returns [x / sqrt(var(x) + 1e-5) * weight], the mean not
    being subtracted, and the layer norm with bias returns
    [(x - mean(x)) / sqrt(var(x) + 1e-5) * weight + bias]; mean and
    (population) variance are taken over the last axis, vector by vector. *)
Theorem layer_norms_follow_their_formulas (c : nat) (weight bias : vec) (x : tensor3) :
  List.length weight = c -> List.length bias = c -> seq_of_width c x ->
  BiasFree_LayerNorm_forward weight x
  = map (map (fun v => zip_with (fun xi wi => xi / sqrt (var v + 1e-5) * wi) v weight)) x
  /\ WithBias_LayerNorm_forward weight bias x
     = map (map (fun v =>
                   zip_with3 (fun xi wi bi => (xi - mean v) / sqrt (var v + 1e-5) * wi + bi)
                     v weight bias)) x.
Proof.
  intros Hw Hb Hx. split.
  - rewrite BiasFree_LayerNorm_forward_rows.
    apply map_ext_Forall. eapply Forall_impl; [| exact Hx]. intros row Hrow.
    apply map_ext_Forall. eapply Forall_impl; [| exact Hrow]. intros v Hv. simpl in Hv.
    rewrite bc_vec_same_length by (rewrite length_map; congruence).
    rewrite zip_with_map_l. reflexivity.
  - rewrite WithBias_LayerNorm_forward_rows.
    apply map_ext_Forall. eapply Forall_impl; [| exact Hx]. intros row Hrow.
    apply map_ext_Forall. eapply Forall_impl; [| exact Hrow]. intros v Hv. simpl in Hv.
    rewrite (bc_vec_same_length Rmult) by (rewrite length_map; congruence).
    rewrite bc_vec_same_length
      by (rewrite zip_with_length; rewrite length_map; congruence).
    rewrite zip_with_map_l, zip_with3_nested. reflexivity.
Qed.

Lemma layer_norms_follow_their_formulas_witness :
  List.length [1; 1] = 2%nat /\ List.length [0; 0] = 2%nat
  /\ seq_of_width 2 [[[1; 3]]]
  /\ BiasFree_LayerNorm_forward [1; 1] [[[1; 3]]]
     = map (map (fun v => zip_with (fun xi wi => xi / sqrt (var v + 1e-5) * wi) v [1; 1]))
         [[[1; 3]]].
Proof.
  assert (seq_of_width 2 [[[1; 3]]]) as Hx by (repeat constructor).
  split; [reflexivity |]. split; [reflexivity |].
  split; [exact Hx |].
  apply (proj1 (@layer_norms_follow_their_formulas 2 [1; 1] [0; 0] [[[1; 3]]]
                  eq_refl eq_refl Hx)).
Defined.

(** The epsilon of the layer norms is the literal [1e-5] of the source. *)
Lemma layer_norm_eps_is_1e_5 : Q2R layer_norm_eps = eps.
Proof. unfold layer_norm_eps, eps, Q2R. simpl. lra. Qed.

Lemma Rsum_shift (c : R) (v : vec) :
  Rsum (map (fun xi => xi + c) v) = Rsum v + INR (List.length v) * c.
Proof.
  induction v as [| a v IH]; [simpl; lra |].
  change (List.length (a :: v)) with (S (List.length v)).
  rewrite S_INR. simpl. rewrite IH. lra.
Qed.

Lemma mean_shift (c : R) (v : vec) :
  v <> [] -> mean (map (fun xi => xi + c) v) = mean v + c.
Proof.
  intros Hv. unfold mean. rewrite Rsum_shift, length_map.
  assert (INR (List.length v) <> 0) as Hn.
  { apply not_0_INR. destruct v; [contradiction | discriminate]. }
  field. exact Hn.
Qed.

Lemma var_shift (c : R) (v : vec) : var (map (fun xi => xi + c) v) = var v.
Proof.
  destruct v as [| a v]; [reflexivity |].
  unfold var. rewrite mean_shift by discriminate.
  rewrite map_map. f_equal. apply map_ext. intros xi. ring.
Qed.



Lemma Rsum_scale (a : R) (v : vec) : Rsum (map (fun x => x * a) v) = Rsum v * a.
Proof. induction v as [| x v IH]; simpl; [lra | rewrite IH; lra]. Qed.

Lemma Rsum_squares_nonneg (v : vec) : 0 <= Rsum (map (fun x => x * x) v).
Proof.
  induction v as [| x v IH]; simpl; [lra |].
  pose proof (Rle_0_sqr x) as Hx. unfold Rsqr in Hx. lra.
Qed.

Lemma normalize_unit (v : vec) : 1e-12 <= l2norm v -> l2norm (normalize v) = 1.
Proof.
  intros Hn. unfold normalize. rewrite Rmax_left by exact Hn.
  set (n := l2norm v) in *.
  assert (0 < n) as Hpos by lra.
  unfold l2norm. rewrite map_map.
  replace (map (fun x => x / n * (x / n)) v)
    with (map (fun y => y * (/ (n * n))) (map (fun x => x * x) v)).
  2:{ rewrite map_map. apply map_ext. intros x. field. lra. }
  rewrite Rsum_scale.
  assert (Rsum (map (fun x => x * x) v) = n * n) as ->.
  { unfold n, l2norm. rewrite sqrt_sqrt; [reflexivity | apply Rsum_squares_nonneg]. }
  replace (n * n * / (n * n)) with 1 by (field; lra).
  apply sqrt_1.
Qed.

Lemma Rsum_exp_pos (s : vec) : s <> [] -> 0 < Rsum (map exp s).
Proof.
  intros Hs. destruct s as [| a s]; [contradiction |]. clear Hs. simpl.
  assert (0 <= Rsum (map exp s)) as H.
  { induction s as [| b s IH]; simpl; [lra |]. pose proof (exp_pos b). lra. }
  pose proof (exp_pos a). lra.
Qed.

Lemma softmax_distribution (s : vec) :
  s <> [] -> Rsum (softmax s) = 1 /\ Forall (fun a => 0 < a) (softmax s).
Proof.
  intros Hs. pose proof (Rsum_exp_pos Hs) as Hpos. unfold softmax. split.
  - replace (map (fun x => exp x / Rsum (map exp s)) s)
      with (map (fun y => y * / Rsum (map exp s)) (map exp s))
      by (rewrite map_map; reflexivity).
    rewrite Rsum_scale. field. lra.
  - apply Forall_map. apply Forall_forall. intros x _.
    apply Rdiv_lt_0_compat; [apply exp_pos | exact Hpos].
Qed.

Lemma map_nth_seq {A} (d : A) (l : list A) :
  map (fun j => nth j l d) (seq 0 (List.length l)) = l.
Proof.
  apply nth_ext with (d := d) (d' := d).
  - rewrite length_map, length_seq. reflexivity.
  - intros i Hi. rewrite length_map, length_seq in Hi.
    rewrite (nth_indep _ d (nth 0%nat l d)) by (rewrite length_map, length_seq; exact Hi).
    rewrite (map_nth (fun j => nth j l d)), seq_nth by exact Hi. reflexivity.
Qed.

Lemma map_over_indices {A B} (d : A) (f : A -> B) (l : list A) :
  map (fun j => f (nth j l d)) (seq 0 (List.length l)) = map f l.
Proof.
  rewrite <- (map_map (fun j => nth j l d) f). rewrite map_nth_seq. reflexivity.
Qed.

Lemma col_transpose (c n : nat) (k : mat) (j : nat) :
  rect c n k -> (j < c)%nat -> col j (transpose k) = nth j k [].
Proof.
  intros [Hlen Hrows] Hj. unfold col, transpose. rewrite map_map.
  assert (ncols k = n) as Hn.
  { destruct k as [| r k]; [simpl in Hlen; lia |]. inversion Hrows; assumption. }
  assert (List.length (nth j k []) = n) as Hrow.
  { rewrite Forall_forall in Hrows. apply Hrows. apply nth_In. lia. }
  rewrite Hn, <- Hrow.
  rewrite <- (map_nth_seq 0 (nth j k [])) at 2.
  apply map_ext. intros j'.
  rewrite (nth_indep (map (fun row : vec => nth j' row 0) k) 0
             ((fun row : vec => nth j' row 0) []))
    by (rewrite length_map; lia).
  rewrite (map_nth (fun row : vec => nth j' row 0)). reflexivity.
Qed.

Lemma ncols_transpose (c n : nat) (k : mat) :
  rect c n k -> (0 < n)%nat -> ncols (transpose k) = c.
Proof.
  intros [Hlen Hrows] Hn. unfold transpose.
  destruct k as [| r k].
  - simpl in *. congruence.
  - assert (List.length r = n) as Hr by (inversion Hrows; assumption).
    simpl ncols at 2. rewrite Hr.
    destruct n as [| n]; [lia |]. simpl. unfold col. rewrite length_map. exact Hlen.
Qed.

Lemma matmul_transpose (c n : nat) (q k : mat) :
  rect c n k -> (0 < n)%nat ->
  matmul q (transpose k) = map (fun qi => map (fun kj => dot qi kj) k) q.
Proof.
  intros Hk Hn. unfold matmul. rewrite (ncols_transpose Hk Hn).
  apply map_ext. intros qi.
  destruct Hk as [Hlen Hrows]. rewrite <- Hlen.
  etransitivity; [| apply (map_over_indices [] (fun kj => dot qi kj) k)].
  apply map_ext_in. intros j Hj. apply in_seq in Hj.
  rewrite (@col_transpose c n k j); [reflexivity | split; assumption | ]. rewrite <- Hlen. destruct Hj as [_ Hj]. exact Hj.
Qed.

Lemma rect_normalize (c n : nat) (k : mat) : rect c n k -> rect c n (map normalize k).
Proof.
  intros [Hlen Hrows]. split; [rewrite length_map; exact Hlen |].
  apply Forall_map. eapply Forall_impl; [| exact Hrows].
  intros row Hrow. simpl in *. unfold normalize. rewrite length_map. exact Hrow.
Qed.

Lemma attention_head_closed_form (t : R) (q k v : mat) (c n : nat) :
  rect c n k -> (0 < n)%nat ->
  attention_head t q k v
  = map (fun qi =>
           weighted_values
             (softmax (map (fun kj => dot (normalize qi) (normalize kj) * t) k)) v) q.
Proof.
  intros Hk Hn. unfold attention_head.
  rewrite (matmul_transpose (map normalize q) (rect_normalize Hk) Hn).
  unfold matmul, weighted_values. rewrite !map_map.
  apply map_ext. intros qi. rewrite !map_map. reflexivity.
Qed.

Lemma l2norm_single (a : R) : 0 <= a -> l2norm [a] = a.
Proof.
  intros Ha. unfold l2norm. simpl.
  replace (a * a + 0) with (a * a) by lra. apply sqrt_square. exact Ha.
Qed.

Lemma normalize_single (a : R) : 1e-12 <= a -> normalize [a] = [1].
Proof.
  intros Ha. unfold normalize. rewrite l2norm_single by lra.
  rewrite Rmax_left by exact Ha. simpl. f_equal. field. lra.
Qed.

Lemma normalize_zero : normalize [0] = [0].
Proof. unfold normalize. simpl. f_equal. lra. Qed.

Lemma normalize_3_4 : normalize [3; 4] = [3 / 5; 4 / 5].
Proof.
  unfold normalize.
  assert (l2norm [3; 4] = 5) as ->.
  { unfold l2norm. simpl. replace (3 * 3 + (4 * 4 + 0)) with (5 * 5) by lra.
    apply sqrt_square. lra. }
  rewrite Rmax_left by lra. reflexivity.
Qed.

Lemma normalize_1_0 : normalize [1; 0] = [1; 0].
Proof.
  unfold normalize.
  assert (l2norm [1; 0] = 1) as ->.
  { unfold l2norm. simpl. replace (1 * 1 + (0 * 0 + 0)) with (1 * 1) by lra.
    apply sqrt_square. lra. }
  rewrite Rmax_left by lra. simpl. f_equal; [lra | f_equal; lra].
Qed.

(** The code normalises each channel over the positions; normalising along
    the channel axis instead gives another output already for two channels
    and one position. *)
Lemma attention_normalizes_positions_not_channels :
  map normalize [[3]; [4]] = [[1]; [1]]
  /\ normalize_channel_axis [[3]; [4]] = [[3 / 5]; [4 / 5]]
  /\ attention_head 1 [[3]; [4]] [[1]; [0]] [[1]; [0]]
     <> attention_head_channel_axis 1 [[3]; [4]] [[1]; [0]] [[1]; [0]].
Proof.
  assert (normalize_channel_axis [[3]; [4]] = [[3 / 5]; [4 / 5]]) as Hq.
  { unfold normalize_channel_axis, transpose.
    cbn [col ncols map seq nth List.length].
    rewrite normalize_3_4. reflexivity. }
  assert (normalize_channel_axis [[1]; [0]] = [[1]; [0]]) as Hk.
  { unfold normalize_channel_axis, transpose.
    cbn [col ncols map seq nth List.length].
    rewrite normalize_1_0. reflexivity. }
  split; [| split; [exact Hq |]].
  - cbn [map]. rewrite !normalize_single by lra. reflexivity.
  - rewrite (@attention_head_closed_form 1 [[3]; [4]] [[1]; [0]] [[1]; [0]] 2 1);
      [| split; [reflexivity | repeat constructor] | lia].
    unfold attention_head_channel_axis. rewrite Hq, Hk.
    cbn [map]. rewrite !normalize_single by lra. rewrite normalize_zero.
    unfold matmul, transpose, weighted_values, softmax, dot.
    cbn [col ncols map seq nth List.length zip_with Rsum fold_right].
    intros H. injection H as H _.
    replace ((1 * 1 + 0) * 1) with 1 in H by lra.
    replace ((1 * 0 + 0) * 1) with 0 in H by lra.
    replace ((3 / 5 * 1 + 0) * 1) with (3 / 5) in H by lra.
    replace ((3 / 5 * 0 + 0) * 1) with 0 in H by lra.
    rewrite exp_0 in H.
    pose proof (exp_pos 1) as Ha. pose proof (exp_pos (3 / 5)) as Hb.
    assert (exp 1 = exp (3 / 5)) as He.
    { set (a := exp 1) in *. set (b := exp (3 / 5)) in *.
      assert (a / (a + 1) = b / (b + 1)) as Hab.
      { transitivity (a / (a + (1 + 0)) * 1 + (1 / (a + (1 + 0)) * 0 + 0));
          [field; lra |].
        rewrite H. field. lra. }
      assert (a * (b + 1) = b * (a + 1)) as Hx.
      { replace (a * (b + 1)) with (a / (a + 1) * ((a + 1) * (b + 1))) by (field; lra).
        rewrite Hab. field. lra. }
      nra. }
    apply exp_inv in He. lra.
Qed.

(** On the batch and head axes the core works element by element: one
    batch element with one head is one application of [attention_head]. *)
Lemma attention_core_single (t : R) (q k v : mat) :
  attention_core [t] [[q]] [[k]] [[v]] = [[attention_head t q k v]].
Proof. reflexivity. Qed.

(** [C6] The attention core on one head.  Each query and key channel is
    divided by its L2 norm over the flattened positions (the last axis of
    [b head c (h w)]), so it has norm 1 unless it is below the [1e-12]
    floor; the products of query and key channels are multiplied by the
    head's temperature; the softmax over the key channels gives positive
    weights that sum to 1; the output row of a query channel is the
    combination of the value channels with these weights.  On shapes, the
    module returns the channel width and size it was given. *)
Theorem attention_core_on_one_head (t : R) (q k v : mat) (c n : nat) :
  rect c n k -> (0 < n)%nat ->
  attention_head t q k v
  = map (fun qi =>
           weighted_values
             (softmax (map (fun kj => dot (normalize qi) (normalize kj) * t) k)) v) q
  /\ (forall u, 1e-12 <= l2norm u -> l2norm (normalize u) = 1)
  /\ (forall s, s <> [] -> Rsum (softmax s) = 1 /\ Forall (fun a => 0 < a) (softmax s))
  /\ (forall dim num_heads bias embed_dim g (m : Attention.t Shape) b h w,
        Attention.init dim num_heads bias embed_dim g = Ok m ->
        num_heads <> 0%N -> (dim mod num_heads = 0)%N -> (0 < h)%N -> (0 < w)%N ->
        Attention.forward m [b; dim; h; w] None = Ok [b; dim; h; w]).
Proof.
  intros Hk Hn. split; [apply (attention_head_closed_form t q v Hk Hn) |].
  split; [exact normalize_unit |]. split; [exact softmax_distribution |].
  intros dim num_heads bias embed_dim g m b h w Hinit Hh Hdiv Hpos_h Hpos_w.
  eapply Attention_forward_shape; try eassumption. left; reflexivity.
Qed.

Lemma attention_core_on_one_head_witness :
  rect 2 1 [[1]; [0]] /\ (0 < 1)%nat
  /\ attention_head 1 [[3]; [4]] [[1]; [0]] [[1]; [0]]
     = map (fun qi =>
              weighted_values
                (softmax (map (fun kj => dot (normalize qi) (normalize kj) * 1)
                            [[1]; [0]]))
                [[1]; [0]])
         [[3]; [4]].
Proof.
  assert (rect 2 1 [[1]; [0]]) as Hk by (split; [reflexivity | repeat constructor]).
  assert (0 < 1)%nat as Hn by constructor.
  split; [exact Hk |]. split; [exact Hn |].
  apply (proj1 (@attention_core_on_one_head 1 [[3]; [4]] [[1]; [0]] [[1]; [0]] 2 1 Hk Hn)).
Defined.
